(** * A shallow embedding of the mochi/chihaya BitTorrent tracker

    The development follows the Go packages of the repository:

    - [bittorrent]: peer identifiers, peers and their raw serialisation
      (NewPeerID, NewPeer, Peer.RawString);
    - [bencode] and [http]: the HTTP frontend writers
      (WriteError, WriteAnnounceResponse, WriteScrapeResponse);
    - [random] and [varinterval]: the interval-variation hook;
    - [pg]: the PostgreSQL peer store
      (Config.Validate, getPeers, AnnouncePeers, countPeers, ScrapeSwarm).

    Go values are modelled as follows: [string] is a Rocq [string] (a
    sequence of 8-bit characters), [[]byte] is a [list byte], fixed-width
    integers are [Z] with their wrap-around written out, a function
    returning [(T, error)] returns a pair whose second component is an
    [option error], and a Go map is a [gmap]. *)

From Stdlib Require Import ZArith NArith List Bool Lia QArith.
From Stdlib.Strings Require Import String Ascii Byte.
From Stdlib Require Import DecimalString.
From stdpp Require Import base option list gmap strings sorting.

Close Scope Q_scope.
Local Open Scope Z_scope.

(** ** Go runtime: bytes, slices and errors *)

Module golang.

(** [byte(z)]: conversion of an integer to a byte keeps the low 8 bits. *)
Definition byte_of_Z (z : Z) : byte :=
  match Byte.of_N (Z.to_N (z mod 256)) with
  | Some b => b
  | None => x00
  end.

Definition Z_of_byte (b : byte) : Z := Z.of_N (Byte.to_N b).

(** [make([]byte, n)]: a zeroed slice. *)
Definition make (n : nat) : list byte := repeat x00 n.

(** [b[lo:hi]] for [lo <= hi <= len(b)]. *)
Definition slice (b : list byte) (lo hi : nat) : list byte :=
  firstn (hi - lo) (skipn lo b).

(** [copy(b[lo:hi], src)]: copies [min(hi-lo, len(src))] bytes of [src]
    into [b] starting at offset [lo]; the length of [b] never changes. *)
Definition copy_into (b : list byte) (lo hi : nat) (src : list byte) : list byte :=
  let k := Nat.min (hi - lo) (length src) in
  firstn lo b ++ firstn k src ++ skipn (lo + k) b.

(** Wrap-around of fixed-width integers. *)
Definition wrap_uint64 (z : Z) : Z := z mod 2 ^ 64.
Definition wrap_uint32 (z : Z) : Z := z mod 2 ^ 32.
Definition wrap_uint16 (z : Z) : Z := z mod 2 ^ 16.
Definition wrap_int64 (z : Z) : Z := (z + 2 ^ 63) mod 2 ^ 64 - 2 ^ 63.

Definition MinInt64 : Z := - 2 ^ 63.
Definition MaxInt64 : Z := 2 ^ 63 - 1.
Definition is_int64 (z : Z) : Prop := MinInt64 <= z <= MaxInt64.
Definition is_uint16 (z : Z) : Prop := 0 <= z < 2 ^ 16.

#[local] Unset Elimination Schemes.

(** Go's [error] values.  [New] stands for [errors.New] and for
    [fmt.Errorf] without the wrapping verb; [ClientError] is
    [bittorrent.ClientError]; [Wrap] is [fmt.Errorf] with the wrapping
    verb (one [Unwrap() error]); [Join] is [errors.Join]
    (an [Unwrap() []error]). *)
Inductive error : Type :=
| New (msg : string)
| ClientError (msg : string)
| Wrap (msg : string) (inner : error)
| Join (errs : list error).

#[local] Set Elimination Schemes.

(** [errors.As(err, &clientErr)] with a target of type
    [bittorrent.ClientError]: depth-first search through the [Unwrap]
    chain for the first error of that type. *)
Fixpoint As_ClientError (err : error) : option string :=
  match err with
  | New _ => None
  | ClientError msg => Some msg
  | Wrap _ inner => As_ClientError inner
  | Join errs =>
      (fix first (l : list error) : option string :=
         match l with
         | [] => None
         | e :: l' =>
             match As_ClientError e with
             | Some m => Some m
             | None => first l'
             end
         end) errs
  end.

(** [binary.BigEndian]: the big-endian value of a byte sequence. *)
Definition BigEndian (b : list byte) : Z :=
  fold_left (fun acc x => acc * 256 + Z_of_byte x) b 0.

(** [binary.BigEndian.Uint64(b)] reads [b[0..7]]. *)
Definition Uint64 (b : list byte) : Z := BigEndian (firstn 8 b).

(** [binary.BigEndian.Uint16(b)] reads [b[0..1]]. *)
Definition Uint16 (b : list byte) : Z := BigEndian (firstn 2 b).

(** [binary.BigEndian.PutUint16(b[lo:lo+2], v)]. *)
Definition PutUint16 (b : list byte) (lo : nat) (v : Z) : list byte :=
  copy_into b lo (lo + 2) [byte_of_Z (Z.shiftr v 8); byte_of_Z v].

(** [err.Error()]: the message of an error; the message of a joined
    error is the messages of its parts, one per line. *)
Fixpoint Error (err : error) : string :=
  match err with
  | New msg => msg
  | ClientError msg => msg
  | Wrap msg _ => msg
  | Join errs =>
      (fix lines (l : list error) : string :=
         match l with
         | [] => EmptyString
         | [e] => Error e
         | e :: l' => (Error e ++ String "010"%char (lines l'))%string
         end) errs
  end.

End golang.

(** ** The standard library's [net/netip] addresses *)

Module netip.

(** A [netip.Addr] is the zero (invalid) address, an IPv4 address of
    4 bytes, or an IPv6 address of 16 bytes with an optional zone. *)
Inductive Addr : Type :=
| AddrZero
| Addr4 (a : list byte)
| Addr6 (a : list byte) (zone : string).

Definition Is4 (ip : Addr) : bool :=
  match ip with Addr4 _ => true | _ => false end.

Definition Is6 (ip : Addr) : bool :=
  match ip with Addr6 _ _ => true | _ => false end.

Definition IsValid (ip : Addr) : bool :=
  match ip with AddrZero => false | _ => true end.

(** The 12-byte prefix [::ffff:0:0/96] of an IPv4-mapped IPv6 address. *)
Definition v4InV6Prefix : list byte :=
  [x00; x00; x00; x00; x00; x00; x00; x00; x00; x00; xff; xff].

Definition bytes_eqb (a b : list byte) : bool :=
  if List.list_eq_dec Byte.byte_eq_dec a b then true else false.

Definition Is4In6 (ip : Addr) : bool :=
  match ip with
  | Addr6 a _ => bytes_eqb (firstn 12 a) v4InV6Prefix
  | _ => false
  end.

(** [Unmap] removes the IPv4-mapped prefix, if any. *)
Definition Unmap (ip : Addr) : Addr :=
  match ip with
  | Addr6 a _ => if Is4In6 ip then Addr4 (skipn 12 a) else ip
  | _ => ip
  end.

Definition BitLen (ip : Addr) : nat :=
  match ip with
  | AddrZero => 0
  | Addr4 _ => 32
  | Addr6 _ _ => 128
  end.

(** [AsSlice]: nil for the zero address, else the 4 or 16 bytes; the
    zone is not part of the slice. *)
Definition AsSlice (ip : Addr) : list byte :=
  match ip with
  | AddrZero => []
  | Addr4 a => a
  | Addr6 a _ => a
  end.

(** [AddrFromSlice]: a 4-byte slice is an IPv4 address, a 16-byte slice
    an IPv6 address without zone, anything else is refused. *)
Definition AddrFromSlice (b : list byte) : Addr * bool :=
  if (length b =? 4)%nat then (Addr4 b, true)
  else if (length b =? 16)%nat then (Addr6 b EmptyString, true)
  else (AddrZero, false).

(** [WithZone] on an IPv6 address; other addresses are unchanged. *)
Definition WithZone (ip : Addr) (zone : string) : Addr :=
  match ip with
  | Addr6 a _ => Addr6 a zone
  | _ => ip
  end.

Record AddrPort : Type := AddrPortFrom { ip : Addr; port : Z }.

End netip.

(** ** The standard library's [encoding/hex] *)

Module hex.
Import golang.

(** [hextable]: the digits of the encoder. *)
Definition hextable : list byte := list_byte_of_string "0123456789abcdef".

Definition hexdigit (n : Z) : byte := nth (Z.to_nat n) hextable x00.

(** [hex.Encode]: two digits per byte, [hextable[v>>4]] and
    [hextable[v&0x0f]]. *)
Fixpoint Encode (src : list byte) : list byte :=
  match src with
  | [] => []
  | v :: rest =>
      hexdigit (Z.shiftr (Z_of_byte v) 4)
        :: hexdigit (Z.land (Z_of_byte v) 15) :: Encode rest
  end.

(** [hex.EncodeToString]. *)
Definition EncodeToString (src : list byte) : string :=
  string_of_list_byte (Encode src).

(** [reverseHexTable]: the value of a digit in either case, and 255
    for any other byte. *)
Definition reverseHex (c : byte) : Z :=
  let n := Z_of_byte c in
  if (48 <=? n) && (n <=? 57) then n - 48
  else if (97 <=? n) && (n <=? 102) then n - 87
  else if (65 <=? n) && (n <=? 70) then n - 55
  else 255.

(** [strconv.IsPrint] on a rune below 256. *)
Definition IsPrint (r : Z) : bool :=
  ((32 <=? r) && (r <=? 126))
  || ((161 <=? r) && (r <=? 255) && negb (r =? 173)).

(** [utf8.EncodeRune] on a rune below 256: one byte, or two. *)
Definition EncodeRune (r : Z) : list byte :=
  if r <? 128 then [byte_of_Z r]
  else [byte_of_Z (Z.lor 192 (Z.shiftr r 6));
        byte_of_Z (Z.lor 128 (Z.land r 63))].

(** The digits of [fmt]'s [%U]. *)
Definition udigit (n : Z) : byte :=
  nth (Z.to_nat n) (list_byte_of_string "0123456789ABCDEF") x00.

(** [hex.InvalidByteError]: the message formats the byte as a rune
    with [%#U], the code point in four digits followed by the quoted
    character when it is printable. *)
Definition InvalidByteError (c : byte) : error :=
  let r := Z_of_byte c in
  New ("encoding/hex: invalid byte: U+00"
       ++ string_of_list_byte [udigit (Z.shiftr r 4); udigit (Z.land r 15)]
       ++ (if IsPrint r
           then " '" ++ string_of_list_byte (EncodeRune r) ++ "'"
           else EmptyString)).

(** [hex.ErrLength]. *)
Definition ErrLength : error :=
  New "encoding/hex: odd length hex string".

(** [hex.Decode]: the bytes decoded so far and the error, if any. *)
Fixpoint Decode (src : list byte) (dst : list byte) : list byte * option error :=
  match src with
  | [] => (dst, None)
  | [p] =>
      if 15 <? reverseHex p then (dst, Some (InvalidByteError p))
      else (dst, Some ErrLength)
  | p :: q :: rest =>
      let a := reverseHex p in
      let b := reverseHex q in
      if 15 <? a then (dst, Some (InvalidByteError p))
      else if 15 <? b then (dst, Some (InvalidByteError q))
      else Decode rest (dst ++ [byte_of_Z (Z.lor (Z.shiftl a 4) b)])
  end.

(** [hex.DecodeString]. *)
Definition DecodeString (s : string) : list byte * option error :=
  Decode (list_byte_of_string s) [].

End hex.

(** ** Package [bittorrent] *)

Module bittorrent.
Import golang.

Definition PeerIDLen : nat := 20.

(** [type PeerID [PeerIDLen]byte]: a list of bytes of length [PeerIDLen]. *)
Definition PeerID : Type := list byte.

Definition ErrInvalidPeerIDSize : error :=
  New "peer ID must be 20 bytes".

Definition ErrInvalidIP : error := New "invalid IP".

(** [NewPeerID] creates a PeerID from a byte slice. *)
Definition NewPeerID (b : list byte) : PeerID * option error :=
  let p := make PeerIDLen in
  if negb (length b =? PeerIDLen)%nat then (p, Some ErrInvalidPeerIDSize)
  else (copy_into p 0 PeerIDLen b, None).

(** [type InfoHash string]. *)
Definition InfoHash : Type := string.

Definition InfoHashV1Len : nat := 20.
Definition InfoHashV2Len : nat := 32.
Definition NoneInfoHash : InfoHash := EmptyString.

(** [type Peer struct { ID PeerID; netip.AddrPort }]. *)
Record Peer : Type := mkPeer { ID : PeerID; AddrPort : netip.AddrPort }.

Definition zeroPeer : Peer :=
  mkPeer (make PeerIDLen) (netip.AddrPortFrom netip.AddrZero 0).

(** [Peer.Addr] returns the unmapped address of the peer. *)
Definition Addr (p : Peer) : netip.Addr :=
  netip.Unmap (netip.ip (AddrPort p)).

Definition Port (p : Peer) : Z := netip.port (AddrPort p).

Definition IPv4len : nat := 4.
Definition PeerMinimumLen : nat := PeerIDLen + 2 + IPv4len.

Definition ErrInvalidPeerDataSize : error :=
  New "invalid peer data it must be at least 26 bytes (InfoHash + Port + IPv4)".

(** [NewPeer] constructs a Peer from data serialised by [RawString]:
    PeerID (20 bytes), port (2 bytes), IP (4 or 16 bytes). *)
Definition NewPeer (data : string) : Peer * option error :=
  if (String.length data <? PeerMinimumLen)%nat then
    (zeroPeer, Some ErrInvalidPeerDataSize)
  else
    let b := list_byte_of_string data in
    let '(peerID, err) := NewPeerID (slice b 0 PeerIDLen) in
    match err with
    | None =>
        let '(addr, isOk) := netip.AddrFromSlice (skipn (PeerIDLen + 2) b) in
        if isOk then
          (mkPeer peerID
             (netip.AddrPortFrom (netip.Unmap addr)
                (Uint16 (slice b PeerIDLen (PeerIDLen + 2)))),
           None)
        else (zeroPeer, Some ErrInvalidIP)
    | Some e => (zeroPeer, Some e)
    end.

(** [Peer.RawString] is the concatenation of PeerID, port and IP. *)
Definition RawString (p : Peer) : string :=
  let ip := Addr p in
  let b := make (PeerIDLen + 2 + netip.BitLen ip / 8) in
  let b := copy_into b 0 PeerIDLen (ID p) in
  let b := PutUint16 b PeerIDLen (Port p) in
  let b := copy_into b (PeerIDLen + 2) (length b) (netip.AsSlice ip) in
  string_of_list_byte b.

(** [type AnnounceRequest]: the fields of a parsed announce. *)
Record AnnounceRequest : Type := mkAnnounceRequest {
  Event : Z;
  req_InfoHash : InfoHash;
  req_Compact : bool;
  EventProvided : bool;
  NumWantProvided : bool;
  IPProvided : bool;
  NumWant : Z;
  Left : Z;
  Downloaded : Z;
  Uploaded : Z;
  req_Peer : Peer
}.

(** [type AnnounceResponse]; the intervals are [time.Duration]s, signed
    64-bit counts of nanoseconds. *)
Record AnnounceResponse : Type := mkAnnounceResponse {
  Compact : bool;
  Complete : Z;
  Incomplete : Z;
  Interval : Z;
  MinInterval : Z;
  IPv4Peers : list Peer;
  IPv6Peers : list Peer
}.

(** [type Scrape] and [type ScrapeResponse]. *)
Record Scrape : Type := mkScrape {
  scrape_InfoHash : InfoHash;
  Snatches : Z;
  scrape_Complete : Z;
  scrape_Incomplete : Z
}.

Record ScrapeResponse : Type := mkScrapeResponse { Files : list Scrape }.

(** [PeerID.String] returns the base16 encoded PeerID. *)
Definition PeerID_String (p : PeerID) : string := hex.EncodeToString p.

(** [PeerID.RawString] returns a 20-byte string of the raw bytes of the
    ID. *)
Definition PeerID_RawString (p : PeerID) : string := string_of_list_byte p.

Definition ErrInvalidHashType : error :=
  New "info hash must be provided as byte slice or raw/hex string".

Definition ErrInvalidHashSize : error :=
  New "info hash must be either 20 (for torrent V1) or 32 (V2) bytes".

(** [InfoHash.TruncateV1]: a 32-byte infohash is cut to its first 20
    bytes, any other is returned as it is. *)
Definition TruncateV1 (i : InfoHash) : InfoHash :=
  if (String.length i =? InfoHashV2Len)%nat
  then substring 0 InfoHashV1Len i
  else i.

(** The dynamic argument of [NewInfoHash]: nil, a 20-byte or a 32-byte
    array, a byte slice, a string, or a value of another type. *)
Inductive hash_data : Type :=
| DataNil
| DataArrayV1 (t : list byte)
| DataArrayV2 (t : list byte)
| DataBytes (t : list byte)
| DataString (t : string)
| DataOther.

(** [NewInfoHash] creates an InfoHash from a byte slice or raw/hex
    string. *)
Definition NewInfoHash (data : hash_data) : InfoHash * option error :=
  match data with
  | DataNil => (NoneInfoHash, Some ErrInvalidHashType)
  | _ =>
      let decoded : list byte * option error :=
        match data with
        | DataArrayV1 t | DataArrayV2 t | DataBytes t => (t, None)
        | DataString t =>
            let l := String.length t in
            if (l =? InfoHashV1Len * 2)%nat || (l =? InfoHashV2Len * 2)%nat
            then hex.DecodeString t
            else (list_byte_of_string t, None)
        | _ => ([], None)
        end in
      match decoded with
      | (_, Some err) => (NoneInfoHash, Some err)
      | (ba, None) =>
          let l := length ba in
          if negb (l =? InfoHashV1Len)%nat && negb (l =? InfoHashV2Len)%nat
          then (NoneInfoHash, Some ErrInvalidHashSize)
          else (string_of_list_byte ba, None)
      end
  end.

(** [InfoHash.String] returns the base16 encoded InfoHash. *)
Definition InfoHash_String (i : InfoHash) : string :=
  hex.EncodeToString (list_byte_of_string i).

(** [InfoHash.RawString] returns the raw bytes of the InfoHash. *)
Definition InfoHash_RawString (i : InfoHash) : string := i.

(** [ClientError.Error]. *)
Definition ClientError_Error (c : string) : string := c.

End bittorrent.

(** ** The standard library's [net.IP] *)

Module net.

(** [IP.Equal]: equal byte sequences, or an IPv4 address of 4 bytes and
    the same address in its 16-byte IPv4-mapped form. *)
Definition IP_Equal (ip x : list byte) : bool :=
  if (length ip =? length x)%nat then netip.bytes_eqb ip x
  else if (length ip =? 4)%nat && (length x =? 16)%nat then
    netip.bytes_eqb (firstn 12 x) netip.v4InV6Prefix
    && netip.bytes_eqb ip (skipn 12 x)
  else if (length ip =? 16)%nat && (length x =? 4)%nat then
    netip.bytes_eqb (firstn 12 ip) netip.v4InV6Prefix
    && netip.bytes_eqb (skipn 12 ip) x
  else false.

End net.

(** ** Package [bittorrent], as of [bittorrent/bittorrent.go]

    This revision of the package has the same [NewPeerID] and
    [NewInfoHash]; it differs in [TruncateV1] and in its peers, which
    carry a [net.IP] with an address family. *)

Module chihaya.
Import golang.

(** [InfoHash.TruncateV1] is [i[:InfoHashV1Len]]: the slice expression
    panics ([None]) on an infohash shorter than 20 bytes. *)
Definition TruncateV1 (i : bittorrent.InfoHash) : option bittorrent.InfoHash :=
  if (String.length i <? bittorrent.InfoHashV1Len)%nat then None
  else Some (substring 0 bittorrent.InfoHashV1Len i).

(** [type AddressFamily uint8] with the constants [IPv4] and [IPv6]. *)
Definition AddressFamily : Type := Z.
Definition IPv4 : AddressFamily := 0.
Definition IPv6 : AddressFamily := 1.

(** [AddressFamily.String]; it panics ([None]) on an unknown family. *)
Definition AddressFamily_String (af : AddressFamily) : option string :=
  if af =? IPv4 then Some "IPv4"%string
  else if af =? IPv6 then Some "IPv6"%string
  else None.

(** [type IP struct { net.IP; AddressFamily }]. *)
Record IP : Type := mkIP { ip_IP : list byte; ip_AddressFamily : AddressFamily }.

(** [type Peer struct { ID PeerID; IP IP; Port uint16 }]. *)
Record Peer : Type := mkPeer { ID : bittorrent.PeerID; peer_IP : IP; Port : Z }.

(** [Peer.EqualEndpoint] reports whether p and x have the same
    endpoint. *)
Definition EqualEndpoint (p x : Peer) : bool :=
  (Port p =? Port x) && net.IP_Equal (ip_IP (peer_IP p)) (ip_IP (peer_IP x)).

(** [Peer.Equal] reports whether p and x are the same. *)
Definition Equal (p x : Peer) : bool :=
  EqualEndpoint p x && netip.bytes_eqb (ID p) (ID x).

End chihaya.

(** ** The bencode encoder used by the HTTP frontend *)

Module bencode.

(** The values the frontend hands to [bencode.NewEncoder(w).Encode]:
    integers, byte strings, lists and dictionaries.  A [Dict] carries
    its entries in the order in which they are written. *)
#[local] Unset Elimination Schemes.

Inductive value : Type :=
| Int (z : Z)
| Str (s : string)
| List (l : list value)
| Dict (entries : list (string * value)).

#[local] Set Elimination Schemes.

Definition decimal (z : Z) : string := NilZero.string_of_int (Z.to_int z).

Definition EncodeString (s : string) : string :=
  (decimal (Z.of_nat (String.length s)) ++ ":" ++ s)%string.

(** The wire form: [i<n>e], [<len>:<bytes>], [l...e], [d...e]. *)
Fixpoint Encode (v : value) : string :=
  match v with
  | Int z => ("i" ++ decimal z ++ "e")%string
  | Str s => EncodeString s
  | List l =>
      ("l" ++
       (fix items (l : list value) : string :=
          match l with
          | [] => EmptyString
          | x :: l' => (Encode x ++ items l')%string
          end) l ++ "e")%string
  | Dict entries =>
      ("d" ++
       (fix items (l : list (string * value)) : string :=
          match l with
          | [] => EmptyString
          | (k, x) :: l' => (EncodeString k ++ Encode x ++ items l')%string
          end) entries ++ "e")%string
  end.

(** Byte-wise lexicographic order of dictionary keys
    ([sort.Sort] on the map's keys). *)
Definition key_le (a b : string * value) : Prop :=
  String.leb (fst a) (fst b) = true.

#[global] Instance key_le_dec (a b : string * value) : Decision (key_le a b).
Proof. unfold key_le. apply bool_eq_dec. Defined.

(** A Go [map[string]any] handed to the encoder: the encoder reads the
    keys of the map, sorts them and writes the entries in that order. *)
Definition ofMap (m : gmap string value) : value :=
  Dict (merge_sort key_le (map_to_list m)).

Definition entries (v : value) : list (string * value) :=
  match v with
  | Dict es => es
  | _ => []
  end.

End bencode.

(** ** The HTTP frontend: writers of bencoded responses *)

Module http.
Import golang bittorrent.

Definition StatusOK : Z := 200.

(** The part of an [http.ResponseWriter] that the writers use: the
    status line is fixed by the first [WriteHeader] (or by the first
    [Write], which implies [WriteHeader(StatusOK)]); the body grows with
    every [Write]. *)
Record ResponseWriter : Type := mkResponseWriter {
  wroteHeader : bool;
  status : Z;
  body : string
}.

Definition newResponseWriter : ResponseWriter :=
  mkResponseWriter false StatusOK EmptyString.

Definition WriteHeader (w : ResponseWriter) (code : Z) : ResponseWriter :=
  if wroteHeader w then w else mkResponseWriter true code (body w).

Definition Write (w : ResponseWriter) (data : string) : ResponseWriter :=
  let w := WriteHeader w StatusOK in
  mkResponseWriter (wroteHeader w) (status w) (body w ++ data).

(** [bencode.NewEncoder(w).Encode(v)]. *)
Definition Encode (w : ResponseWriter) (v : bencode.value)
  : ResponseWriter * option error :=
  (Write w (bencode.Encode v), None).

(** [WriteError] communicates an error to a BitTorrent client over
    HTTP.  Logging has no effect on the response and is left out. *)
Definition WriteError (w : ResponseWriter) (err : option error) : ResponseWriter :=
  let message := "internal server error"%string in
  let message :=
    match err with
    | Some e =>
        match As_ClientError e with
        | Some clientErr => clientErr
        | None => message
        end
    | None => message
    end in
  let w := WriteHeader w StatusOK in
  fst (Encode w (bencode.ofMap {[ "failure reason"%string := bencode.Str message ]})).

(** [time.Second], in nanoseconds. *)
Definition Second : Z := 1000000000.

(** [Addr.As4]: the 4-byte form of an IPv4 or IPv4-mapped address; the
    call panics ([None]) on the zero address and on other IPv6
    addresses. *)
Definition As4 (ip : netip.Addr) : option (list byte) :=
  match ip with
  | netip.Addr4 a => Some a
  | netip.Addr6 a _ => if netip.Is4In6 ip then Some (skipn 12 a) else None
  | netip.AddrZero => None
  end.

(** [Addr.As16]: the 16-byte form; an IPv4 address is returned in its
    IPv4-mapped form, the zero address as 16 zero bytes. *)
Definition As16 (ip : netip.Addr) : list byte :=
  match ip with
  | netip.Addr4 a => netip.v4InV6Prefix ++ a
  | netip.Addr6 a _ => a
  | netip.AddrZero => make 16
  end.

Definition port_bytes (port : Z) : list byte :=
  [byte_of_Z (Z.shiftr port 8); byte_of_Z (Z.land port 255)].

Definition compact4 (peer : Peer) : option (list byte) :=
  match As4 (Addr peer) with
  | Some ip => Some (ip ++ port_bytes (Port peer))
  | None => None
  end.

Definition compact6 (peer : Peer) : list byte :=
  As16 (Addr peer) ++ port_bytes (Port peer).

Section announce.

(** How the encoder writes a [netip.Addr] held in an [any]; this is
    decided by the encoder library. *)
Variable AddrValue : netip.Addr -> bencode.value.

Definition dict (peer : Peer) : bencode.value :=
  bencode.ofMap
    (<[ "peer id"%string := bencode.Str (string_of_list_byte (ID peer)) ]>
     (<[ "ip"%string := AddrValue (Addr peer) ]>
      {[ "port"%string := bencode.Int (Port peer) ]})).

(** The IPv4 peers in compact form; [None] when [compact4] panics. *)
Fixpoint compact4_all (peers : list Peer) : option (list byte) :=
  match peers with
  | [] => Some []
  | peer :: rest =>
      match compact4 peer, compact4_all rest with
      | Some b, Some bs => Some (b ++ bs)
      | _, _ => None
      end
  end.

Definition compact6_all (peers : list Peer) : list byte :=
  flat_map compact6 peers.

(** The dictionary that [WriteAnnounceResponse] builds, together with
    the response as the function leaves it (the intervals are updated in
    place); [None] when a [compact4] call panics. *)
Definition announce_bdict (resp : AnnounceResponse)
  : option (AnnounceResponse * gmap string bencode.value) :=
  let resp :=
    if 0 <? Interval resp
    then mkAnnounceResponse (Compact resp) (Complete resp) (Incomplete resp)
           (Z.quot (Interval resp) Second) (MinInterval resp)
           (IPv4Peers resp) (IPv6Peers resp)
    else resp in
  let resp :=
    if 0 <? Interval resp
    then mkAnnounceResponse (Compact resp) (Complete resp) (Incomplete resp)
           (Interval resp) (Z.quot (MinInterval resp) Second)
           (IPv4Peers resp) (IPv6Peers resp)
    else resp in
  let bdict : gmap string bencode.value :=
    <[ "complete"%string := bencode.Int (Complete resp) ]>
    (<[ "incomplete"%string := bencode.Int (Incomplete resp) ]>
     (<[ "interval"%string := bencode.Int (Interval resp) ]>
      {[ "min interval"%string := bencode.Int (MinInterval resp) ]})) in
  if Compact resp then
    match compact4_all (IPv4Peers resp) with
    | None => None
    | Some ipv4CompactDict =>
        let bdict :=
          if (0 <? length ipv4CompactDict)%nat
          then <[ "peers"%string :=
                    bencode.Str (string_of_list_byte ipv4CompactDict) ]> bdict
          else bdict in
        let ipv6CompactDict := compact6_all (IPv6Peers resp) in
        let bdict :=
          if (0 <? length ipv6CompactDict)%nat
          then <[ "peers6"%string :=
                    bencode.Str (string_of_list_byte ipv6CompactDict) ]> bdict
          else bdict in
        Some (resp, bdict)
    end
  else
    let peers := map dict (IPv4Peers resp) ++ map dict (IPv6Peers resp) in
    Some (resp, <[ "peers"%string := bencode.List peers ]> bdict).

(** [WriteAnnounceResponse] communicates the results of an announce to
    a BitTorrent client over HTTP. *)
Definition WriteAnnounceResponse (w : ResponseWriter) (resp : AnnounceResponse)
  : option (ResponseWriter * AnnounceResponse * option error) :=
  match announce_bdict resp with
  | None => None
  | Some (resp, bdict) =>
      let '(w, err) := Encode w (bencode.ofMap bdict) in
      Some (w, resp, err)
  end.

End announce.

(** The [files] dictionary of a scrape response: one entry per
    infohash, a later scrape of the same infohash replacing an earlier
    one. *)
Definition filesDict (resp : ScrapeResponse) : gmap string bencode.value :=
  fold_left
    (fun (filesDict : gmap string bencode.value) (scrape : Scrape) =>
       <[ scrape_InfoHash scrape :=
            bencode.ofMap
              (<[ "complete"%string := bencode.Int (scrape_Complete scrape) ]>
               {[ "incomplete"%string := bencode.Int (scrape_Incomplete scrape) ]}) ]>
       filesDict)
    (Files resp) ∅.


End http.

(** ** Package [random]: entropy derived from a request *)

Module random.
Import golang bittorrent.

(** [DeriveEntropyFromRequest] generates 2*64 bits of pseudo random
    state from an announce request. *)
Definition DeriveEntropyFromRequest (req : AnnounceRequest) : Z * Z :=
  let ih := list_byte_of_string (req_InfoHash req) in
  let v0 :=
    if (InfoHashV1Len <=? String.length (req_InfoHash req))%nat
    then wrap_uint64 (Uint64 (slice ih 0 8) + Uint64 (slice ih 8 16))
    else 0 in
  let v1 :=
    wrap_uint64 (Uint64 (slice (ID (req_Peer req)) 0 8)
                 + Uint64 (slice (ID (req_Peer req)) 8 16)) in
  (v0, v1).

End random.

(** ** Package [varinterval]: the interval-variation hook *)

Module varinterval.
Import golang bittorrent.

(** [type Config].  [ModifyResponseProbability] is a [float32]; its
    finite values are rationals, and the hook only compares it with 0,
    with 1 and with a multiple of [2^-24], so the comparisons are exact
    on [Q]. *)
Record Config : Type := mkConfig {
  ModifyResponseProbability : Q;
  MaxIncreaseDelta : Z;
  ModifyMinInterval : bool
}.

Definition ErrInvalidModifyResponseProbability : error :=
  New "invalid modify_response_probability".

Definition ErrInvalidMaxIncreaseDelta : error :=
  New "invalid max_increase_delta".

Definition Qltb (a b : Q) : bool := negb (Qle_bool b a).

Definition checkConfig (cfg : Config) : option error :=
  if Qle_bool (ModifyResponseProbability cfg) (0 # 1)
     || Qltb (1 # 1) (ModifyResponseProbability cfg)
  then Some ErrInvalidModifyResponseProbability
  else if MaxIncreaseDelta cfg <=? 0 then Some ErrInvalidMaxIncreaseDelta
  else None.

(** [time.Second], in nanoseconds. *)
Definition Second : Z := 1000000000.

Section hook.

(** [random.Intn(s0, s1, n)]: the generator of the repository's
    [random] package, which returns a number and the next state. *)
Variable Intn : Z -> Z -> Z -> Z * Z * Z.

(** [NewHook] returns a hook for a configuration that passes
    [checkConfig]. *)
Definition NewHook (cfg : Config) : option Config * option error :=
  match checkConfig cfg with
  | Some err => (None, Some err)
  | None => (Some cfg, None)
  end.

(** [hook.HandleAnnounce]; the context is returned as it was given. *)
Definition HandleAnnounce {Ctx : Type} (cfg : Config) (ctx : Ctx)
    (req : AnnounceRequest) (resp : AnnounceResponse)
  : Ctx * AnnounceResponse * option error :=
  let '(s0, s1) := random.DeriveEntropyFromRequest req in
  let '(v, s0, s1) := Intn s0 s1 (2 ^ 24) in
  let p := Qmake v (2 ^ 24) in
  if Qeq_bool (ModifyResponseProbability cfg) (1 # 1)
     || Qltb p (ModifyResponseProbability cfg)
  then
    let '(v, _, _) := Intn s0 s1 (MaxIncreaseDelta cfg) in
    let add := wrap_int64 (wrap_int64 (v + 1) * Second) in
    let resp :=
      mkAnnounceResponse (Compact resp) (Complete resp) (Incomplete resp)
        (wrap_int64 (Interval resp + add)) (MinInterval resp)
        (IPv4Peers resp) (IPv6Peers resp) in
    let resp :=
      if ModifyMinInterval cfg
      then mkAnnounceResponse (Compact resp) (Complete resp) (Incomplete resp)
             (Interval resp) (wrap_int64 (MinInterval resp + add))
             (IPv4Peers resp) (IPv6Peers resp)
      else resp in
    (ctx, resp, None)
  else (ctx, resp, None).

End hook.

End varinterval.

(** ** Package [strings]: the two functions used by the store *)

Module strings.

(** [asciiSpace], which is [unicode.IsSpace] on the ASCII bytes: tab,
    line feed, vertical tab, form feed, carriage return and space. *)
Definition isSpace (c : ascii) : bool :=
  match N_of_ascii c with
  | 9%N | 10%N | 11%N | 12%N | 13%N | 32%N => true
  | _ => false
  end.

(** [unicode.IsSpace] on the runes that UTF-8 encodes in two bytes:
    U+0085 (NEL) and U+00A0 (NBSP), the bytes [C2 85] and [C2 A0]. *)
Definition isSpace2 (a b : ascii) : bool :=
  match N_of_ascii a, N_of_ascii b with
  | 194%N, (133%N | 160%N) => true
  | _, _ => false
  end.

(** [unicode.IsSpace] on the runes that UTF-8 encodes in three bytes:
    U+1680 ([E1 9A 80]), U+2000 to U+200A ([E2 80 80] to [E2 80 8A]),
    U+2028, U+2029 and U+202F ([E2 80 A8], [E2 80 A9], [E2 80 AF]),
    U+205F ([E2 81 9F]) and U+3000 ([E3 80 80]).  No rune of four
    bytes is white space. *)
Definition isSpace3 (a b c : ascii) : bool :=
  match N_of_ascii a, N_of_ascii b, N_of_ascii c with
  | 225%N, 154%N, 128%N => true
  | 226%N, 128%N, n =>
      ((128 <=? n) && (n <=? 138))%N || (n =? 168)%N || (n =? 169)%N
      || (n =? 175)%N
  | 226%N, 129%N, 159%N => true
  | 227%N, 128%N, 128%N => true
  | _, _, _ => false
  end.

(** [strings.TrimLeftFunc(s, unicode.IsSpace)]: the runes are decoded
    from the front; a string begins with a white space rune exactly
    when it begins with the bytes of one, and an invalid byte decodes
    to U+FFFD, which is no white space. *)
Fixpoint TrimLeft (s : string) : string :=
  match s with
  | EmptyString => EmptyString
  | String a s1 =>
      if isSpace a then TrimLeft s1
      else
        match s1 with
        | EmptyString => s
        | String b s2 =>
            if isSpace2 a b then TrimLeft s2
            else
              match s2 with
              | EmptyString => s
              | String c s3 => if isSpace3 a b c then TrimLeft s3 else s
              end
        end
  end.

(** The same from the back, on the bytes in reverse order:
    [utf8.DecodeLastRuneInString] finds a white space rune exactly when
    the string ends with the bytes of one. *)
Fixpoint trimReversed (r : list ascii) : list ascii :=
  match r with
  | [] => []
  | c :: r1 =>
      if isSpace c then trimReversed r1
      else
        match r1 with
        | [] => r
        | b :: r2 =>
            if isSpace2 b c then trimReversed r2
            else
              match r2 with
              | [] => r
              | a :: r3 => if isSpace3 a b c then trimReversed r3 else r
              end
        end
  end.

(** [strings.TrimRightFunc(s, unicode.IsSpace)]. *)
Definition TrimRight (s : string) : string :=
  string_of_list_ascii
    (List.rev (trimReversed (List.rev (list_ascii_of_string s)))).

(** [strings.TrimSpace]: leading and trailing white space, as Unicode
    defines it, is removed.  (The ASCII fast path of the function gives
    the same result as trimming by runes.) *)
Definition TrimSpace (s : string) : string := TrimRight (TrimLeft s).

Definition toUpper (c : ascii) : ascii :=
  let n := N_of_ascii c in
  if ((97 <=? n) && (n <=? 122))%N then ascii_of_N (n - 32) else c.

(** [strings.ToUpper] on a string of ASCII bytes: the letters [a] to
    [z] are mapped to [A] to [Z].  On a string with a byte above 127 Go
    maps every rune through [unicode.ToUpper] and replaces invalid
    UTF-8; the Unicode case tables are not part of this development,
    and there the definition below leaves the other bytes as they are.
    The statements that depend on the upper-case form of a name say so
    and take names of ASCII bytes. *)
Fixpoint ToUpper (s : string) : string :=
  match s with
  | EmptyString => EmptyString
  | String c s' => String (toUpper c) (ToUpper s')
  end.

End strings.

(** ** Package [pg]: the PostgreSQL peer store *)

Module pg.
Import golang bittorrent strings.

Definition defaultPingQuery : string := "SELECT 0".

Definition errConnectionStringNotProvided : error :=
  New "database address not provided".

(** [fmt.Errorf(errRequiredParameterNotSetMsg, name)]. *)
Definition errRequiredParameterNotSet (name : string) : error :=
  New ("required parameter not provided: " ++ name).

(** [fmt.Errorf(errRequiredColumnsNotFoundMsg, []string{...})]. *)
Definition errRequiredColumnsNotFound (columns : list string) : error :=
  New ("one or more required columns not found in result set: ["
       ++ String.concat " " columns ++ "]").

(** [storage.ErrResourceDoesNotExist]. *)
Definition ErrResourceDoesNotExist : error := New "resource does not exist".

(** [type Config]. *)
Record PeerConfig : Type := mkPeerConfig {
  Peer_AddQuery : string;
  Peer_DelQuery : string;
  GraduateQuery : string;
  CountQuery : string;
  CountSeedersColumn : string;
  CountLeechersColumn : string;
  ByInfoHashClause : string
}.

Record AnnounceConfig : Type := mkAnnounceConfig {
  Announce_Query : string;
  PeerIDColumn : string;
  AddressColumn : string;
  PortColumn : string
}.

Record DataConfig : Type := mkDataConfig {
  Data_AddQuery : string;
  Data_GetQuery : string;
  Data_DelQuery : string
}.

Record Config : Type := mkConfig {
  ConnectionString : string;
  PingQuery : string;
  Peer : PeerConfig;
  Announce : AnnounceConfig;
  Data : DataConfig;
  GCQuery : string;
  InfoHashCountQuery : string
}.

(** The closure [fn] of [Validate]: trims the parameter in place and
    reports an empty one. *)
Definition fn (p name : string) : string * option error :=
  let p := TrimSpace p in
  if (String.length p =? 0)%nat
  then (p, Some (errRequiredParameterNotSet name))
  else (p, None).

(** [if err := fn(&validCfg.X, name); err != nil { return cfg, err }]. *)
Definition required (cfg : Config) (r : string * option error)
    (k : string -> Config * option error) : Config * option error :=
  match r with
  | (_, Some err) => (cfg, Some err)
  | (p, None) => k p
  end.

Definition set_PeerIDColumn (c : Config) (v : string) : Config :=
  mkConfig (ConnectionString c) (PingQuery c) (Peer c)
    (mkAnnounceConfig (Announce_Query (Announce c)) v
       (AddressColumn (Announce c)) (PortColumn (Announce c)))
    (Data c) (GCQuery c) (InfoHashCountQuery c).

Definition set_CountSeedersColumn (c : Config) (v : string) : Config :=
  let p := Peer c in
  mkConfig (ConnectionString c) (PingQuery c)
    (mkPeerConfig (Peer_AddQuery p) (Peer_DelQuery p) (GraduateQuery p)
       (CountQuery p) v (CountLeechersColumn p) (ByInfoHashClause p))
    (Announce c) (Data c) (GCQuery c) (InfoHashCountQuery c).

Definition set_CountLeechersColumn (c : Config) (v : string) : Config :=
  let p := Peer c in
  mkConfig (ConnectionString c) (PingQuery c)
    (mkPeerConfig (Peer_AddQuery p) (Peer_DelQuery p) (GraduateQuery p)
       (CountQuery p) (CountSeedersColumn p) v (ByInfoHashClause p))
    (Announce c) (Data c) (GCQuery c) (InfoHashCountQuery c).

(** [Config.Validate] sanity checks the values of a config and returns
    a new config; on an error it returns the config it was given. *)
Definition Validate (cfg : Config) : Config * option error :=
  let connectionString := TrimSpace (ConnectionString cfg) in
  if (String.length connectionString =? 0)%nat
  then (cfg, Some errConnectionStringNotProvided)
  else
  let pingQuery :=
    if (String.length (PingQuery cfg) =? 0)%nat
    then defaultPingQuery else PingQuery cfg in
  required cfg (fn (Peer_AddQuery (Peer cfg)) "Peer.AddQuery") (fun peerAddQuery =>
  required cfg (fn (Peer_DelQuery (Peer cfg)) "Peer.DelQuery") (fun peerDelQuery =>
  required cfg (fn (GraduateQuery (Peer cfg)) "Peer.GraduateQuery") (fun graduateQuery =>
  required cfg (fn (CountQuery (Peer cfg)) "Peer.CountQuery") (fun countQuery =>
  required cfg (fn (CountSeedersColumn (Peer cfg)) "Peer.CountSeedersColumn") (fun countSeedersColumn =>
  required cfg (fn (CountLeechersColumn (Peer cfg)) "Peer.CountLeechersColumn") (fun countLeechersColumn =>
  required cfg (fn (ByInfoHashClause (Peer cfg)) "Peer.ByInfoHashClause") (fun byInfoHashClause =>
  required cfg (fn (Announce_Query (Announce cfg)) "Announce.Query") (fun announceQuery =>
  required cfg (fn (PeerIDColumn (Announce cfg)) "Announce.PeerIDColumn") (fun peerIDColumn =>
  required cfg (fn (AddressColumn (Announce cfg)) "Announce.AddressColumn") (fun addressColumn =>
  required cfg (fn (PortColumn (Announce cfg)) "Announce.PortColumn") (fun portColumn =>
  required cfg (fn (Data_AddQuery (Data cfg)) "Data.AddQuery") (fun dataAddQuery =>
  required cfg (fn (Data_GetQuery (Data cfg)) "Data.GetQuery") (fun dataGetQuery =>
  required cfg (fn (Data_DelQuery (Data cfg)) "Data.DelQuery") (fun dataDelQuery =>
  let validCfg :=
    mkConfig connectionString pingQuery
      (mkPeerConfig peerAddQuery peerDelQuery graduateQuery countQuery
         countSeedersColumn countLeechersColumn byInfoHashClause)
      (mkAnnounceConfig announceQuery peerIDColumn addressColumn portColumn)
      (mkDataConfig dataAddQuery dataGetQuery dataDelQuery)
      (GCQuery cfg) (InfoHashCountQuery cfg) in
  let validCfg :=
    set_PeerIDColumn validCfg (ToUpper (PeerIDColumn (Announce validCfg))) in
  let validCfg :=
    set_PeerIDColumn validCfg (ToUpper (AddressColumn (Announce validCfg))) in
  let validCfg :=
    set_PeerIDColumn validCfg (ToUpper (PortColumn (Announce validCfg))) in
  let validCfg :=
    set_CountSeedersColumn validCfg (ToUpper (CountSeedersColumn (Peer validCfg))) in
  let validCfg :=
    set_CountLeechersColumn validCfg (ToUpper (CountLeechersColumn (Peer validCfg))) in
  (validCfg, None))))))))))))))).

(** *** The database connection

    The store talks to the database through [pgxpool.Pool.Query] and
    through the rows it returns.  An argument of a query is a byte
    string, a boolean or an integer; [Rows.Scan(into...)] receives one
    destination per column, [nil] for a column that is skipped and a
    pointer to a local variable otherwise, and stores column values
    through these pointers. *)

Inductive arg : Type :=
| ArgBytes (b : list byte)
| ArgBool (b : bool)
| ArgInt (z : Z).

(** The variables whose addresses are passed to [Scan]. *)
Inductive var : Type := VarID | VarIP | VarPort | VarSeeders | VarLeechers.

Inductive cell : Type :=
| CellBytes (b : list byte)
| CellInt (z : Z).

(** What a call of [Scan] does: the error it returns and the values it
    has stored. *)
Record ScanResult : Type := mkScanResult {
  scan_err : option error;
  stored : var -> option cell
}.

(** The value of a [[]byte] or [net.IP] variable after [Scan]; the
    variable is nil before. *)
Definition bytes_var (r : ScanResult) (v : var) : list byte :=
  match stored r v with
  | Some (CellBytes b) => b
  | _ => []
  end.

(** The value of an [int] variable after [Scan]; the variable is 0
    before. *)
Definition int_var (r : ScanResult) (v : var) : Z :=
  match stored r v with
  | Some (CellInt z) => z
  | _ => 0
  end.

(** [into[i] = x]; an index out of range panics ([None]). *)
Definition set_index {A : Type} (l : list A) (i : Z) (x : A) : option (list A) :=
  if (0 <=? i) && (i <? Z.of_nat (length l))
  then Some (<[ Z.to_nat i := x ]> l)
  else None.

Section store.

(** The rows of a result set. *)
Variable Row : Type.

(** The outcome of [Pool.Query]: an error, or the field descriptions
    and the rows that [Rows.Next] delivers. *)
Inductive QueryResult : Type :=
| QueryErr (err : error)
| QueryOk (FieldDescriptions : list string) (rows : list Row).

Variable Query : string -> list arg -> QueryResult.
Variable Scan : Row -> list (option var) -> ScanResult.

(** The loop over the field descriptions in [getPeers]. *)
Fixpoint peer_columns (s : Config) (fields : list string) (i : Z)
    (idx : Z * Z * Z) : Z * Z * Z :=
  match fields with
  | [] => idx
  | field :: rest =>
      let '(idIndex, ipIndex, portIndex) := idx in
      let name := ToUpper field in
      let idx :=
        if String.eqb name (PeerIDColumn (Announce s))
        then (i, ipIndex, portIndex)
        else if String.eqb name (AddressColumn (Announce s))
        then (idIndex, i, portIndex)
        else if String.eqb name (PortColumn (Announce s))
        then (idIndex, ipIndex, i)
        else idx in
      peer_columns s rest (i + 1) idx
  end.

(** One iteration of the loop over the rows in [getPeers]: the peer
    built from a row, or the error. *)
Definition scan_peer (row : Row) (into : list (option var))
  : bittorrent.Peer * option error * ScanResult :=
  let r := Scan row into in
  let id := bytes_var r VarID in
  let ip := bytes_var r VarIP in
  let port := int_var r VarPort in
  match scan_err r with
  | Some err => (zeroPeer, Some err, r)
  | None =>
      let '(peerID, err) := NewPeerID id in
      match err with
      | Some err =>
          (mkPeer peerID (netip.AddrPortFrom netip.AddrZero 0), Some err, r)
      | None =>
          let '(netAddr, isOk) := netip.AddrFromSlice ip in
          if isOk
          then (mkPeer peerID (netip.AddrPortFrom netAddr (wrap_uint16 port)),
                None, r)
          else (mkPeer peerID (netip.AddrPortFrom netip.AddrZero 0),
                Some ErrInvalidIP, r)
      end
  end.

(** [for rows.Next() && len(peers) < maxCount { ... }].  A peer that
    cannot be built is logged and skipped.  An error of [Scan] closes
    the rows, after which [rows.Next] is false. *)
Fixpoint scan_peers (rows : list Row) (into : list (option var)) (maxCount : Z)
    (peers : list bittorrent.Peer) (err : option error) : list bittorrent.Peer * option error :=
  match rows with
  | [] => (peers, err)
  | row :: rest =>
      if Z.of_nat (length peers) <? maxCount then
        let '(peer, err, r) := scan_peer row into in
        match err with
        | None => scan_peers rest into maxCount (peers ++ [peer]) None
        | Some e =>
            match scan_err r with
            | Some _ => (peers, Some e)
            | None => scan_peers rest into maxCount peers (Some e)
            end
        end
      else (peers, err)
  end.

(** [store.getPeers]; [None] stands for a panic. *)
Definition getPeers (s : Config) (ih : InfoHash) (seeders : bool)
    (maxCount : Z) (isV6 : bool) : option (list bittorrent.Peer * option error) :=
  match Query (Announce_Query (Announce s))
          [ArgBytes (list_byte_of_string ih); ArgBool isV6;
           ArgBool seeders; ArgInt maxCount] with
  | QueryErr err => Some ([], Some err)
  | QueryOk fields rows =>
      let '(idIndex, ipIndex, portIndex) :=
        peer_columns s fields 0 (-1, -1, -1) in
      if (idIndex <? 0) || (ipIndex <? 0) || (portIndex <? 0) then
        Some ([], Some (errRequiredColumnsNotFound
                          [PeerIDColumn (Announce s);
                           AddressColumn (Announce s);
                           PortColumn (Announce s)]))
      else
        let maxIndex :=
          if (ipIndex <=? idIndex) && (portIndex <=? idIndex) then idIndex
          else if (idIndex <=? ipIndex) && (portIndex <=? ipIndex) then ipIndex
          else if (idIndex <=? portIndex) && (ipIndex <=? portIndex) then portIndex
          else 0 in
        let into : list (option var) := repeat None (Z.to_nat (maxIndex + 1)) in
        match set_index into idIndex (Some VarID) with
        | None => None
        | Some into =>
            match set_index into ipIndex (Some VarIP) with
            | None => None
            | Some into =>
                match set_index into portIndex (Some VarPort) with
                | None => None
                | Some into => Some (scan_peers rows into maxCount [] None)
                end
            end
        end
  end.

(** [store.AnnouncePeers]. *)
Definition AnnouncePeers (s : Config) (ih : InfoHash) (forSeeder : bool)
    (numWant : Z) (v6 : bool) : option (list bittorrent.Peer * option error) :=
  let fetched :=
    if forSeeder then getPeers s ih false numWant v6
    else
      match getPeers s ih true numWant v6 with
      | None => None
      | Some (peers, Some err) => Some (peers, Some err)
      | Some (peers, None) =>
          match getPeers s ih false (numWant - Z.of_nat (length peers)) v6 with
          | None => None
          | Some (addPeers, err) => Some (peers ++ addPeers, err)
          end
      end in
  match fetched with
  | None => None
  | Some (peers, err) =>
      let l := length peers in
      match err with
      | None =>
          if (l =? 0)%nat then Some (peers, Some ErrResourceDoesNotExist)
          else Some (peers, None)
      | Some e =>
          if (0 <? l)%nat then Some (peers, None) else Some (peers, Some e)
      end
  end.

(** The loop over the field descriptions in [countPeers]. *)
Fixpoint count_columns (s : Config) (fields : list string) (i : Z)
    (idx : Z * Z) : Z * Z :=
  match fields with
  | [] => idx
  | field :: rest =>
      let '(si, li) := idx in
      let name := ToUpper field in
      let idx :=
        if String.eqb name (CountSeedersColumn (Peer s)) then (i, li)
        else if String.eqb name (CountLeechersColumn (Peer s)) then (si, i)
        else idx in
      count_columns s rest (i + 1) idx
  end.

(** [store.countPeers] returns [(leechers, seeders)]; [None] stands for
    a panic.  The error is logged and not returned. *)
Definition countPeers (s : Config) (ih : InfoHash) : option (Z * Z) :=
  let result :=
    if String.eqb ih NoneInfoHash
    then Query (CountQuery (Peer s)) []
    else Query (CountQuery (Peer s) ++ " " ++ ByInfoHashClause (Peer s))
           [ArgBytes (list_byte_of_string ih)] in
  match result with
  | QueryErr _ => Some (0, 0)
  | QueryOk fields rows =>
      match rows with
      | [] => Some (0, 0)
      | row :: _ =>
          let '(si, li) := count_columns s fields 0 (-1, -1) in
          if (si <? 0) || (li <? 0) then Some (0, 0)
          else
            let mi := if li <? si then si else li in
            let into : list (option var) := repeat None (Z.to_nat (mi + 1)) in
            match set_index into si (Some VarSeeders) with
            | None => None
            | Some into =>
                match set_index into li (Some VarLeechers) with
                | None => None
                | Some into =>
                    let r := Scan row into in
                    Some (int_var r VarLeechers, int_var r VarSeeders)
                end
            end
      end
  end.

(** [store.ScrapeSwarm] returns [(leechers, seeders, snatched)]. *)
Definition ScrapeSwarm (s : Config) (ih : InfoHash) : option (Z * Z * Z) :=
  match countPeers s ih with
  | None => None
  | Some (sc, lc) =>
      let seeders := wrap_uint32 sc in
      let leechers := wrap_uint32 lc in
      let snatched := 0 in
      Some (leechers, seeders, snatched)
  end.

End store.

(** *** Writing peers *)

(** The arguments of [Pool.Exec], by the Go type of each: [[]byte],
    [net.IP], [netip.Addr], [uint16], [bool] and [time.Time]. *)
Inductive exec_arg : Type :=
| ExecBytes (b : list byte)
| ExecIP (ip : list byte)
| ExecAddr (a : netip.Addr)
| ExecUint16 (z : Z)
| ExecBool (b : bool)
| ExecTime (t : Z).

(** [store.GCAware]. *)
Definition GCAware (s : Config) : bool :=
  (0 <? String.length (GCQuery s))%nat.

(** [store.StatisticsAware]. *)
Definition StatisticsAware (s : Config) : bool :=
  (0 <? String.length (InfoHashCountQuery s))%nat.

(** The argument slice that [putPeer] builds; [now] is [tc.Now()]. *)
Definition putPeer_args (s : Config) (now : Z) (ih : InfoHash)
    (peer : bittorrent.Peer) (seeder : bool) : list exec_arg :=
  let args :=
    [ExecBytes (list_byte_of_string ih); ExecBytes (ID peer);
     ExecIP (netip.AsSlice (bittorrent.Addr peer));
     ExecUint16 (bittorrent.Port peer); ExecBool seeder;
     ExecBool (netip.Is6 (bittorrent.Addr peer))] in
  if GCAware s then args ++ [ExecTime now] else args.

(** The arguments that [delPeer] passes. *)
Definition delPeer_args (ih : InfoHash) (peer : bittorrent.Peer)
    (seeder : bool) : list exec_arg :=
  [ExecBytes (list_byte_of_string ih); ExecBytes (ID peer);
   ExecIP (netip.AsSlice (bittorrent.Addr peer));
   ExecUint16 (bittorrent.Port peer); ExecBool seeder].

Section exec.

(** The database behind the pool, and [Pool.Exec] with the error it
    returns. *)
Variable Conn : Type.
Variable Exec : Conn -> string -> list exec_arg -> Conn * option error.

(** [store.putPeer]. *)
Definition putPeer (s : Config) (db : Conn) (now : Z) (ih : InfoHash)
    (peer : bittorrent.Peer) (seeder : bool) : Conn * option error :=
  Exec db (Peer_AddQuery (Peer s)) (putPeer_args s now ih peer seeder).

(** [store.delPeer]. *)
Definition delPeer (s : Config) (db : Conn) (ih : InfoHash)
    (peer : bittorrent.Peer) (seeder : bool) : Conn * option error :=
  Exec db (Peer_DelQuery (Peer s)) (delPeer_args ih peer seeder).

(** [store.PutSeeder], [store.DeleteSeeder], [store.PutLeecher] and
    [store.DeleteLeecher]. *)
Definition PutSeeder (s : Config) (db : Conn) (now : Z) (ih : InfoHash)
    (peer : bittorrent.Peer) : Conn * option error :=
  putPeer s db now ih peer true.

Definition DeleteSeeder (s : Config) (db : Conn) (ih : InfoHash)
    (peer : bittorrent.Peer) : Conn * option error :=
  delPeer s db ih peer true.

Definition PutLeecher (s : Config) (db : Conn) (now : Z) (ih : InfoHash)
    (peer : bittorrent.Peer) : Conn * option error :=
  putPeer s db now ih peer false.

Definition DeleteLeecher (s : Config) (db : Conn) (ih : InfoHash)
    (peer : bittorrent.Peer) : Conn * option error :=
  delPeer s db ih peer false.

(** [store.GraduateLeecher]: the address is passed as a [netip.Addr],
    not as its bytes. *)
Definition GraduateLeecher (s : Config) (db : Conn) (ih : InfoHash)
    (peer : bittorrent.Peer) : Conn * option error :=
  Exec db (GraduateQuery (Peer s))
    [ExecBytes (list_byte_of_string ih); ExecBytes (ID peer);
     ExecAddr (bittorrent.Addr peer); ExecUint16 (bittorrent.Port peer)].

(** [store.Ping]. *)
Definition Ping (s : Config) (db : Conn) : Conn * option error :=
  Exec db (PingQuery s) [].

End exec.

End pg.

(** ** Package [list]: the torrent approval container with a list of
    hashes from the configuration *)

Module approval_list.
Import golang.

(** [type Config]. *)
Record Config : Type := mkConfig {
  HashList : list string;
  Invert : bool;
  StorageCtx : string
}.

Definition DUMMY : bool := true.

(** [type List]; the storage it points to is threaded through the
    functions below. *)
Record List : Type := mkList {
  list_Invert : bool;
  list_StorageCtx : string
}.

Section container.

(** The storage ([storage.Storage]) with the two methods that the
    container calls, the decoder of the configuration
    ([yaml.Unmarshal]) and the default context name of package
    [container]. *)
Variable Storage : Type.
Variable BulkPut : Storage -> string -> list (bittorrent.InfoHash * bool) -> Storage.
Variable Contains : Storage -> string -> bittorrent.InfoHash -> bool.
Variable Unmarshal : list byte -> Config * option error.
Variable DefaultStorageCtxName : string.

(** The loop of [build] over the hash list: the pairs to store, or the
    error of the first hash that cannot be read. *)
Fixpoint read_hashes (hashList : list string)
    (init : list (bittorrent.InfoHash * bool))
  : list (bittorrent.InfoHash * bool) * option error :=
  match hashList with
  | [] => (init, None)
  | hashString :: rest =>
      match hex.DecodeString hashString with
      | (_, Some err) =>
          (init, Some (New ("whitelist : invalid hash " ++ hashString
                            ++ ", " ++ Error err)))
      | (hashBytes, None) =>
          match bittorrent.NewInfoHash (bittorrent.DataBytes hashBytes) with
          | (_, Some err) =>
              (init, Some (New ("whitelist : " ++ hashString ++ " : "
                                ++ Error err)))
          | (ih, None) => read_hashes rest (init ++ [(ih, DUMMY)])
          end
      end
  end.

(** [build]: the container, the error and the storage as [build]
    leaves it. *)
Definition build (confBytes : list byte) (st : Storage)
  : option List * option error * Storage :=
  match Unmarshal confBytes with
  | (_, Some err) =>
      (None,
       Some (New ("unable to deserialise configuration: " ++ Error err)), st)
  | (c, None) =>
      let l := mkList (Invert c) (StorageCtx c) in
      let l :=
        if (String.length (list_StorageCtx l) =? 0)%nat
        then mkList (list_Invert l) DefaultStorageCtxName
        else l in
      if (0 <? length (HashList c))%nat then
        match read_hashes (HashList c) [] with
        | (_, Some err) => (None, Some err, st)
        | (init, None) =>
            (Some l, None, BulkPut st (list_StorageCtx l) init)
        end
      else (Some l, None, st)
  end.

(** [List.Approved]. *)
Definition Approved (l : List) (st : Storage) (hash : bittorrent.InfoHash) : bool :=
  let b := Contains st (list_StorageCtx l) hash in
  negb (Bool.eqb b (list_Invert l)).

End container.

End approval_list.

(** ** Package [main]: stopping a running instance *)

Module main.
Import golang.

(** [combineErrors]. *)
Definition combineErrors (prefix : string) (errs : list error) : error :=
  New (prefix ++ ": " ++ String.concat "; " (map Error errs)).

Section run.

Variable Storage : Type.

(** [type Run]: of the state of a running instance, [Stop] changes the
    storage field only. *)
Record Run : Type := mkRun { storage : option Storage }.

(** The calls that [Stop] makes, in the order in which it makes
    them. *)
Inductive call : Type := StopFrontends | StopLogic | StopStorage.

(** [Run.Stop]: the three arguments in front are the errors that the
    stop group, the logic and the peer store report when they are
    stopped.  The result is the instance as [Stop] leaves it, the calls
    made, and the two results of [Stop]; it is [None] when [Stop]
    panics, which it does when it is to stop a peer store that the
    instance does not hold (a call on a nil interface). *)
Definition Stop (sgErrs logicErrs storageErrs : list error)
    (r : Run) (keepPeerStore : bool)
  : option (Run * list call * (option Storage * option error)) :=
  if negb (length sgErrs =? 0)%nat then
    Some (r, [StopFrontends],
          (None,
           Some (combineErrors "failed while shutting down frontends" sgErrs)))
  else if negb (length logicErrs =? 0)%nat then
    Some (r, [StopFrontends; StopLogic],
          (None,
           Some (combineErrors "failed while shutting down middleware"
                   logicErrs)))
  else if negb keepPeerStore then
    match storage r with
    | None => None
    | Some _ =>
        if negb (length storageErrs =? 0)%nat then
          Some (r, [StopFrontends; StopLogic; StopStorage],
                (None,
                 Some (combineErrors "failed while shutting down peer store"
                         storageErrs)))
        else
          Some (mkRun None, [StopFrontends; StopLogic; StopStorage],
                (None, None))
    end
  else Some (r, [StopFrontends; StopLogic], (storage r, None)).

End run.

End main.

(* ================================================================== *)
(** * The vocabulary of the properties, and concrete inputs *)
(* ================================================================== *)

(** ** Peers *)

Section bittorrent_defs.
Import golang netip bittorrent.

(** A valid, unmapped address: an IPv4 address of 4 bytes or an IPv6
    address of 16 bytes outside [::ffff:0:0/96]. *)
Definition valid_unmapped (a : netip.Addr) : Prop :=
  match a with
  | AddrZero => False
  | Addr4 l => length l = 4%nat
  | Addr6 l _ => length l = 16%nat /\ Is4In6 a = false
  end.

Definition well_formed_peer (p : Peer) : Prop :=
  length (ID p) = PeerIDLen /\ is_uint16 (Port p) /\
  valid_unmapped (ip (AddrPort p)).

(** An IPv4 peer: 10.11.12.13, port 6881. *)
Definition peer_10_11_12_13 : Peer :=
  mkPeer
    [x01; x02; x03; x04; x05; x06; x07; x08; x09; x0a;
     x0b; x0c; x0d; x0e; x0f; x10; x11; x12; x13; x14]
    (AddrPortFrom (Addr4 [x0a; x0b; x0c; x0d]) 6881).

(** A link-local IPv6 peer whose address carries the zone [eth0]:
    fe80::1%eth0, port 6881. *)
Definition peer_link_local : Peer :=
  mkPeer (ID peer_10_11_12_13)
    (AddrPortFrom
       (Addr6 [xfe; x80; x00; x00; x00; x00; x00; x00;
               x00; x00; x00; x00; x00; x00; x00; x01] "eth0")
       6881).

End bittorrent_defs.

(** ** Failure reasons *)

Section http_error_defs.
Import golang http.

(** The text sent as the failure reason: the message of the first
    [ClientError] that the error is or wraps, and a fixed text for any
    other error. *)
Definition failure_reason (err : option error) : string :=
  match err with
  | Some e =>
      match As_ClientError e with
      | Some msg => msg
      | None => "internal server error"%string
      end
  | None => "internal server error"%string
  end.

End http_error_defs.

(** ** Announce dictionaries *)

Section http_announce_defs.
Import golang bittorrent http.

Variable AddrValue : netip.Addr -> bencode.value.

(** The entries of the announce dictionary under the keys [interval]
    and [min interval]. *)
Definition interval_entries (resp : AnnounceResponse)
  : option (option bencode.value * option bencode.value) :=
  match announce_bdict AddrValue resp with
  | Some (_, bdict) =>
      Some (bdict !! "interval"%string, bdict !! "min interval"%string)
  | None => None
  end.

(** A response without peers whose [Interval] is zero and whose
    [MinInterval] is 30 seconds. *)
Definition resp_min_interval_only : AnnounceResponse :=
  mkAnnounceResponse true 0 0 0 (30 * Second) [] [].

End http_announce_defs.

(** ** Scrape dictionaries *)

Section http_scrape_defs.
Import golang bittorrent http.





End http_scrape_defs.

(** ** Seeds *)

Section random_defs.
Import golang bittorrent random.

(** The two words named by the spec's sentence, read as the XOR of the
    first 16 bytes of the infohash with the first 16 bytes of the peer
    ID. *)
Definition xor_of_infohash_and_peer_id (req : AnnounceRequest) : Z * Z :=
  let ih := list_byte_of_string (req_InfoHash req) in
  let id := ID (req_Peer req) in
  (Z.lxor (Uint64 (slice ih 0 8)) (Uint64 (slice id 0 8)),
   Z.lxor (Uint64 (slice ih 8 16)) (Uint64 (slice id 8 16))).

(** The same sentence read as one XOR per source: the two words of the
    infohash XORed together, and the two words of the peer ID. *)
Definition xor_within_infohash_and_peer_id (req : AnnounceRequest) : Z * Z :=
  let ih := list_byte_of_string (req_InfoHash req) in
  let id := ID (req_Peer req) in
  (Z.lxor (Uint64 (slice ih 0 8)) (Uint64 (slice ih 8 16)),
   Z.lxor (Uint64 (slice id 0 8)) (Uint64 (slice id 8 16))).

(** An announce whose infohash has the bytes 7 and 15 set to 1 and
    whose peer ID has byte 7 set to 3 and byte 15 set to 1. *)
Definition req_add_not_xor : AnnounceRequest :=
  mkAnnounceRequest 0
    (string_of_list_byte
       [x00; x00; x00; x00; x00; x00; x00; x01;
        x00; x00; x00; x00; x00; x00; x00; x01;
        x00; x00; x00; x00])
    true false false false 50 0 0 0
    (mkPeer
       [x00; x00; x00; x00; x00; x00; x00; x03;
        x00; x00; x00; x00; x00; x00; x00; x01;
        x00; x00; x00; x00]
       (netip.AddrPortFrom (netip.Addr4 [x0a; x00; x00; x01]) 6881)).

End random_defs.

(** ** The decision and the delta of the interval variation *)

Section varinterval_defs.
Import golang bittorrent random varinterval.

Variable Intn : Z -> Z -> Z -> Z * Z * Z.

(** Modelled from the spec: [random.Intn] is not among the sources.  The
    spec describes what the hook adds as a uniform random integer in
    [[1, MaxIncreaseDelta]], which is the result of [Intn] plus one: for
    a bound [n > 0], [Intn] returns a number [k] with [0 <= k < n]. *)
Definition Intn_contract : Prop :=
  forall s0 s1 n : Z, 0 < n -> 0 <= fst (fst (Intn s0 s1 n)) < n.

(** The decision of the hook to modify the response of a request. *)
Definition modifies (cfg : Config) (req : AnnounceRequest) : bool :=
  let '(s0, s1) := DeriveEntropyFromRequest req in
  let '(v, _, _) := Intn s0 s1 (2 ^ 24) in
  Qeq_bool (ModifyResponseProbability cfg) (1 # 1)
  || Qltb (Qmake v (2 ^ 24)) (ModifyResponseProbability cfg).

(** The number of seconds that the hook adds when it modifies the
    response of a request. *)
Definition delta (cfg : Config) (req : AnnounceRequest) : Z :=
  let '(s0, s1) := DeriveEntropyFromRequest req in
  let '(_, s0, s1) := Intn s0 s1 (2 ^ 24) in
  let '(v, _, _) := Intn s0 s1 (MaxIncreaseDelta cfg) in
  v + 1.

End varinterval_defs.

(** ** A generator and requests for the interval variation *)

Section varinterval_inputs_defs.
Import golang bittorrent random varinterval.

(** A generator within the contract of [random.Intn], used to run the
    hook on concrete requests. *)
Definition Intn_model (s0 s1 n : Z) : Z * Z * Z :=
  ((s0 + s1) mod n, s1, (s0 + s1) mod 2 ^ 64).

Definition cfg_half : Config := mkConfig (1 # 2) 5 true.

Definition resp_30min : AnnounceResponse :=
  mkAnnounceResponse true 3 7 (1800 * Second) (900 * Second) [] [].

(** The same infohash and peer ID as [req_add_not_xor], announced from
    another address with another event and progress. *)
Definition req_add_not_xor_retry : AnnounceRequest :=
  mkAnnounceRequest 2 (req_InfoHash req_add_not_xor)
    false true true true 10 4096 100 200
    (mkPeer (ID (req_Peer req_add_not_xor))
       (netip.AddrPortFrom (netip.Addr4 [xc0; xa8; x00; x02]) 51413)).

End varinterval_inputs_defs.

(** ** The count query *)

Section pg_scrape_defs.
Import golang bittorrent strings pg.

Variable Row : Type.
Variable Query : string -> list arg -> QueryResult Row.
Variable Scan : Row -> list (option var) -> ScanResult.

(** The query that [countPeers] sends: the count query alone for
    [NoneInfoHash], the count query with the infohash clause otherwise. *)
Definition count_query_sent (s : Config) (ih : InfoHash) : QueryResult Row :=
  if String.eqb ih NoneInfoHash
  then Query (CountQuery (Peer s)) []
  else Query (CountQuery (Peer s) ++ " " ++ ByInfoHashClause (Peer s))
         [ArgBytes (list_byte_of_string ih)].

(** The query that [countPeers] sends for an infohash. *)
Definition count_by_infohash (s : Config) (ih : InfoHash) : QueryResult Row :=
  Query (CountQuery (Peer s) ++ " " ++ ByInfoHashClause (Peer s))
    [ArgBytes (list_byte_of_string ih)].

(** The store holds no swarm for an infohash: the count query for the
    infohash fails, or delivers no row, or delivers a row in which every
    count is zero (what an aggregate over no peers gives). *)
Definition swarm_missing (s : Config) (ih : InfoHash) : Prop :=
  match count_by_infohash s ih with
  | QueryErr _ _ => True
  | QueryOk _ _ [] => True
  | QueryOk _ _ (row :: _) =>
      forall (into : list (option var)) (v : var) (z : Z),
        stored (Scan row into) v = Some (CellInt z) -> z = 0
  end.

End pg_scrape_defs.

(** ** The announce query *)

Section pg_announce_defs.
Import golang bittorrent strings pg.

Variable Row : Type.
Variable Query : string -> list arg -> QueryResult Row.
Variable Scan : Row -> list (option var) -> ScanResult.

(** The announce query for the seeders ([seeders = true]) or the
    leechers ([seeders = false]) of a swarm. *)
Definition announce_query (s : Config) (ih : InfoHash) (seeders : bool)
    (maxCount : Z) (v6 : bool) : QueryResult Row :=
  Query (Announce_Query (Announce s))
    [ArgBytes (list_byte_of_string ih); ArgBool v6; ArgBool seeders;
     ArgInt maxCount].

(** [p] is a peer that the database returns among the seeders
    ([seeders = true]) or among the leechers ([seeders = false]) of the
    swarm: it is built from a row of the announce query with that
    flag. *)
Definition returned_for (s : Config) (ih : InfoHash) (seeders v6 : bool)
    (p : bittorrent.Peer) : Prop :=
  exists maxCount fields rows row into r,
    announce_query s ih seeders maxCount v6 = QueryOk Row fields rows
    /\ In row rows
    /\ scan_peer Row Scan row into = (p, None, r).

End pg_announce_defs.

(** ** A database to run the store on *)

Section pg_demo_defs.
Import golang bittorrent strings pg.

(** A row is the list of its column values. *)
Definition DemoRow : Type := list cell.

Definition var_accepts (v : var) (c : cell) : bool :=
  match v, c with
  | (VarID | VarIP), CellBytes _ => true
  | (VarPort | VarSeeders | VarLeechers), CellInt _ => true
  | _, _ => false
  end.

Definition store_var (st : var -> option cell) (v : var) (c : cell)
  : var -> option cell :=
  fun v' =>
    match v, v' with
    | VarID, VarID | VarIP, VarIP | VarPort, VarPort
    | VarSeeders, VarSeeders | VarLeechers, VarLeechers => Some c
    | _, _ => st v'
    end.

Fixpoint scan_cells (row : DemoRow) (into : list (option var))
    (st : var -> option cell) : ScanResult :=
  match row, into with
  | [], [] => mkScanResult None st
  | c :: row', d :: into' =>
      match d with
      | None => scan_cells row' into' st
      | Some v =>
          if var_accepts v c then scan_cells row' into' (store_var st v c)
          else mkScanResult (Some (New "can't scan into dest")) st
      end
  | _, _ =>
      mkScanResult
        (Some (New "number of field descriptions must equal number of destinations"))
        st
  end.

(** [Rows.Scan] on such rows: the number of destinations is checked
    first, and nothing is stored when it is not the number of columns;
    then each value is stored through the pointer given for its
    column. *)
Definition demo_Scan (row : DemoRow) (into : list (option var)) : ScanResult :=
  if (length row =? length into)%nat then scan_cells row into (fun _ => None)
  else
    mkScanResult
      (Some (New ("number of field descriptions must equal number of destinations, got "
                  ++ bencode.decimal (Z.of_nat (length row)) ++ " and "
                  ++ bencode.decimal (Z.of_nat (length into)))))
      (fun _ => None).

(** A table of peers: infohash, peer ID, address, port, seeder flag. *)
Record StoredPeer : Type := mkStoredPeer {
  sp_ih : list byte;
  sp_id : list byte;
  sp_ip : list byte;
  sp_port : Z;
  sp_seeder : bool
}.

Definition is_v6 (p : StoredPeer) : bool := (length (sp_ip p) =? 16)%nat.

Definition bytes_eq (a b : list byte) : bool := netip.bytes_eqb a b.

(** The queries of the configuration [demo_cfg] below, answered from a
    table: the announce query selects the peers of a swarm by address
    family and seeder flag, within the limit; the count query counts
    seeders and leechers, of the whole table or of one swarm. *)
Definition demo_Query (table : list StoredPeer) (sql : string) (args : list arg)
  : QueryResult DemoRow :=
  if String.eqb sql "announce" then
    match args with
    | [ArgBytes ih; ArgBool v6; ArgBool seeders; ArgInt limit] =>
        QueryOk DemoRow ["peer_id"; "address"; "port"]%string
          (firstn (Z.to_nat limit)
             (map (fun p => [CellBytes (sp_id p); CellBytes (sp_ip p);
                             CellInt (sp_port p)])
                (filter (fun p => bytes_eq (sp_ih p) ih
                                  && Bool.eqb (is_v6 p) v6
                                  && Bool.eqb (sp_seeder p) seeders = true)
                   table)))
    | _ => QueryErr DemoRow (New "wrong number of arguments")
    end
  else if String.eqb sql "count" then
    QueryOk DemoRow ["seeders"; "leechers"]%string
      [[CellInt (Z.of_nat (length (filter (fun p => sp_seeder p = true) table)));
        CellInt (Z.of_nat (length (filter (fun p => sp_seeder p = false) table)))]]
  else if String.eqb sql "count where ih = $1" then
    match args with
    | [ArgBytes ih] =>
        QueryOk DemoRow ["seeders"; "leechers"]%string
          [[CellInt (Z.of_nat (length (filter
               (fun p => bytes_eq (sp_ih p) ih && sp_seeder p = true) table)));
            CellInt (Z.of_nat (length (filter
               (fun p => bytes_eq (sp_ih p) ih && negb (sp_seeder p) = true) table)))]]
    | _ => QueryErr DemoRow (New "wrong number of arguments")
    end
  else QueryErr DemoRow (New "syntax error").

(** A store configuration whose column names are in upper case. *)
Definition demo_cfg : Config :=
  mkConfig "postgres://tracker" "SELECT 0"
    (mkPeerConfig "add" "del" "graduate" "count" "SEEDERS" "LEECHERS"
       "where ih = $1")
    (mkAnnounceConfig "announce" "PEER_ID" "ADDRESS" "PORT")
    (mkDataConfig "put" "get" "del")
    "" "".

Definition ih_A : InfoHash := "AAAAAAAAAAAAAAAAAAAA".

Definition ih_B : InfoHash := "BBBBBBBBBBBBBBBBBBBB".

Definition id_S1 : list byte := list_byte_of_string "-S1-................".

Definition id_L1 : list byte := list_byte_of_string "-L1-................".

(** The swarm of [ih_A]: one seeder at 10.0.0.1:6881 and one leecher at
    10.0.0.2:6882. *)
Definition demo_table : list StoredPeer :=
  [mkStoredPeer (list_byte_of_string ih_A) id_S1 [x0a; x00; x00; x01] 6881 true;
   mkStoredPeer (list_byte_of_string ih_A) id_L1 [x0a; x00; x00; x02] 6882 false].

(** The same swarm with a second seeder at 10.0.0.3:6883. *)
Definition demo_table_two_seeders : list StoredPeer :=
  mkStoredPeer (list_byte_of_string ih_A) id_S1 [x0a; x00; x00; x03] 6883 true
  :: demo_table.

Definition peer_S1 : bittorrent.Peer :=
  mkPeer id_S1 (netip.AddrPortFrom (netip.Addr4 [x0a; x00; x00; x01]) 6881).

Definition peer_L1 : bittorrent.Peer :=
  mkPeer id_L1 (netip.AddrPortFrom (netip.Addr4 [x0a; x00; x00; x02]) 6882).

End pg_demo_defs.

(** ** The order of an announce answer, and a configuration *)

Section pg_claim_defs.
Import golang bittorrent strings pg.

(** The peers of a swarm in a table, in the order of the table: its
    seeders ([seeders = true]) or its leechers, of one address
    family. *)
Definition swarm (table : list StoredPeer) (ih : InfoHash) (seeders v6 : bool)
  : list bittorrent.Peer :=
  map (fun p => mkPeer (sp_id p)
                  (netip.AddrPortFrom (fst (netip.AddrFromSlice (sp_ip p)))
                     (sp_port p)))
    (filter (fun p => bytes_eq (sp_ih p) (list_byte_of_string ih)
                      && Bool.eqb (is_v6 p) v6
                      && Bool.eqb (sp_seeder p) seeders = true)
       table).

(** C1 as stated, for one store on a table, one swarm and one budget:
    the answer to a leecher lists the leechers of the swarm first,
    followed by its seeders, up to [numWant]. *)
Definition leechers_then_seeders (table : list StoredPeer) (s : Config)
    (ih : InfoHash) (numWant : Z) (v6 : bool) : Prop :=
  fst <$> AnnouncePeers DemoRow (demo_Query table) demo_Scan s ih false numWant v6
  = Some (firstn (Z.to_nat numWant)
            (swarm table ih false v6 ++ swarm table ih true v6)).

(** A configuration with the column names in lower case, as the
    database reports them. *)
Definition cfg_lower_case_columns : Config :=
  mkConfig "postgres://tracker" ""
    (mkPeerConfig "add" "del" "graduate" "count" "seeders" "leechers"
       "where ih = $1")
    (mkAnnounceConfig "announce" "peer_id" "address" "port")
    (mkDataConfig "put" "get" "del")
    "" "".

End pg_claim_defs.

(** ** Addresses as byte sequences *)

Section endpoint_defs.

(** The 16-byte form of an address: an address of 4 bytes is mapped. *)
Definition To16 (ip : list byte) : list byte :=
  if (length ip =? 4)%nat then netip.v4InV6Prefix ++ ip else ip.

Definition len_4_or_16 (ip : list byte) : Prop :=
  length ip = 4%nat \/ length ip = 16%nat.

End endpoint_defs.

(** ** An infohash of 32 bytes *)

Section identifier_defs.
Import golang bittorrent.

Definition ih_v2 : InfoHash := "AAAAAAAAAAAAAAAAAAAABBBBBBBBBBBB".

End identifier_defs.

(** ** Peers with an address of 4 or 16 bytes *)

Section compact_defs.
Import golang bittorrent http.

(** The address of a peer has the length of its kind: 4 bytes for an
    IPv4 address, 16 bytes for an IPv6 address. *)
Definition addr_well_formed (a : netip.Addr) : Prop :=
  match a with
  | netip.AddrZero => False
  | netip.Addr4 l => length l = 4%nat
  | netip.Addr6 l _ => length l = 16%nat
  end.

(** An IPv6 peer: 2001:db8::1, port 51413. *)
Definition peer_2001_db8_1 : Peer :=
  mkPeer (ID peer_10_11_12_13)
    (netip.AddrPortFrom
       (netip.Addr6 [x20; x01; x0d; xb8; x00; x00; x00; x00;
                     x00; x00; x00; x00; x00; x00; x00; x01] EmptyString)
       51413).

End compact_defs.

(** ** The parameters of a store configuration *)

Section pg_config_defs.
Import golang bittorrent strings pg.

(** A parameter is blank when nothing is left of it after trimming. *)
Definition blank (p : string) : bool :=
  (String.length (TrimSpace p) =? 0)%nat.

(** The required parameters of a configuration with the names under
    which [Validate] reports them, in the order in which it checks
    them. *)
Definition required_parameters (cfg : Config) : list (string * string) :=
  [(Peer_AddQuery (Peer cfg), "Peer.AddQuery");
   (Peer_DelQuery (Peer cfg), "Peer.DelQuery");
   (GraduateQuery (Peer cfg), "Peer.GraduateQuery");
   (CountQuery (Peer cfg), "Peer.CountQuery");
   (CountSeedersColumn (Peer cfg), "Peer.CountSeedersColumn");
   (CountLeechersColumn (Peer cfg), "Peer.CountLeechersColumn");
   (ByInfoHashClause (Peer cfg), "Peer.ByInfoHashClause");
   (Announce_Query (Announce cfg), "Announce.Query");
   (PeerIDColumn (Announce cfg), "Announce.PeerIDColumn");
   (AddressColumn (Announce cfg), "Announce.AddressColumn");
   (PortColumn (Announce cfg), "Announce.PortColumn");
   (Data_AddQuery (Data cfg), "Data.AddQuery");
   (Data_GetQuery (Data cfg), "Data.GetQuery");
   (Data_DelQuery (Data cfg), "Data.DelQuery")]%string.

(** The first required parameter that is blank, if any. *)
Definition first_blank (cfg : Config) : option (string * string) :=
  List.find (fun p => blank (fst p)) (required_parameters cfg).

(** A string contains a lower-case ASCII letter. *)
Fixpoint has_lower (s : string) : bool :=
  match s with
  | EmptyString => false
  | String c s' =>
      ((97 <=? N_of_ascii c) && (N_of_ascii c <=? 122))%N || has_lower s'
  end.

(** A string of ASCII bytes: no byte is above 127. *)
Fixpoint is_ascii (s : string) : bool :=
  match s with
  | EmptyString => true
  | String c s' => (N_of_ascii c <? 128)%N && is_ascii s'
  end.

(** A peer as the store hands it out: an ID of 20 bytes, an address of
    4 or 16 bytes and a port of 16 bits. *)
Definition stored_peer_well_formed (p : bittorrent.Peer) : Prop :=
  length (ID p) = PeerIDLen
  /\ addr_well_formed (netip.ip (AddrPort p))
  /\ is_uint16 (bittorrent.Port p).

End pg_config_defs.

(** ** The fields of a result set *)

Section pg_columns_defs.
Import strings.

(** A field of the result set has the column name as its upper-case
    form. *)
Definition names_column (fields : list string) (column : string) : Prop :=
  exists field, In field fields /\ ToUpper field = column.

End pg_columns_defs.

(** ** Rows that hold what was written *)

Section pg_write_defs.
Import golang bittorrent strings pg.

(** The values that [Scan] stored are those of the arguments of a
    write: the peer ID, the address bytes and the port are the second,
    third and fourth argument. *)
Definition holds_written (args : list exec_arg) (r : ScanResult) : Prop :=
  exists ih flags,
    args = ExecBytes ih :: ExecBytes (bytes_var r VarID)
             :: ExecIP (bytes_var r VarIP)
             :: ExecUint16 (int_var r VarPort) :: flags.

(** The seeder of [demo_table] announcing from the IPv4-mapped address
    ::ffff:10.0.0.1. *)
Definition peer_S1_mapped : bittorrent.Peer :=
  mkPeer id_S1
    (netip.AddrPortFrom
       (netip.Addr6 (netip.v4InV6Prefix ++ [x0a; x00; x00; x01]) EmptyString)
       6881).

End pg_write_defs.

(** ** The hashes of an approval list *)

Section approval_list_defs.
Import golang approval_list.

(** The infohash that a string of the hash list stands for: the string
    is the base16 form of 20 or 32 bytes. *)
Definition readable_hash (s : string) : option bittorrent.InfoHash :=
  match hex.DecodeString s with
  | (_, Some _) => None
  | (b, None) =>
      match bittorrent.NewInfoHash (bittorrent.DataBytes b) with
      | (_, Some _) => None
      | (ih, None) => Some ih
      end
  end.

End approval_list_defs.

(** ** Storages that keep sets of keys *)

Section storage_defs.

Variable Storage : Type.
Variable BulkPut : Storage -> string -> list (bittorrent.InfoHash * bool) -> Storage.
Variable Contains : Storage -> string -> bittorrent.InfoHash -> bool.

(** A storage keeps the keys put into it: after a bulk put under a
    context, that context contains a key exactly when the key is among
    those put or was contained before. *)
Definition storage_keeps_keys : Prop :=
  forall (st : Storage) (ctx : string)
         (pairs : list (bittorrent.InfoHash * bool)) (k : bittorrent.InfoHash),
    Contains (BulkPut st ctx pairs) ctx k
    = existsb (fun p => String.eqb (fst p) k) pairs || Contains st ctx k.

End storage_defs.

(** ** A storage to run the approval list on *)

Section approval_list_demo_defs.
Import golang approval_list.

(** A storage that keeps its keys in a list, each with its context. *)
Definition KeyStore : Type := list (string * bittorrent.InfoHash).

Definition list_BulkPut (st : KeyStore) (ctx : string)
    (pairs : list (bittorrent.InfoHash * bool)) : KeyStore :=
  map (fun p => (ctx, fst p)) pairs ++ st.

Definition list_Contains (st : KeyStore) (ctx : string)
    (k : bittorrent.InfoHash) : bool :=
  existsb (fun e => String.eqb (fst e) ctx && String.eqb (snd e) k) st.

(** A decoder that reads every configuration as the list of the one
    hash [ih_A], not inverted, in the default context. *)
Definition one_hash_Unmarshal (confBytes : list byte) : Config * option error :=
  (mkConfig ["4141414141414141414141414141414141414141"%string] false
     EmptyString,
   None).

End approval_list_demo_defs.

(* ================================================================== *)
(** * Properties *)
(* ================================================================== *)

(** ** Bytes and big-endian integers *)

Section golang_facts.
Import golang.

Lemma Z_of_byte_range (b : byte) : 0 <= Z_of_byte b < 256.
Proof.
  unfold Z_of_byte. pose proof (Byte.to_N_bounded b) as H.
  split; [apply N2Z.is_nonneg|]. lia.
Qed.

Lemma Z_of_byte_of_Z (z : Z) : Z_of_byte (byte_of_Z z) = z mod 256.
Proof.
  unfold Z_of_byte, byte_of_Z.
  assert (Hr : 0 <= z mod 256 < 256) by (apply Z.mod_pos_bound; lia).
  destruct (Byte.of_N (Z.to_N (z mod 256))) as [b|] eqn:E.
  - apply Byte.to_of_N in E. rewrite E. rewrite Z2N.id; lia.
  - apply Byte.of_N_None_iff in E. lia.
Qed.

Lemma byte_of_Z_of_byte (b : byte) : byte_of_Z (Z_of_byte b) = b.
Proof.
  unfold byte_of_Z. rewrite Z.mod_small by apply Z_of_byte_range.
  unfold Z_of_byte. rewrite N2Z.id, Byte.of_to_N. reflexivity.
Qed.

Lemma Uint16_PutUint16 (v : Z) :
  is_uint16 v ->
  Uint16 [byte_of_Z (Z.shiftr v 8); byte_of_Z v] = v.
Proof.
  unfold is_uint16, Uint16, BigEndian. intros Hv. simpl.
  rewrite !Z_of_byte_of_Z, Z.shiftr_div_pow2 by lia.
  change (2 ^ 8) with 256.
  rewrite (Z.mod_small (v / 256)).
  - pose proof (Z.div_mod v 256). lia.
  - split; [apply Z.div_pos; lia|]. apply Z.div_lt_upper_bound; lia.
Qed.

Lemma length_string_of_list_byte (l : list byte) :
  String.length (string_of_list_byte l) = length l.
Proof.
  unfold string_of_list_byte.
  induction l as [|b l IH]; simpl; [reflexivity|]. now rewrite IH.
Qed.

End golang_facts.

(** ** Package [bittorrent]: the raw form of a peer *)

Section bittorrent_facts.
Import golang netip bittorrent.

Ltac explode l H :=
  repeat (destruct l as [|? l]; simpl in H; [discriminate H|]);
  destruct l; [clear H | discriminate H].

Lemma Unmap_valid_unmapped (a : netip.Addr) : valid_unmapped a -> Unmap a = a.
Proof.
  destruct a as [|l|l z]; simpl; try reflexivity.
  intros [_ H]. simpl in H. now rewrite H.
Qed.

(** The bytes written by [RawString]: PeerID, big-endian port, address. *)
Lemma RawString_bytes (p : Peer) :
  well_formed_peer p ->
  RawString p =
  string_of_list_byte
    (ID p ++ [byte_of_Z (Z.shiftr (Port p) 8); byte_of_Z (Port p)]
          ++ AsSlice (ip (AddrPort p))).
Proof.
  destruct p as [id [a pt]]. unfold well_formed_peer, RawString, Addr, Port.
  simpl. intros (Hid & _ & Ha). rewrite (Unmap_valid_unmapped _ Ha).
  unfold PeerIDLen in Hid. explode id Hid.
  destruct a as [|l|l z]; simpl in Ha; [contradiction| |destruct Ha as [Ha _]];
    explode l Ha; reflexivity.
Qed.

Lemma NewPeer_of_bytes (id a : list byte) (h l : byte) :
  length id = PeerIDLen ->
  (length a = 4 \/ length a = 16)%nat ->
  NewPeer (string_of_list_byte (id ++ [h; l] ++ a)) =
  (mkPeer id (AddrPortFrom (Unmap (fst (AddrFromSlice a))) (Uint16 [h; l])),
   None).
Proof.
  intros Hid Ha. unfold NewPeer.
  rewrite length_string_of_list_byte, list_byte_of_string_of_list_byte.
  unfold PeerIDLen in Hid. explode id Hid.
  destruct Ha as [Ha|Ha]; explode a Ha; reflexivity.
Qed.

(** C9, amended.  Parsing the raw form of a well-formed peer succeeds
    and gives back the same PeerID, the same port and the same 4 or 16
    address bytes, without the zone of an IPv6 address, which the raw
    form does not carry.  The peer that is returned is the peer that
    was serialized exactly when its address has no zone. *)
Theorem NewPeer_RawString_roundtrip (p : Peer) :
  well_formed_peer p ->
  NewPeer (RawString p) =
    (mkPeer (ID p)
       (AddrPortFrom (WithZone (ip (AddrPort p)) EmptyString) (Port p)),
     None)
  /\ (NewPeer (RawString p) = (p, None)
      <-> WithZone (ip (AddrPort p)) EmptyString = ip (AddrPort p)).
Proof.
  intros Hwf.
  assert (Hmain : NewPeer (RawString p) =
    (mkPeer (ID p)
       (AddrPortFrom (WithZone (ip (AddrPort p)) EmptyString) (Port p)),
     None)).
  { rewrite (RawString_bytes _ Hwf).
    destruct Hwf as (Hid & Hport & Ha).
    rewrite NewPeer_of_bytes; [|assumption|].
    - rewrite (Uint16_PutUint16 _ Hport). do 3 f_equal.
      destruct (ip (AddrPort p)) as [|l|l z]; simpl in *; [contradiction| |].
      + unfold AddrFromSlice. rewrite Ha. reflexivity.
      + destruct Ha as [Hl Hm]. unfold AddrFromSlice. rewrite Hl. simpl.
        simpl in Hm. now rewrite Hm.
    - destruct (ip (AddrPort p)) as [|l|l z]; simpl in *;
        [contradiction|now left|now right]. }
  split; [exact Hmain|]. rewrite Hmain.
  destruct p as [id [a pt]]. unfold Port. simpl. split.
  - intros [= Hz]. exact Hz.
  - intros ->. reflexivity.
Qed.

(** C9, amended, at the peer 10.11.12.13:6881. *)
Lemma NewPeer_RawString_roundtrip_witness :
  NewPeer (RawString peer_10_11_12_13) =
    (mkPeer (ID peer_10_11_12_13)
       (AddrPortFrom (WithZone (ip (AddrPort peer_10_11_12_13)) EmptyString)
          (Port peer_10_11_12_13)),
     None)
  /\ (NewPeer (RawString peer_10_11_12_13) = (peer_10_11_12_13, None)
      <-> WithZone (ip (AddrPort peer_10_11_12_13)) EmptyString
          = ip (AddrPort peer_10_11_12_13)).
Proof.
  apply (NewPeer_RawString_roundtrip peer_10_11_12_13).
  unfold well_formed_peer, is_uint16, PeerIDLen, Port. simpl.
  split; [reflexivity|]. split; [lia|reflexivity].
Defined.

(** C9, counterexample: the peer fe80::1%eth0, port 6881, has a valid
    unmapped IPv6 address, and parsing its raw form succeeds, but the
    peer that is returned is fe80::1 without the zone, which is not the
    peer that was serialized. *)
Lemma NewPeer_RawString_zone_counterexample :
  well_formed_peer peer_link_local
  /\ NewPeer (RawString peer_link_local) =
       (mkPeer (ID peer_link_local)
          (AddrPortFrom
             (Addr6 (AsSlice (ip (AddrPort peer_link_local))) EmptyString)
             6881),
        None)
  /\ NewPeer (RawString peer_link_local) <> (peer_link_local, None).
Proof.
  split.
  - unfold well_formed_peer, is_uint16, PeerIDLen, Port. simpl.
    split; [reflexivity|]. split; [lia|]. split; reflexivity.
  - split; [vm_compute; reflexivity|].
    intros H. vm_compute in H. discriminate H.
Qed.

End bittorrent_facts.

(** ** The HTTP frontend: errors *)

Section http_error_facts.
Import golang http.

Lemma ofMap_singleton (k : string) (v : bencode.value) :
  bencode.ofMap {[ k := v ]} = bencode.Dict [(k, v)].
Proof. unfold bencode.ofMap. now rewrite map_to_list_singleton. Qed.

(** An error that wraps a [ClientError], directly or through other
    wrappers, is reported with the message of that [ClientError]. *)
Lemma As_ClientError_Wrap (msg : string) (e : error) :
  As_ClientError (Wrap msg e) = As_ClientError e.
Proof. reflexivity. Qed.

(** C3. [WriteError] answers on a fresh response writer with status 200
    and with the bencoded dictionary whose only entry is the failure
    reason: the [ClientError]'s message when the error is or wraps a
    [ClientError], the text "internal server error" otherwise.  On any
    writer it appends that dictionary to the body, and it never changes
    a status line that was already written; no other status than 200 is
    ever chosen by it. *)
Theorem WriteError_status_200_failure_reason
    (w : ResponseWriter) (err : option error) :
  WriteError newResponseWriter err =
    mkResponseWriter true 200
      (bencode.Encode
         (bencode.Dict
            [("failure reason"%string, bencode.Str (failure_reason err))]))
  /\ status (WriteError w err) = (if wroteHeader w then status w else 200)
  /\ body (WriteError w err) =
       (body w ++
        bencode.Encode
          (bencode.Dict
             [("failure reason"%string, bencode.Str (failure_reason err))]))%string
  /\ (forall msg : string, failure_reason (Some (ClientError msg)) = msg)
  /\ (forall (msg ctx : string) (e : error),
        As_ClientError e = Some msg ->
        failure_reason (Some (Wrap ctx e)) = msg)
  /\ (forall e : error,
        As_ClientError e = None ->
        failure_reason (Some e) = "internal server error"%string).
Proof.
  split; [|split; [|split; [|split; [|split]]]].
  - unfold WriteError, failure_reason. rewrite ofMap_singleton. reflexivity.
  - unfold WriteError. rewrite ofMap_singleton.
    destruct w as [[] st b]; reflexivity.
  - unfold WriteError, failure_reason. rewrite ofMap_singleton.
    destruct w as [[] st b]; reflexivity.
  - reflexivity.
  - intros msg ctx e H. simpl. now rewrite H.
  - intros e H. simpl. now rewrite H.
Qed.

End http_error_facts.

(** ** The HTTP frontend: announce intervals *)

Section http_announce_facts.
Import golang bittorrent http.

Variable AddrValue : netip.Addr -> bencode.value.

(** C4, at the failing input: [min interval] is written as
    30000000000, the duration in nanoseconds, where whole seconds give
    30: the division of [MinInterval] is guarded by the test of
    [Interval]. *)
Lemma WriteAnnounceResponse_min_interval_not_in_seconds :
  interval_entries AddrValue resp_min_interval_only =
    Some (Some (bencode.Int 0), Some (bencode.Int 30000000000))
  /\ Z.quot (MinInterval resp_min_interval_only) Second = 30.
Proof. split; [vm_compute|]; reflexivity. Qed.

(** When [Interval] is at least one second, both intervals are written
    in whole seconds (unless a [compact4] call panics, in which case
    nothing is written). *)
Lemma announce_intervals_in_seconds (resp : AnnounceResponse) :
  Second <= Interval resp ->
  interval_entries AddrValue resp = None
  \/ interval_entries AddrValue resp =
       Some (Some (bencode.Int (Z.quot (Interval resp) Second)),
             Some (bencode.Int (Z.quot (MinInterval resp) Second))).
Proof.
  intros Hi. unfold interval_entries, announce_bdict.
  assert (H1 : (0 <? Interval resp) = true)
    by (apply Z.ltb_lt; unfold Second in *; lia).
  rewrite H1. cbn [Interval].
  assert (H2 : (0 <? Z.quot (Interval resp) Second) = true).
  { apply Z.ltb_lt. apply Z.quot_str_pos. unfold Second in *. lia. }
  rewrite H2.
  cbn [Compact IPv4Peers IPv6Peers Interval MinInterval Complete Incomplete].
  destruct (Compact resp).
  - destruct (compact4_all (IPv4Peers resp)) as [b4|]; [|now left].
    right.
    destruct (0 <? length b4)%nat,
             (0 <? length (compact6_all (IPv6Peers resp)))%nat; reflexivity.
  - right. reflexivity.
Qed.

End http_announce_facts.

Section http_announce_witnesses.
Import golang bittorrent http.

Lemma announce_intervals_in_seconds_witness :
  interval_entries (fun _ => bencode.Str EmptyString) resp_30min = None
  \/ interval_entries (fun _ => bencode.Str EmptyString) resp_30min =
       Some (Some (bencode.Int (Z.quot (Interval resp_30min) Second)),
             Some (bencode.Int (Z.quot (MinInterval resp_30min) Second))).
Proof.
  apply (announce_intervals_in_seconds (fun _ => bencode.Str EmptyString)
           resp_30min).
  vm_compute. discriminate.
Defined.

End http_announce_witnesses.

(** ** Byte-wise order of strings *)

Section string_order_facts.
Lemma string_compare_trans (c : comparison) (s1 s2 s3 : string) :
  String.compare s1 s2 = c -> String.compare s2 s3 = c ->
  String.compare s1 s3 = c.
Proof.
  revert s2 s3. induction s1 as [|a s1 IH]; intros [|b s2] [|d s3]; simpl;
    try congruence.
  unfold Ascii.compare.
  destruct (N.compare_spec (N_of_ascii a) (N_of_ascii b)) as [E1|L1|G1];
  destruct (N.compare_spec (N_of_ascii b) (N_of_ascii d)) as [E2|L2|G2];
  intros H1 H2; subst; try congruence.
  - rewrite E1, E2, N.compare_refl. now apply (IH s2).
  - rewrite E1. now apply N.compare_lt_iff in L2 as ->.
  - rewrite E1. apply N.compare_gt_iff in G2. now rewrite G2.
  - rewrite <- E2. now apply N.compare_lt_iff in L1 as ->.
  - assert (H : (N_of_ascii a < N_of_ascii d)%N) by lia.
    now apply N.compare_lt_iff in H as ->.
  - rewrite <- E2. apply N.compare_gt_iff in G1. now rewrite G1.
  - assert (H : (N_of_ascii d < N_of_ascii a)%N) by lia.
    apply N.compare_gt_iff in H. now rewrite H.
Qed.

Lemma string_leb_trans (s1 s2 s3 : string) :
  String.leb s1 s2 = true -> String.leb s2 s3 = true ->
  String.leb s1 s3 = true.
Proof.
  unfold String.leb.
  destruct (String.compare s1 s2) eqn:E1; try discriminate;
  destruct (String.compare s2 s3) eqn:E2; try discriminate; intros _ _.
  - apply String.compare_eq_iff in E1, E2. subst.
    pose proof (String.compare_antisym s3 s3) as H.
    destruct (String.compare s3 s3); [reflexivity|reflexivity|discriminate].
  - apply String.compare_eq_iff in E1. subst. now rewrite E2.
  - apply String.compare_eq_iff in E2. subst. now rewrite E1.
  - now rewrite (string_compare_trans Lt s1 s2 s3 E1 E2).
Qed.
End string_order_facts.

(** ** The HTTP frontend: scrape responses *)

Section http_scrape_facts.
Import golang bittorrent http.

#[local] Instance key_le_total : Total bencode.key_le.
Proof. intros a b. apply String.leb_total. Qed.

#[local] Instance key_le_trans : Transitive bencode.key_le.
Proof. intros a b c. apply string_leb_trans. Qed.




End http_scrape_facts.

(** ** Package [random]: the seed of the interval variation *)

Section random_facts.
Import golang bittorrent random.

(** C7, counterexample: the seed of this request is (2, 4), the sums
    of the words; XOR gives (2, 0) under the first reading and (0, 2)
    under the second. *)
Lemma DeriveEntropyFromRequest_is_not_xor :
  DeriveEntropyFromRequest req_add_not_xor = (2, 4)
  /\ xor_of_infohash_and_peer_id req_add_not_xor = (2, 0)
  /\ xor_within_infohash_and_peer_id req_add_not_xor = (0, 2)
  /\ DeriveEntropyFromRequest req_add_not_xor
       <> xor_of_infohash_and_peer_id req_add_not_xor
  /\ DeriveEntropyFromRequest req_add_not_xor
       <> xor_within_infohash_and_peer_id req_add_not_xor.
Proof. repeat split; try (vm_compute; reflexivity); vm_compute; discriminate. Qed.

(** C7, amended: the seed consists of two 64-bit words, each a sum
    modulo 2^64 of two big-endian 64-bit words: the first word adds
    bytes 0..7 and 8..15 of the infohash (and is 0 for an infohash
    shorter than 20 bytes), the second adds bytes 0..7 and 8..15 of the
    peer ID.  The infohash and the peer ID are not mixed: the first word
    depends on the infohash only, the second on the peer ID only. *)
Theorem DeriveEntropyFromRequest_sums_of_words (req : AnnounceRequest) :
  let ih := list_byte_of_string (req_InfoHash req) in
  let id := ID (req_Peer req) in
  let '(v0, v1) := DeriveEntropyFromRequest req in
  0 <= v0 < 2 ^ 64 /\ 0 <= v1 < 2 ^ 64
  /\ ((20 <= length ih)%nat ->
      v0 = (BigEndian (slice ih 0 8) + BigEndian (slice ih 8 16)) mod 2 ^ 64)
  /\ ((length ih < 20)%nat -> v0 = 0)
  /\ v1 = (BigEndian (slice id 0 8) + BigEndian (slice id 8 16)) mod 2 ^ 64
  /\ (forall req' : AnnounceRequest,
        req_InfoHash req' = req_InfoHash req ->
        fst (DeriveEntropyFromRequest req') = v0)
  /\ (forall req' : AnnounceRequest,
        ID (req_Peer req') = ID (req_Peer req) ->
        snd (DeriveEntropyFromRequest req') = v1).
Proof.
  intros ih id. unfold DeriveEntropyFromRequest. fold ih. fold id.
  assert (Hlen : String.length (req_InfoHash req) = length ih).
  { unfold ih. rewrite <- (length_string_of_list_byte
      (list_byte_of_string (req_InfoHash req))).
    now rewrite string_of_list_byte_of_string. }
  assert (Hu : forall b lo hi, (hi - lo = 8)%nat ->
             Uint64 (slice b lo hi) = BigEndian (slice b lo hi)).
  { intros b lo hi E. unfold Uint64, slice. rewrite E.
    now rewrite take_take, Nat.min_id. }
  rewrite Hlen. unfold InfoHashV1Len, wrap_uint64.
  repeat split.
  - destruct (20 <=? length ih)%nat; [apply Z.mod_pos_bound|]; lia.
  - destruct (20 <=? length ih)%nat; [apply Z.mod_pos_bound|]; lia.
  - apply Z.mod_pos_bound; lia.
  - apply Z.mod_pos_bound; lia.
  - intros H. apply Nat.leb_le in H. rewrite H.
    now rewrite (Hu ih 0%nat 8%nat), (Hu ih 8%nat 16%nat).
  - intros H. apply Nat.leb_gt in H. now rewrite H.
  - now rewrite (Hu id 0%nat 8%nat), (Hu id 8%nat 16%nat).
  - intros req' H. simpl. rewrite H. fold ih. now rewrite Hlen.
  - intros req' H. simpl. rewrite H. reflexivity.
Qed.

End random_facts.
(** ** Package [varinterval]: the interval-variation hook *)

Section varinterval_facts.
Import golang bittorrent random varinterval.

Variable Intn : Z -> Z -> Z -> Z * Z * Z.

(** [random.Intn] is taken within its contract. *)
Hypothesis Intn_range : Intn_contract Intn.

Lemma wrap_int64_id (z : Z) : is_int64 z -> wrap_int64 z = z.
Proof.
  unfold is_int64, MinInt64, MaxInt64, wrap_int64. intros H.
  rewrite Z.mod_small; lia.
Qed.

Lemma checkConfig_MaxIncreaseDelta (cfg : Config) :
  checkConfig cfg = None -> 0 < MaxIncreaseDelta cfg.
Proof.
  unfold checkConfig.
  destruct (_ || _); [discriminate|].
  destruct (MaxIncreaseDelta cfg <=? 0) eqn:E; [discriminate|].
  intros _. apply Z.leb_gt in E. exact E.
Qed.

Lemma delta_range (cfg : Config) (req : AnnounceRequest) :
  checkConfig cfg = None -> 1 <= delta Intn cfg req <= MaxIncreaseDelta cfg.
Proof.
  intros Hc. apply checkConfig_MaxIncreaseDelta in Hc. unfold delta.
  destruct (DeriveEntropyFromRequest req) as [s0 s1].
  destruct (Intn s0 s1 (2 ^ 24)) as [[v s0'] s1'].
  pose proof (Intn_range s0' s1' _ Hc) as H.
  destruct (Intn s0' s1' (MaxIncreaseDelta cfg)) as [[v' ?] ?]. simpl in H. lia.
Qed.

(** C6. For a hook built from a valid configuration: when the hook
    decides to modify a response, [Interval] grows by exactly [d]
    seconds for an integer [d] with [1 <= d <= MaxIncreaseDelta] (the
    additions are those of [time.Duration], signed 64-bit, and are the
    exact sums whenever these fit 64 bits); [MinInterval] grows by the
    same [d] seconds when [ModifyMinInterval] is set and is unchanged
    when it is not; nothing else changes.  When the hook decides not to
    modify, the response is returned as it was. *)
Theorem HandleAnnounce_adds_delta_seconds {Ctx : Type}
    (cfg : Config) (ctx : Ctx) (req : AnnounceRequest) (resp : AnnounceResponse) :
  checkConfig cfg = None ->
  MaxIncreaseDelta cfg <= MaxInt64 ->
  let '(ctx', resp', err) := HandleAnnounce Intn cfg ctx req resp in
  ctx' = ctx /\ err = None /\
  if modifies Intn cfg req then
    let d := delta Intn cfg req in
    let add := wrap_int64 (d * Second) in
    1 <= d <= MaxIncreaseDelta cfg
    /\ Interval resp' = wrap_int64 (Interval resp + add)
    /\ MinInterval resp' =
         (if ModifyMinInterval cfg
          then wrap_int64 (MinInterval resp + add)
          else MinInterval resp)
    /\ (is_int64 (d * Second) ->
        (is_int64 (Interval resp + d * Second) ->
         Interval resp' = Interval resp + d * Second)
        /\ (ModifyMinInterval cfg = true ->
            is_int64 (MinInterval resp + d * Second) ->
            MinInterval resp' = MinInterval resp + d * Second))
    /\ Compact resp' = Compact resp /\ Complete resp' = Complete resp
    /\ Incomplete resp' = Incomplete resp
    /\ IPv4Peers resp' = IPv4Peers resp /\ IPv6Peers resp' = IPv6Peers resp
  else resp' = resp.
Proof.
  intros Hc Hmax. pose proof (delta_range cfg req Hc) as Hd.
  unfold HandleAnnounce, modifies, delta in *.
  destruct (DeriveEntropyFromRequest req) as [s0 s1].
  destruct (Intn s0 s1 (2 ^ 24)) as [[v s0'] s1'].
  destruct (Qeq_bool _ _ || Qltb _ _); [|repeat split; reflexivity].
  destruct (Intn s0' s1' (MaxIncreaseDelta cfg)) as [[v' ?] ?].
  assert (Hv : wrap_int64 (v' + 1) = v' + 1).
  { apply wrap_int64_id. unfold is_int64, MinInt64, MaxInt64 in *. lia. }
  rewrite Hv.
  split; [reflexivity|]. split; [reflexivity|]. cbv zeta.
  split; [exact Hd|].
  destruct (ModifyMinInterval cfg); simpl;
    (split; [reflexivity|]); (split; [reflexivity|]);
    (split; [|repeat split; reflexivity]);
    intros Hs; rewrite (wrap_int64_id _ Hs); split.
  - intros H. now apply wrap_int64_id.
  - intros _ H. now apply wrap_int64_id.
  - intros H. now apply wrap_int64_id.
  - intros H. discriminate.
Qed.

(** C8. The modification depends on the request only through its
    infohash and its peer ID, and on nothing else but the configuration:
    two announces with the same infohash and the same peer ID get the
    same decision and the same added seconds, and the hook maps equal
    responses to equal responses, whatever the other fields of the
    requests are. *)
Theorem HandleAnnounce_same_infohash_and_peer_id {Ctx : Type}
    (cfg : Config) (ctx : Ctx) (req1 req2 : AnnounceRequest)
    (resp : AnnounceResponse) :
  req_InfoHash req1 = req_InfoHash req2 ->
  ID (req_Peer req1) = ID (req_Peer req2) ->
  modifies Intn cfg req1 = modifies Intn cfg req2
  /\ delta Intn cfg req1 = delta Intn cfg req2
  /\ HandleAnnounce Intn cfg ctx req1 resp = HandleAnnounce Intn cfg ctx req2 resp.
Proof.
  intros Hih Hid.
  assert (He : DeriveEntropyFromRequest req1 = DeriveEntropyFromRequest req2).
  { unfold DeriveEntropyFromRequest. now rewrite Hih, Hid. }
  unfold modifies, delta, HandleAnnounce. rewrite He. repeat split.
Qed.

End varinterval_facts.

Section varinterval_witnesses.
Import golang bittorrent random varinterval.

Lemma Intn_model_range : Intn_contract Intn_model.
Proof. intros s0 s1 n Hn. simpl. apply Z.mod_pos_bound. exact Hn. Qed.

(** C6 on a request that the hook modifies: with [Intn_model] and a
    probability of one half, one second is added to both intervals. *)
Lemma HandleAnnounce_adds_delta_seconds_witness :
  checkConfig cfg_half = None
  /\ modifies Intn_model cfg_half req_add_not_xor = true
  /\ delta Intn_model cfg_half req_add_not_xor = 1
  /\ Interval (snd (fst (HandleAnnounce Intn_model cfg_half tt req_add_not_xor resp_30min)))
       = 1801 * Second
  /\ MinInterval (snd (fst (HandleAnnounce Intn_model cfg_half tt req_add_not_xor resp_30min)))
       = 901 * Second.
Proof.
  assert (Hc : checkConfig cfg_half = None) by reflexivity.
  assert (Hm : MaxIncreaseDelta cfg_half <= MaxInt64) by (vm_compute; discriminate).
  pose proof (HandleAnnounce_adds_delta_seconds Intn_model Intn_model_range
                cfg_half tt req_add_not_xor resp_30min Hc Hm) as H.
  destruct (HandleAnnounce Intn_model cfg_half tt req_add_not_xor resp_30min)
    as [[ctx' resp'] err].
  assert (Hd : modifies Intn_model cfg_half req_add_not_xor = true) by reflexivity.
  rewrite Hd in H. cbv zeta in H.
  destruct H as (_ & _ & _ & HI & HM & _).
  repeat split; [exact HI | exact HM].
Defined.

(** C8 on two announces of the same peer for the same torrent that
    differ in every other field. *)
Lemma HandleAnnounce_same_infohash_and_peer_id_witness :
  modifies Intn_model cfg_half req_add_not_xor
    = modifies Intn_model cfg_half req_add_not_xor_retry
  /\ delta Intn_model cfg_half req_add_not_xor
    = delta Intn_model cfg_half req_add_not_xor_retry
  /\ HandleAnnounce Intn_model cfg_half tt req_add_not_xor resp_30min
    = HandleAnnounce Intn_model cfg_half tt req_add_not_xor_retry resp_30min.
Proof.
  apply (HandleAnnounce_same_infohash_and_peer_id Intn_model cfg_half tt
           req_add_not_xor req_add_not_xor_retry resp_30min);
    reflexivity.
Defined.

End varinterval_witnesses.

(** ** Package [pg]: scrapes *)

Section pg_scrape_facts.
Import golang bittorrent strings pg.

Variable Row : Type.
Variable Query : string -> list arg -> QueryResult Row.
Variable Scan : Row -> list (option var) -> ScanResult.

Lemma set_index_in_range {A : Type} (l : list A) (i : Z) (x : A) :
  0 <= i < Z.of_nat (length l) ->
  exists l', set_index l i x = Some l' /\ length l' = length l.
Proof.
  intros H. unfold set_index.
  destruct (Z.leb_spec 0 i); [|lia].
  destruct (Z.ltb_spec i (Z.of_nat (length l))); [|lia].
  simpl. eexists. split; [reflexivity|]. apply length_insert.
Qed.

Lemma length_into (n : Z) :
  0 <= n -> Z.of_nat (length (repeat (@None var) (Z.to_nat (n + 1)))) = n + 1.
Proof. intros H. rewrite repeat_length. lia. Qed.

(** [countPeers] never panics: it returns zeros, or the two counts that
    [Scan] stored from the first row. *)
Lemma countPeers_cases (s : Config) (ih : InfoHash) :
  countPeers Row Query Scan s ih = Some (0, 0)
  \/ exists fields row rows into,
       count_query_sent Row Query s ih = QueryOk Row fields (row :: rows)
       /\ countPeers Row Query Scan s ih =
            Some (int_var (Scan row into) VarLeechers,
                  int_var (Scan row into) VarSeeders).
Proof.
  unfold countPeers. fold (count_query_sent Row Query s ih).
  destruct (count_query_sent Row Query s ih) as [e|fields rows]; [now left|].
  destruct rows as [|row rows]; [now left|].
  destruct (count_columns s fields 0 (-1, -1)) as [si li].
  destruct (Z.ltb_spec si 0); [now left|].
  destruct (Z.ltb_spec li 0); [now left|]. simpl.
  set (mi := if li <? si then si else li).
  assert (Hmi : si <= mi /\ li <= mi /\ 0 <= mi).
  { unfold mi. destruct (Z.ltb_spec li si); lia. }
  destruct (set_index_in_range (repeat None (Z.to_nat (mi + 1))) si (Some VarSeeders))
    as (into1 & -> & Hl1); [rewrite length_into; lia|].
  destruct (set_index_in_range into1 li (Some VarLeechers))
    as (into2 & -> & Hl2); [rewrite Hl1, length_into; lia|].
  right. now exists fields, row, rows, into2.
Qed.

Lemma int_var_missing (r : ScanResult) (v : var) :
  (forall z, stored r v = Some (CellInt z) -> z = 0) -> int_var r v = 0.
Proof.
  unfold int_var. intros H. destruct (stored r v) as [[b|z]|]; auto.
Qed.

(** C2. [ScrapeSwarm] returns for every input (it has no error result
    and it never panics), and for an infohash whose swarm the store does
    not hold it returns zero leechers, zero seeders and zero snatches.
    [NoneInfoHash], the empty dummy infohash, is excluded: for it the
    store counts the peers of all swarms. *)
Theorem ScrapeSwarm_total_and_zero_when_missing (s : Config) (ih : InfoHash) :
  (exists counts, ScrapeSwarm Row Query Scan s ih = Some counts)
  /\ (ih <> NoneInfoHash -> swarm_missing Row Query Scan s ih ->
      ScrapeSwarm Row Query Scan s ih = Some (0, 0, 0)).
Proof.
  destruct (countPeers_cases s ih)
    as [H|(fields & row & rows & into & Hq & H)]; unfold ScrapeSwarm; rewrite H.
  - split; [eauto|reflexivity].
  - split; [eauto|]. intros Hne Hmiss.
    unfold swarm_missing, count_by_infohash in Hmiss.
    unfold count_query_sent in Hq. apply String.eqb_neq in Hne.
    rewrite Hne in Hq. rewrite Hq in Hmiss.
    rewrite !int_var_missing by (intros z; apply Hmiss). reflexivity.
Qed.

Lemma count_columns_sound (s : Config) (fields : list string) (i : Z)
    (idx : Z * Z) :
  0 <= i ->
  (fst (count_columns s fields i idx) = fst idx
   \/ exists f,
        fields !! Z.to_nat (fst (count_columns s fields i idx) - i) = Some f
        /\ i <= fst (count_columns s fields i idx)
        /\ ToUpper f = CountSeedersColumn (Peer s))
  /\ (snd (count_columns s fields i idx) = snd idx
      \/ exists f,
           fields !! Z.to_nat (snd (count_columns s fields i idx) - i) = Some f
           /\ i <= snd (count_columns s fields i idx)
           /\ ToUpper f = CountLeechersColumn (Peer s)
           /\ ToUpper f <> CountSeedersColumn (Peer s)).
Proof.
  revert i idx. induction fields as [|field rest IH]; intros i [a b] Hi;
    [split; now left|].
  cbn [count_columns].
  match goal with
  | |- context [count_columns s rest (i + 1) ?x] =>
      destruct (IH (i + 1) x ltac:(lia)) as (H1 & H2);
      remember x as idx1 eqn:Eidx
  end.
  set (r := count_columns s rest (i + 1) idx1) in *. clearbody r.
  assert (Hshift : forall z, i + 1 <= z ->
            (field :: rest) !! Z.to_nat (z - i) = rest !! Z.to_nat (z - (i + 1))).
  { intros z Hz. replace (Z.to_nat (z - i)) with (S (Z.to_nat (z - (i + 1))))
      by lia. reflexivity. }
  split.
  - destruct H1 as [H1|(f & Hf & Hle & Hup)].
    + rewrite H1, Eidx.
      destruct (String.eqb_spec (ToUpper field) (CountSeedersColumn (Peer s)))
        as [E|E]; simpl.
      * right. exists field. rewrite Z.sub_diag. repeat split; [lia|exact E].
      * destruct (String.eqb _ _); now left.
    + right. exists f. rewrite Hshift by exact Hle. repeat split; [assumption|lia|assumption].
  - destruct H2 as [H2|(f & Hf & Hle & Hup & Hne)].
    + rewrite H2, Eidx.
      destruct (String.eqb_spec (ToUpper field) (CountSeedersColumn (Peer s)))
        as [E|E]; simpl; [now left|].
      destruct (String.eqb_spec (ToUpper field) (CountLeechersColumn (Peer s)))
        as [E'|E']; simpl; [|now left].
      right. exists field. rewrite Z.sub_diag. repeat split; [lia|exact E'|exact E].
    + right. exists f. rewrite Hshift by exact Hle.
      repeat split; [assumption|lia|assumption|assumption].
Qed.

Lemma count_columns_found (s : Config) (fields : list string) (i : Z)
    (idx : Z * Z) :
  0 <= i ->
  (0 <= fst idx \/ names_column fields (CountSeedersColumn (Peer s)) ->
   0 <= fst (count_columns s fields i idx))
  /\ (0 <= snd idx
      \/ (CountSeedersColumn (Peer s) <> CountLeechersColumn (Peer s)
          /\ names_column fields (CountLeechersColumn (Peer s))) ->
      0 <= snd (count_columns s fields i idx)).
Proof.
  unfold names_column.
  revert i idx. induction fields as [|field rest IH]; intros i [a b] Hi.
  - simpl. split; intros [H|H]; try exact H.
    + destruct H as (f & [] & _).
    + destruct H as (_ & f & [] & _).
  - cbn [count_columns].
    match goal with
    | |- context [count_columns s rest (i + 1) ?x] =>
        destruct (IH (i + 1) x ltac:(lia)) as (H1 & H2);
        remember x as idx1 eqn:Eidx
    end.
    split.
    + intros [H|(f & [<-|Hin] & Hf)]; apply H1.
      * left. subst idx1.
        repeat match goal with
        | |- context [String.eqb ?x ?y] => destruct (String.eqb x y)
        end; simpl in *; lia.
      * left. subst idx1. rewrite Hf, String.eqb_refl. simpl. lia.
      * right. now exists f.
    + intros [H|(Hne & f & [<-|Hin] & Hf)]; apply H2.
      * left. subst idx1.
        repeat match goal with
        | |- context [String.eqb ?x ?y] => destruct (String.eqb x y)
        end; simpl in *; lia.
      * left. subst idx1. rewrite Hf.
        apply not_eq_sym, String.eqb_neq in Hne. rewrite Hne.
        rewrite String.eqb_refl. simpl. lia.
      * right. split; [exact Hne|]. now exists f.
Qed.

(** [ScrapeSwarm] answers with the two counts crosswise.  Its results
    are the leechers, the seeders and the snatches, in this order.
    When the count query delivers a row, the fields have names of ASCII
    bytes, and the two configured count columns differ and are both
    among the fields (in upper case), [countPeers] scans the row with
    the pointer to its seeders at the seeders column and the pointer to
    its leechers at the leechers column, and [ScrapeSwarm] returns the
    number scanned from the seeders column as its leechers and the
    number scanned from the leechers column as its seeders; the
    snatches are zero. *)
Theorem ScrapeSwarm_counts_crosswise (s : Config) (ih : InfoHash)
    (fields : list string) (row : Row) (rows : list Row) :
  count_query_sent Row Query s ih = QueryOk Row fields (row :: rows) ->
  Forall (fun f => is_ascii f = true) fields ->
  names_column fields (CountSeedersColumn (Peer s)) ->
  names_column fields (CountLeechersColumn (Peer s)) ->
  CountSeedersColumn (Peer s) <> CountLeechersColumn (Peer s) ->
  exists (into : list (option var)) (si li : nat) (fs fl : string),
    fields !! si = Some fs /\ ToUpper fs = CountSeedersColumn (Peer s)
    /\ fields !! li = Some fl /\ ToUpper fl = CountLeechersColumn (Peer s)
    /\ into !! si = Some (Some VarSeeders)
    /\ into !! li = Some (Some VarLeechers)
    /\ ScrapeSwarm Row Query Scan s ih
       = Some (wrap_uint32 (int_var (Scan row into) VarSeeders),
               wrap_uint32 (int_var (Scan row into) VarLeechers), 0).
Proof.
  intros Hq _ Hs Hl Hne.
  unfold ScrapeSwarm, countPeers. fold (count_query_sent Row Query s ih).
  rewrite Hq.
  destruct (count_columns_found s fields 0 (-1, -1) ltac:(lia)) as (F1 & F2).
  destruct (count_columns_sound s fields 0 (-1, -1) ltac:(lia)) as (S1 & S2).
  destruct (count_columns s fields 0 (-1, -1)) as [si li].
  cbn [fst snd] in *.
  specialize (F1 (or_intror Hs)). specialize (F2 (or_intror (conj Hne Hl))).
  destruct S1 as [S1|(fs & Hfs & _ & Ufs)]; [lia|].
  destruct S2 as [S2|(fl & Hfl & _ & Ufl & Nfl)]; [lia|].
  rewrite Z.sub_0_r in Hfs, Hfl.
  assert (Hd : si <> li).
  { intros ->. rewrite Hfs in Hfl. injection Hfl as ->. contradiction. }
  destruct (Z.ltb_spec si 0); [lia|]. destruct (Z.ltb_spec li 0); [lia|].
  cbn [orb].
  set (mi := if li <? si then si else li).
  assert (Hmi : si <= mi /\ li <= mi /\ 0 <= mi).
  { unfold mi. destruct (Z.ltb_spec li si); lia. }
  clearbody mi.
  pose proof (length_into mi ltac:(lia)) as Hlen.
  set (into0 := repeat None (Z.to_nat (mi + 1))) in *. clearbody into0.
  unfold set_index.
  destruct (Z.leb_spec 0 si); [|lia].
  destruct (Z.ltb_spec si (Z.of_nat (length into0))); [|lia]. cbn [andb].
  rewrite length_insert.
  destruct (Z.leb_spec 0 li); [|lia].
  destruct (Z.ltb_spec li (Z.of_nat (length into0))); [|lia]. cbn [andb].
  eexists _, (Z.to_nat si), (Z.to_nat li), fs, fl.
  repeat split; try eassumption; try reflexivity.
  - rewrite list_lookup_insert_ne by lia.
    apply list_lookup_insert_eq. lia.
  - apply list_lookup_insert_eq. rewrite length_insert. lia.
Qed.

End pg_scrape_facts.

(** ** Package [pg]: announces *)

Section pg_announce_facts.
Import golang bittorrent strings pg.

Variable Row : Type.
Variable Query : string -> list arg -> QueryResult Row.
Variable Scan : Row -> list (option var) -> ScanResult.

Lemma scan_peers_spec (rows : list Row) (into : list (option var))
    (maxCount : Z) (acc : list bittorrent.Peer) (err : option error) :
  exists new err',
    scan_peers Row Scan rows into maxCount acc err = (acc ++ new, err')
    /\ Forall (fun p => exists row r,
                 In row rows /\ scan_peer Row Scan row into = (p, None, r)) new
    /\ Z.of_nat (length (acc ++ new)) <= Z.max (Z.of_nat (length acc)) maxCount.
Proof.
  revert acc err. induction rows as [|row rows IH]; intros acc err.
  - exists [], err. simpl. rewrite app_nil_r. repeat split; [constructor|lia].
  - cbn [scan_peers].
    destruct (Z.ltb_spec (Z.of_nat (length acc)) maxCount) as [Hlt|Hge].
    + destruct (scan_peer Row Scan row into) as [[peer e] r] eqn:Hrow.
      destruct e as [e|].
      * destruct (scan_err r).
        -- exists [], (Some e). rewrite app_nil_r.
           repeat split; [constructor|lia].
        -- destruct (IH acc (Some e)) as (new & err' & -> & Hall & Hlen).
           exists new, err'. repeat split; [|exact Hlen].
           eapply Forall_impl; [exact Hall|].
           intros p (row' & r' & Hin & Hp). exists row', r'. split; [now right|exact Hp].
      * destruct (IH (acc ++ [peer]) None) as (new & err' & -> & Hall & Hlen).
        exists (peer :: new), err'. rewrite <- app_assoc. simpl.
        repeat split.
        -- constructor.
           ++ exists row, r. split; [now left|exact Hrow].
           ++ eapply Forall_impl; [exact Hall|].
              intros p (row' & r' & Hin & Hp). exists row', r'.
              split; [now right|exact Hp].
        -- rewrite !length_app in Hlen. rewrite length_app.
           cbn [length] in *. lia.
    + exists [], err. rewrite app_nil_r. repeat split; [constructor|lia].
Qed.

(** [getPeers] never panics; the peers it returns are built from rows
    of the announce query it sent, and are at most [maxCount]. *)
Lemma getPeers_spec (s : Config) (ih : InfoHash) (seeders : bool)
    (maxCount : Z) (v6 : bool) :
  exists peers err,
    getPeers Row Query Scan s ih seeders maxCount v6 = Some (peers, err)
    /\ Forall (returned_for Row Query Scan s ih seeders v6) peers
    /\ Z.of_nat (length peers) <= Z.max 0 maxCount.
Proof.
  unfold getPeers. fold (announce_query Row Query s ih seeders maxCount v6).
  destruct (announce_query Row Query s ih seeders maxCount v6) as [e|fields rows] eqn:Hq.
  { exists [], (Some e). repeat split; [constructor|simpl; lia]. }
  destruct (peer_columns s fields 0 (-1, -1, -1)) as [[idIndex ipIndex] portIndex].
  destruct (Z.ltb_spec idIndex 0).
  { eexists [], _. repeat split; [constructor|simpl; lia]. }
  destruct (Z.ltb_spec ipIndex 0).
  { eexists [], _. repeat split; [constructor|simpl; lia]. }
  destruct (Z.ltb_spec portIndex 0).
  { eexists [], _. repeat split; [constructor|simpl; lia]. }
  cbn [orb].
  set (maxIndex := if (ipIndex <=? idIndex) && (portIndex <=? idIndex) then _ else _).
  assert (Hmax : idIndex <= maxIndex /\ ipIndex <= maxIndex
                 /\ portIndex <= maxIndex /\ 0 <= maxIndex).
  { unfold maxIndex.
    destruct (Z.leb_spec ipIndex idIndex), (Z.leb_spec portIndex idIndex),
      (Z.leb_spec idIndex ipIndex), (Z.leb_spec portIndex ipIndex),
      (Z.leb_spec idIndex portIndex), (Z.leb_spec ipIndex portIndex);
      simpl; lia. }
  destruct (set_index_in_range (repeat None (Z.to_nat (maxIndex + 1))) idIndex (Some VarID))
    as (into1 & -> & Hl1); [rewrite length_into; lia|].
  destruct (set_index_in_range into1 ipIndex (Some VarIP))
    as (into2 & -> & Hl2); [rewrite Hl1, length_into; lia|].
  destruct (set_index_in_range into2 portIndex (Some VarPort))
    as (into3 & -> & Hl3); [rewrite Hl2, Hl1, length_into; lia|].
  destruct (scan_peers_spec rows into3 maxCount [] None)
    as (peers & err & -> & Hall & Hlen).
  exists peers, err. simpl in *. repeat split; [|exact Hlen].
  eapply Forall_impl; [exact Hall|].
  intros p (row & r & Hin & Hp). now exists maxCount, fields, rows, row, into3, r.
Qed.

(** C1, amended.  [AnnouncePeers] never panics.  With
    [forSeeder = true] it returns the leechers that [getPeers]
    delivers within [numWant], and nothing else.  With
    [forSeeder = false] it returns the seeders first, followed by
    leechers, at most [numWant] in all: the seeders are those that
    [getPeers] delivers within [numWant]; the leechers are those that
    [getPeers] delivers within what is left of [numWant] when fetching
    the seeders ended without an error, and none when it ended in an
    error.  In both cases the error is nil exactly when peers are
    returned. *)
Theorem AnnouncePeers_seeders_then_leechers (s : Config) (ih : InfoHash)
    (numWant : Z) (v6 : bool) :
  (exists leechers e err,
      getPeers Row Query Scan s ih false numWant v6 = Some (leechers, e)
      /\ AnnouncePeers Row Query Scan s ih true numWant v6 = Some (leechers, err)
      /\ (err = None <-> leechers <> [])
      /\ Forall (returned_for Row Query Scan s ih false v6) leechers
      /\ Z.of_nat (length leechers) <= Z.max 0 numWant)
  /\ (exists seeders es leechers err,
      getPeers Row Query Scan s ih true numWant v6 = Some (seeders, es)
      /\ AnnouncePeers Row Query Scan s ih false numWant v6
        = Some (seeders ++ leechers, err)
      /\ match es with
         | Some _ => leechers = []
         | None =>
             exists el,
               getPeers Row Query Scan s ih false
                 (numWant - Z.of_nat (length seeders)) v6
               = Some (leechers, el)
         end
      /\ (err = None <-> seeders ++ leechers <> [])
      /\ Forall (returned_for Row Query Scan s ih true v6) seeders
      /\ Forall (returned_for Row Query Scan s ih false v6) leechers
      /\ Z.of_nat (length (seeders ++ leechers)) <= Z.max 0 numWant).
Proof.
  assert (Herr : forall (ps : list bittorrent.Peer) (e : option error),
    exists err,
      match e with
      | None =>
          if (length ps =? 0)%nat then Some (ps, Some ErrResourceDoesNotExist)
          else Some (ps, None)
      | Some e0 =>
          if (0 <? length ps)%nat then Some (ps, None) else Some (ps, Some e0)
      end = Some (ps, err)
      /\ (err = None <-> ps <> [])).
  { intros [|p ps] [e0|]; simpl; eexists; (split; [reflexivity|]);
      split; congruence. }
  split.
  - unfold AnnouncePeers.
    destruct (getPeers_spec s ih false numWant v6) as (ps & e & -> & Hall & Hlen).
    destruct (Herr ps e) as (err & -> & Hnil).
    exists ps, e, err. auto.
  - unfold AnnouncePeers.
    destruct (getPeers_spec s ih true numWant v6) as (ss & e & Hs & Hall & Hlen).
    rewrite Hs. destruct e as [e|].
    + destruct (Herr ss (Some e)) as (err & Heq & Hnil).
      exists ss, (Some e), [], err. rewrite app_nil_r.
      cbv beta iota in Heq. rewrite Heq.
      repeat split; auto; apply Hnil.
    + destruct (getPeers_spec s ih false (numWant - Z.of_nat (length ss)) v6)
        as (ls & e' & Hl & Hall' & Hlen').
      rewrite Hl.
      destruct (Herr (ss ++ ls) e') as (err & Heq & Hnil).
      exists ss, None, ls, err. rewrite Heq.
      repeat split; eauto; try apply Hnil.
      rewrite length_app. lia.
Qed.

End pg_announce_facts.


(** ** Package [pg]: the store on the demo database *)

Section pg_demo_facts.
Import golang bittorrent strings pg.

Lemma scan_cells_stored (row : DemoRow) (into : list (option var))
    (st : var -> option cell) (v : var) (c : cell) :
  stored (scan_cells row into st) v = Some c -> In c row \/ st v = Some c.
Proof.
  revert into st. induction row as [|c0 row IH]; intros [|d into] st; simpl;
    try (intros H; now right).
  destruct d as [v0|].
  - destruct (var_accepts v0 c0); [|intros H; now right].
    intros H. apply IH in H. destruct H as [H|H]; [left; now right|].
    unfold store_var in H.
    destruct v0, v; try (now right); injection H as <-; left; now left.
  - intros H. apply IH in H. destruct H as [H|H]; [left; now right|now right].
Qed.

(** C1, counterexample: the swarm of [ih_A] has one leecher and one
    seeder.  On the store with the configuration that [Validate]
    returns for [demo_cfg], a leecher that asks for two peers receives
    no peer and an error, because the columns of the result set are
    not found (C10).  On a store with the columns of [demo_cfg] as
    they are written, it receives the seeder first and the leecher
    second.  Neither answer lists the leecher first, followed by the
    seeder. *)
Lemma AnnouncePeers_leechers_first_counterexample :
  snd (Validate demo_cfg) = None
  /\ swarm demo_table ih_A false false = [peer_L1]
  /\ swarm demo_table ih_A true false = [peer_S1]
  /\ AnnouncePeers DemoRow (demo_Query demo_table) demo_Scan
       (fst (Validate demo_cfg)) ih_A false 2 false
     = Some ([], Some (errRequiredColumnsNotFound
                         ["PORT"; "ADDRESS"; "PORT"]%string))
  /\ ~ leechers_then_seeders demo_table (fst (Validate demo_cfg)) ih_A 2 false
  /\ AnnouncePeers DemoRow (demo_Query demo_table) demo_Scan demo_cfg
       ih_A false 2 false
     = Some ([peer_S1; peer_L1], None)
  /\ ~ leechers_then_seeders demo_table demo_cfg ih_A 2 false.
Proof.
  split; [vm_compute; reflexivity|].
  split; [vm_compute; reflexivity|].
  split; [vm_compute; reflexivity|].
  split; [vm_compute; reflexivity|].
  split; [intros H; vm_compute in H; discriminate H|].
  split; [vm_compute; reflexivity|].
  intros H. vm_compute in H. discriminate H.
Qed.

Lemma count_by_infohash_demo_B :
  count_by_infohash DemoRow (demo_Query demo_table) demo_cfg ih_B
  = QueryOk DemoRow ["seeders"; "leechers"]%string [[CellInt 0; CellInt 0]].
Proof. vm_compute. reflexivity. Qed.

(** C2 on the demo database: no peer announced [ih_B]. *)
Lemma ScrapeSwarm_total_and_zero_when_missing_witness :
  ScrapeSwarm DemoRow (demo_Query demo_table) demo_Scan demo_cfg ih_B
  = Some (0, 0, 0).
Proof.
  apply (proj2 (ScrapeSwarm_total_and_zero_when_missing
                  DemoRow (demo_Query demo_table) demo_Scan demo_cfg ih_B)).
  - discriminate.
  - unfold swarm_missing. rewrite count_by_infohash_demo_B.
    intros into v z H. unfold demo_Scan in H.
    destruct (length [CellInt 0; CellInt 0] =? length into)%nat;
      [|discriminate H].
    apply scan_cells_stored in H.
    destruct H as [[H|[H|[]]]|H]; congruence.
Defined.

(** On a swarm with two seeders and one leecher, [ScrapeSwarm] answers
    two leechers and one seeder. *)
Lemma ScrapeSwarm_two_seeders_one_leecher :
  ScrapeSwarm DemoRow (demo_Query demo_table_two_seeders) demo_Scan demo_cfg ih_A
  = Some (2, 1, 0).
Proof. vm_compute. reflexivity. Qed.

(** What [Validate] does to the column names of the announce query:
    [PeerIDColumn] receives the upper-cased [PortColumn], and
    [AddressColumn] and [PortColumn] are trimmed and otherwise left as
    they were. *)
Lemma Validate_announce_columns (cfg valid : Config) :
  Validate cfg = (valid, None) ->
  PeerIDColumn (Announce valid) = ToUpper (TrimSpace (PortColumn (Announce cfg)))
  /\ AddressColumn (Announce valid) = TrimSpace (AddressColumn (Announce cfg))
  /\ PortColumn (Announce valid) = TrimSpace (PortColumn (Announce cfg)).
Proof.
  unfold Validate, required, fn.
  destruct (String.length (TrimSpace (ConnectionString cfg)) =? 0)%nat;
    [discriminate|].
  repeat match goal with
  | |- context [(String.length (TrimSpace ?x) =? 0)%nat] =>
      destruct (String.length (TrimSpace x) =? 0)%nat; [discriminate|]
  end.
  intros [= <-]. simpl. auto.
Qed.

(** C10, at the failing input: [Validate] succeeds, [PeerIDColumn]
    becomes [PORT], [AddressColumn] and [PortColumn] stay in lower case,
    and [getPeers], which compares upper-cased field names with these
    columns, finds none of them complete: it fails on a result set that
    has all three columns. *)
Lemma Validate_announce_columns_not_upper_cased :
  snd (Validate cfg_lower_case_columns) = None
  /\ PeerIDColumn (Announce (fst (Validate cfg_lower_case_columns))) = "PORT"%string
  /\ AddressColumn (Announce (fst (Validate cfg_lower_case_columns))) = "address"%string
  /\ PortColumn (Announce (fst (Validate cfg_lower_case_columns))) = "port"%string
  /\ ToUpper "peer_id" = "PEER_ID"%string
  /\ ToUpper "address" = "ADDRESS"%string
  /\ ToUpper "port" = "PORT"%string
  /\ getPeers DemoRow (demo_Query demo_table) demo_Scan
       (fst (Validate cfg_lower_case_columns)) ih_A true 2 false
     = Some ([], Some (errRequiredColumnsNotFound
                         ["PORT"; "address"; "port"]%string)).
Proof. repeat split; vm_compute; reflexivity. Qed.

End pg_demo_facts.

(** ** [encoding/hex] and the identifiers of package [bittorrent] *)

Section identifier_facts.
Import golang bittorrent.

Ltac explode_list l H :=
  repeat (destruct l as [|? l]; simpl in H; [discriminate H|]);
  destruct l; [clear H | discriminate H].

Lemma Decode_Encode_byte (v : byte) (rest dst : list byte) :
  hex.Decode (hex.Encode [v] ++ rest) dst = hex.Decode rest (dst ++ [v]).
Proof. destruct v; reflexivity. Qed.

Lemma Decode_Encode (b dst : list byte) :
  hex.Decode (hex.Encode b) dst = (dst ++ b, None).
Proof.
  revert dst. induction b as [|v b IH]; intros dst.
  - simpl. now rewrite app_nil_r.
  - change (hex.Encode (v :: b)) with (hex.Encode [v] ++ hex.Encode b).
    rewrite Decode_Encode_byte, IH, <- app_assoc. reflexivity.
Qed.

Lemma length_Encode (b : list byte) :
  length (hex.Encode b) = (2 * length b)%nat.
Proof. induction b as [|v b IH]; simpl; [reflexivity|]. rewrite IH. lia. Qed.

(** Decoding the base16 form of a byte sequence gives the sequence
    back, without error; the base16 form has two digits per byte. *)
Lemma DecodeString_EncodeToString (b : list byte) :
  hex.DecodeString (hex.EncodeToString b) = (b, None)
  /\ String.length (hex.EncodeToString b) = (2 * length b)%nat.
Proof.
  unfold hex.DecodeString, hex.EncodeToString.
  rewrite list_byte_of_string_of_list_byte, Decode_Encode.
  rewrite length_string_of_list_byte, length_Encode. split; reflexivity.
Qed.

Lemma length_list_byte_of_string (s : string) :
  length (list_byte_of_string s) = String.length s.
Proof.
  rewrite <- (length_string_of_list_byte (list_byte_of_string s)).
  now rewrite string_of_list_byte_of_string.
Qed.

Lemma length_substring_0 (n : nat) (s : string) :
  (n <= String.length s)%nat -> String.length (substring 0 n s) = n.
Proof.
  revert s. induction n as [|n IH]; intros [|c s] H; simpl in *;
    try reflexivity; try lia.
  rewrite IH; [reflexivity|lia].
Qed.

Lemma prefix_substring_0 (n : nat) (s : string) :
  String.prefix (substring 0 n s) s = true.
Proof.
  revert s. induction n as [|n IH]; intros [|c s]; simpl; try reflexivity.
  destruct (ascii_dec c c) as [_|Hc]; [apply IH|congruence].
Qed.

Lemma NewPeerID_cases (b : list byte) :
  (length b = PeerIDLen -> NewPeerID b = (b, None))
  /\ (length b <> PeerIDLen ->
      NewPeerID b = (make PeerIDLen, Some ErrInvalidPeerIDSize)).
Proof.
  unfold NewPeerID, PeerIDLen. split; intros H.
  - rewrite H. simpl. explode_list b H. reflexivity.
  - apply Nat.eqb_neq in H. now rewrite H.
Qed.

(** [NewPeerID] accepts exactly the slices of 20 bytes and returns their
    bytes unchanged; for any other slice it returns the zero ID, 20
    zero bytes, and [ErrInvalidPeerIDSize]. *)
Theorem NewPeerID_accepts_exactly_20_bytes (b : list byte) :
  (snd (NewPeerID b) = None <-> length b = PeerIDLen)
  /\ (length b = PeerIDLen -> NewPeerID b = (b, None))
  /\ (length b <> PeerIDLen ->
      NewPeerID b = (repeat x00 20, Some ErrInvalidPeerIDSize)).
Proof.
  destruct (NewPeerID_cases b) as [Hok Herr].
  split; [|split; [exact Hok|exact Herr]].
  destruct (Nat.eq_dec (length b) PeerIDLen) as [H|H].
  - rewrite (Hok H). split; auto.
  - rewrite (Herr H). split; [discriminate|contradiction].
Qed.

(** The raw and the base16 form of a PeerID: the raw form of a 20-byte
    ID has 20 bytes and is read back by [NewPeerID]; the base16 form
    has 40 digits and decodes to the ID. *)
Theorem PeerID_RawString_String_roundtrip (p : PeerID) :
  length p = PeerIDLen ->
  String.length (PeerID_RawString p) = 20%nat
  /\ NewPeerID (list_byte_of_string (PeerID_RawString p)) = (p, None)
  /\ String.length (PeerID_String p) = 40%nat
  /\ hex.DecodeString (PeerID_String p) = (p, None).
Proof.
  intros H. unfold PeerID_RawString, PeerID_String.
  rewrite length_string_of_list_byte, list_byte_of_string_of_list_byte.
  destruct (DecodeString_EncodeToString p) as [Hd Hl].
  rewrite Hd, Hl, H.
  repeat split; try reflexivity.
  now apply NewPeerID_cases.
Qed.

(** Whatever it is given, [NewInfoHash] returns either an infohash of
    20 or of 32 bytes and no error, or [NoneInfoHash] and an error. *)
Theorem NewInfoHash_size (data : hash_data) :
  match NewInfoHash data with
  | (ih, None) =>
      String.length ih = InfoHashV1Len \/ String.length ih = InfoHashV2Len
  | (ih, Some _) => ih = NoneInfoHash
  end.
Proof.
  assert (Hsize : forall ba : list byte,
    match (if negb (length ba =? InfoHashV1Len)%nat
              && negb (length ba =? InfoHashV2Len)%nat
           then (NoneInfoHash, Some ErrInvalidHashSize)
           else (string_of_list_byte ba, None)) with
    | (ih, None) =>
        String.length ih = InfoHashV1Len \/ String.length ih = InfoHashV2Len
    | (ih, Some _) => ih = NoneInfoHash
    end).
  { intros ba.
    destruct (length ba =? InfoHashV1Len)%nat eqn:E1;
    destruct (length ba =? InfoHashV2Len)%nat eqn:E2; simpl;
    rewrite ?length_string_of_list_byte;
    try apply Nat.eqb_eq in E1; try apply Nat.eqb_eq in E2; auto. }
  unfold NewInfoHash.
  destruct data as [|t|t|t|t|]; try reflexivity; try apply Hsize.
  destruct (_ || _); [|apply Hsize].
  destruct (hex.DecodeString t) as [ba [e|]]; [reflexivity|apply Hsize].
Qed.

(** An infohash of 20 or 32 bytes is read back by [NewInfoHash] from its
    base16 form, from its raw form and from its bytes. *)
Theorem NewInfoHash_roundtrip (ih : InfoHash) :
  String.length ih = InfoHashV1Len \/ String.length ih = InfoHashV2Len ->
  NewInfoHash (DataString (InfoHash_String ih)) = (ih, None)
  /\ NewInfoHash (DataString (InfoHash_RawString ih)) = (ih, None)
  /\ NewInfoHash (DataBytes (list_byte_of_string ih)) = (ih, None).
Proof.
  intros H.
  assert (Hb : (length (list_byte_of_string ih) = 20
                \/ length (list_byte_of_string ih) = 32)%nat)
    by (rewrite length_list_byte_of_string; exact H).
  assert (Hsize : forall ba : list byte,
    ba = list_byte_of_string ih ->
    (if negb (length ba =? InfoHashV1Len)%nat
        && negb (length ba =? InfoHashV2Len)%nat
     then (NoneInfoHash, Some ErrInvalidHashSize)
     else (string_of_list_byte ba, None)) = (ih, @None error)).
  { intros ba ->. rewrite string_of_list_byte_of_string.
    destruct Hb as [-> | ->]; reflexivity. }
  unfold NewInfoHash, InfoHash_String, InfoHash_RawString.
  destruct (DecodeString_EncodeToString (list_byte_of_string ih)) as [Hd Hl].
  rewrite Hd, Hl. repeat split.
  - destruct Hb as [-> | ->]; simpl; now apply Hsize.
  - unfold InfoHashV1Len, InfoHashV2Len in *.
    destruct H as [-> | ->]; simpl; now apply Hsize.
  - now apply Hsize.
Qed.

(** [TruncateV1] of an infohash of 20 or 32 bytes has 20 bytes and is a
    prefix of the infohash; a 20-byte infohash is its own truncation;
    truncating twice is truncating once. *)
Theorem TruncateV1_is_v1_prefix (ih : InfoHash) :
  String.length ih = InfoHashV1Len \/ String.length ih = InfoHashV2Len ->
  String.length (TruncateV1 ih) = InfoHashV1Len
  /\ String.prefix (TruncateV1 ih) ih = true
  /\ (String.length ih = InfoHashV1Len -> TruncateV1 ih = ih)
  /\ TruncateV1 (TruncateV1 ih) = TruncateV1 ih.
Proof.
  unfold TruncateV1, InfoHashV1Len, InfoHashV2Len. intros [H|H]; rewrite H; simpl.
  - rewrite H. simpl. repeat split; try reflexivity; try assumption.
    clear H. induction ih as [|c s IH]; simpl; [reflexivity|].
    destruct (ascii_dec c c); [exact IH|congruence].
  - assert (Hl : String.length (substring 0 20 ih) = 20%nat)
      by (apply length_substring_0; lia).
    rewrite Hl. simpl. repeat split; try reflexivity.
    + apply prefix_substring_0.
    + intros H'. lia.
Qed.

End identifier_facts.

(** ** Peers of [bittorrent/bittorrent.go]: equality of endpoints *)

Section endpoint_facts.
Import golang.

Lemma bytes_eqb_eq (a b : list byte) : netip.bytes_eqb a b = true <-> a = b.
Proof.
  unfold netip.bytes_eqb.
  destruct (List.list_eq_dec Byte.byte_eq_dec a b); split; congruence.
Qed.

Lemma IP_Equal_spec (ip x : list byte) :
  net.IP_Equal ip x = true <->
  ip = x \/ (len_4_or_16 ip /\ len_4_or_16 x /\ To16 ip = To16 x).
Proof.
  unfold net.IP_Equal, len_4_or_16, To16.
  destruct (Nat.eqb_spec (length ip) (length x)) as [El|Nl].
  - rewrite bytes_eqb_eq. split; [now left|].
    intros [H|(_ & _ & H)]; [exact H|].
    rewrite <- El in H. destruct (length ip =? 4)%nat; [|exact H].
    now apply app_inv_head in H.
  - destruct (Nat.eqb_spec (length ip) 4) as [E4|N4];
    destruct (Nat.eqb_spec (length x) 16) as [E16|N16]; simpl.
    + rewrite andb_true_iff, !bytes_eqb_eq.
      assert (Hx : (length x =? 4)%nat = false) by (apply Nat.eqb_neq; lia).
      rewrite Hx. split.
      * intros [Hp Hs]. right. repeat split; auto.
        rewrite <- (firstn_skipn 12 x). now rewrite Hp, Hs.
      * intros [H|(_ & _ & H)]; [congruence|]. subst x.
        simpl. now split.
    + destruct (Nat.eqb_spec (length ip) 16); [lia|].
      split; [discriminate|]. intros [H|(_ & [?|?] & _)]; [congruence|lia|lia].
    + destruct (Nat.eqb_spec (length ip) 16) as [E16'|N16'];
        [lia|]. split; [discriminate|].
      intros [H|([?|?] & _ & _)]; [congruence|lia|lia].
    + destruct (Nat.eqb_spec (length ip) 16) as [E16'|N16'];
      destruct (Nat.eqb_spec (length x) 4) as [E4'|N4']; simpl;
        try (split; [discriminate|];
             intros [H|([?|?] & [?|?] & _)]; (congruence || lia)).
      rewrite andb_true_iff, !bytes_eqb_eq.
      assert (Hi : (length ip =? 4)%nat = false) by (apply Nat.eqb_neq; lia).
      split.
      * intros [Hp Hs]. right. repeat split; auto.
        rewrite <- (firstn_skipn 12 ip). now rewrite Hp, Hs.
      * intros [H|(_ & _ & H)]; [congruence|]. subst ip.
        simpl. now split.
Qed.

Lemma IP_Equal_equivalence :
  (forall a, net.IP_Equal a a = true)
  /\ (forall a b, net.IP_Equal a b = true -> net.IP_Equal b a = true)
  /\ (forall a b c, net.IP_Equal a b = true -> net.IP_Equal b c = true ->
                    net.IP_Equal a c = true).
Proof.
  repeat split.
  - intros a. apply IP_Equal_spec. now left.
  - intros a b H. apply IP_Equal_spec in H. apply IP_Equal_spec.
    destruct H as [H|(Ha & Hb & H)]; [now left|right; auto].
  - intros a b c H1 H2. apply IP_Equal_spec in H1, H2. apply IP_Equal_spec.
    destruct H1 as [->|(Ha & Hb & H1)]; [exact H2|].
    destruct H2 as [<-|(_ & Hc & H2)]; [right; auto|].
    right. repeat split; auto. congruence.
Qed.

(** [EqualEndpoint] is an equivalence relation on peers; it holds
    between peers that [Equal] holds between, and it looks at neither
    the peer ID nor the address family: a peer at an IPv4 address and a
    peer at the same port and the IPv4-mapped form of that address
    have the same endpoint. *)
Theorem EqualEndpoint_equivalence :
  (forall p, chihaya.EqualEndpoint p p = true)
  /\ (forall p x, chihaya.EqualEndpoint p x = true ->
                  chihaya.EqualEndpoint x p = true)
  /\ (forall p x y, chihaya.EqualEndpoint p x = true ->
                    chihaya.EqualEndpoint x y = true ->
                    chihaya.EqualEndpoint p y = true)
  /\ (forall p x, chihaya.Equal p x = true -> chihaya.EqualEndpoint p x = true)
  /\ (forall id id' a af af' port,
        length a = 4%nat ->
        chihaya.EqualEndpoint
          (chihaya.mkPeer id (chihaya.mkIP a af) port)
          (chihaya.mkPeer id' (chihaya.mkIP (netip.v4InV6Prefix ++ a) af') port)
        = true).
Proof.
  destruct IP_Equal_equivalence as (Hr & Hs & Ht).
  unfold chihaya.Equal, chihaya.EqualEndpoint. repeat split.
  - intros p. now rewrite Z.eqb_refl, Hr.
  - intros p x H. apply andb_true_iff in H as [Hp Hi].
    apply Z.eqb_eq in Hp. rewrite Hp, Z.eqb_refl. simpl. now apply Hs.
  - intros p x y H1 H2. apply andb_true_iff in H1 as [Hp1 Hi1].
    apply andb_true_iff in H2 as [Hp2 Hi2].
    apply Z.eqb_eq in Hp1, Hp2. rewrite Hp1, Hp2, Z.eqb_refl. simpl.
    now apply (Ht _ _ _ Hi1).
  - intros p x H. now apply andb_true_iff in H as [H _].
  - intros id id' a af af' port Ha.
    cbn [chihaya.Port chihaya.peer_IP chihaya.ip_IP].
    rewrite Z.eqb_refl. cbn [andb].
    apply IP_Equal_spec. right. unfold len_4_or_16, To16.
    rewrite length_app, Ha. cbn [length Nat.add Nat.eqb].
    repeat split; auto.
Qed.

Lemma substring_0_length (s : string) : substring 0 (String.length s) s = s.
Proof. induction s as [|c s IH]; simpl; [reflexivity|]. now rewrite IH. Qed.

(** [TruncateV1] of this revision panics exactly on the infohashes
    shorter than 20 bytes; on an infohash of 20 or 32 bytes, such as
    [NewInfoHash] returns, it does not panic and gives what the guarded
    [TruncateV1] of the other revision gives. *)
Theorem TruncateV1_revisions_agree (ih : bittorrent.InfoHash) :
  (chihaya.TruncateV1 ih = None <->
   (String.length ih < bittorrent.InfoHashV1Len)%nat)
  /\ (String.length ih = bittorrent.InfoHashV1Len
      \/ String.length ih = bittorrent.InfoHashV2Len ->
      chihaya.TruncateV1 ih = Some (bittorrent.TruncateV1 ih)).
Proof.
  unfold chihaya.TruncateV1, bittorrent.TruncateV1,
    bittorrent.InfoHashV1Len, bittorrent.InfoHashV2Len.
  split.
  - destruct (Nat.ltb_spec (String.length ih) 20); split;
      (congruence || lia || auto).
  - intros [H|H]; rewrite H; simpl; [|reflexivity].
    rewrite <- H at 1. now rewrite substring_0_length.
Qed.

End endpoint_facts.

(** ** The HTTP frontend: compact peers *)

Section compact_facts.
Import golang bittorrent http.

Lemma byte_of_Z_land_255 (z : Z) : byte_of_Z (Z.land z 255) = byte_of_Z z.
Proof.
  unfold byte_of_Z. change 255 with (Z.ones 8).
  rewrite Z.land_ones by lia. change (2 ^ 8) with 256.
  now rewrite Z.mod_mod by lia.
Qed.

Lemma Uint16_port_bytes (port : Z) :
  is_uint16 port -> Uint16 (port_bytes port) = port.
Proof.
  intros H. unfold port_bytes. rewrite byte_of_Z_land_255.
  now apply Uint16_PutUint16.
Qed.

Lemma Addr_well_formed (peer : Peer) :
  addr_well_formed (netip.ip (AddrPort peer)) ->
  addr_well_formed (Addr peer)
  /\ netip.Is4In6 (Addr peer) = false.
Proof.
  unfold Addr. destruct (netip.ip (AddrPort peer)) as [|l|l z]; simpl;
    [contradiction|auto|].
  intros Hl. destruct (netip.bytes_eqb (firstn 12 l) netip.v4InV6Prefix) eqn:E.
  - split; [|reflexivity]. simpl. rewrite length_drop. lia.
  - simpl. now rewrite E.
Qed.

Lemma Unmap_mapped (l : list byte) (z : string) :
  netip.Unmap (netip.Addr6 (netip.v4InV6Prefix ++ l) z) = netip.Addr4 l.
Proof.
  unfold netip.Unmap, netip.Is4In6.
  change (firstn 12 (netip.v4InV6Prefix ++ l)) with netip.v4InV6Prefix.
  rewrite (proj2 (bytes_eqb_eq _ _) eq_refl). reflexivity.
Qed.

Lemma compact4_None_iff (peer : Peer) :
  compact4 peer = None <-> netip.Is4 (Addr peer) = false.
Proof.
  unfold compact4, Addr.
  destruct (netip.ip (AddrPort peer)) as [|l|l z]; simpl;
    [split; auto|split; discriminate|].
  destruct (netip.bytes_eqb (firstn 12 l) netip.v4InV6Prefix) eqn:E; simpl;
    [split; discriminate|]. rewrite E. split; auto.
Qed.

(** [compact4] panics exactly on the peers whose unmapped address is
    not an IPv4 address.  For an IPv4 peer it gives 6 bytes: the 4
    address bytes followed by the port in big-endian order, from which
    the port is read back. *)
Theorem compact4_layout (peer : Peer) :
  (compact4 peer = None <-> netip.Is4 (Addr peer) = false)
  /\ (forall b : list byte,
        compact4 peer = Some b ->
        addr_well_formed (netip.ip (AddrPort peer)) ->
        is_uint16 (Port peer) ->
        length b = 6%nat
        /\ firstn 4 b = netip.AsSlice (Addr peer)
        /\ Uint16 (skipn 4 b) = Port peer).
Proof.
  split; [apply compact4_None_iff|]. unfold compact4.
  intros b Hb Hwf Hport. apply Addr_well_formed in Hwf as [Hwf Hm].
  destruct (Addr peer) as [|l|l z]; simpl in *; [contradiction| |].
  - injection Hb as <-. rewrite length_app, Hwf.
    rewrite take_app_length', drop_app_length' by (symmetry; exact Hwf).
    repeat split; auto. now apply Uint16_port_bytes.
  - rewrite Hm in Hb. discriminate.
Qed.

(** [compact6] gives 18 bytes for every peer with a well-formed
    address, an IPv4 address being written in its IPv4-mapped form;
    reading the first 16 bytes back as an address and unmapping it
    gives the peer's address (without its zone), and the last 2 bytes
    give the port. *)
Theorem compact6_roundtrip (peer : Peer) :
  addr_well_formed (netip.ip (AddrPort peer)) ->
  is_uint16 (Port peer) ->
  length (compact6 peer) = 18%nat
  /\ netip.Unmap (fst (netip.AddrFromSlice (firstn 16 (compact6 peer))))
     = netip.WithZone (Addr peer) EmptyString
  /\ Uint16 (skipn 16 (compact6 peer)) = Port peer.
Proof.
  intros Hwf Hport. apply Addr_well_formed in Hwf as [Hwf Hm].
  unfold compact6.
  destruct (Addr peer) as [|l|l z]; simpl in Hwf, Hm; [contradiction| |].
  - assert (Hl : length (As16 (netip.Addr4 l)) = 16%nat)
      by (simpl; rewrite Hwf; reflexivity).
    rewrite length_app, Hl.
    rewrite take_app_length', drop_app_length' by (symmetry; exact Hl).
    repeat split; [|now apply Uint16_port_bytes].
    unfold netip.AddrFromSlice. rewrite Hl.
    cbn [Nat.eqb fst As16 netip.WithZone]. apply Unmap_mapped.
  - assert (Hl : length (As16 (netip.Addr6 l z)) = 16%nat) by exact Hwf.
    rewrite length_app, Hl.
    rewrite take_app_length', drop_app_length' by (symmetry; exact Hl).
    repeat split; [|now apply Uint16_port_bytes].
    unfold netip.AddrFromSlice. simpl. rewrite Hwf. simpl. now rewrite Hm.
Qed.

End compact_facts.

(** ** The HTTP frontend: the peers of an announce response *)

Section announce_peers_facts.
Import golang bittorrent http.

Variable AddrValue : netip.Addr -> bencode.value.

Lemma compact4_all_None (peers : list Peer) :
  compact4_all peers = None <->
  Exists (fun p => netip.Is4 (Addr p) = false) peers.
Proof.
  induction peers as [|p peers IH]; simpl.
  - split; [discriminate|]. intros H. inversion H.
  - destruct (compact4 p) as [b|] eqn:Ep.
    + destruct (compact4_all peers) as [bs|].
      * split; [discriminate|]. intros H. inversion H as [? ? Hp|? ? Hps]; subst.
        -- apply compact4_None_iff in Hp. congruence.
        -- apply IH in Hps. discriminate.
      * split; [|reflexivity]. intros _. apply Exists_cons_tl. now apply IH.
    + split; [|reflexivity]. intros _. apply Exists_cons_hd.
      now apply compact4_None_iff.
Qed.

Lemma compact4_all_nonempty (peers : list Peer) (b : list byte) :
  compact4_all peers = Some b -> peers <> [] -> b <> [].
Proof.
  destruct peers as [|p peers]; [congruence|]. simpl.
  unfold compact4 at 1. destruct (As4 (Addr p)) as [a|]; [|discriminate].
  destruct (compact4_all peers); [|discriminate].
  intros [= <-] _ H. apply (f_equal (@length byte)) in H.
  rewrite !length_app in H. simpl in H. lia.
Qed.

Lemma compact6_all_nonempty (peers : list Peer) :
  peers <> [] -> compact6_all peers <> [].
Proof.
  destruct peers as [|p peers]; [congruence|]. intros _ H.
  apply (f_equal (@length byte)) in H. unfold compact6_all in H. simpl in H.
  unfold compact6 at 1 in H. rewrite !length_app in H. simpl in H. lia.
Qed.

Lemma length_pos_ltb {A : Type} (l : list A) :
  (0 <? length l)%nat = match l with [] => false | _ => true end.
Proof. destruct l; reflexivity. Qed.

(** [WriteAnnounceResponse] panics exactly when the response is
    compact and one of its [IPv4Peers] has an unmapped address that is
    not an IPv4 address; a response in dictionary form is always
    written. *)
Theorem WriteAnnounceResponse_panics_iff
    (w : ResponseWriter) (resp : AnnounceResponse) :
  WriteAnnounceResponse AddrValue w resp = None <->
  Compact resp = true
  /\ Exists (fun p => netip.Is4 (Addr p) = false) (IPv4Peers resp).
Proof.
  rewrite <- compact4_all_None.
  unfold WriteAnnounceResponse, announce_bdict.
  destruct (0 <? Interval resp);
    cbn [Compact Complete Incomplete Interval MinInterval IPv4Peers IPv6Peers];
    match goal with
    | |- context [if 0 <? ?x then _ else _] => destruct (0 <? x)
    end;
    cbn [Compact Complete Incomplete Interval MinInterval IPv4Peers IPv6Peers];
    (destruct (Compact resp);
     [destruct (compact4_all (IPv4Peers resp));
      [split; [discriminate|intros [_ H]; discriminate]|split; auto]
     |split; [discriminate|intros [H _]; discriminate]]).
Qed.

(** The entries of the announce dictionary.  Both forms carry
    [complete] and [incomplete].  The compact form carries [peers] only
    when there is an IPv4 peer and [peers6] only when there is an IPv6
    peer, each as one byte string; the dictionary form always carries
    [peers], a list with one dictionary per IPv4 and per IPv6 peer in
    this order, and never [peers6]. *)
Theorem announce_bdict_entries (resp : AnnounceResponse) :
  match announce_bdict AddrValue resp with
  | None => True
  | Some (_, bdict) =>
  bdict !! "complete"%string = Some (bencode.Int (Complete resp))
  /\ bdict !! "incomplete"%string = Some (bencode.Int (Incomplete resp))
  /\ (if Compact resp then
        bdict !! "peers"%string =
          match IPv4Peers resp with
          | [] => None
          | _ => (fun b => bencode.Str (string_of_list_byte b))
                   <$> compact4_all (IPv4Peers resp)
          end
        /\ bdict !! "peers6"%string =
          match IPv6Peers resp with
          | [] => None
          | _ => Some (bencode.Str
                         (string_of_list_byte (compact6_all (IPv6Peers resp))))
          end
      else
        bdict !! "peers"%string =
          Some (bencode.List (map (dict AddrValue) (IPv4Peers resp)
                              ++ map (dict AddrValue) (IPv6Peers resp)))
        /\ bdict !! "peers6"%string = None)
  end.
Proof.
  unfold announce_bdict.
  destruct (0 <? Interval resp);
    cbn [Compact Complete Incomplete Interval MinInterval IPv4Peers IPv6Peers];
    match goal with
    | |- context [if 0 <? ?x then _ else _] => destruct (0 <? x)
    end;
    cbn [Compact Complete Incomplete Interval MinInterval IPv4Peers IPv6Peers];
    (destruct (Compact resp);
     [destruct (compact4_all (IPv4Peers resp)) as [b4|] eqn:E4; [|exact I];
      pose proof (compact4_all_nonempty _ _ E4) as Hn4;
      pose proof (compact6_all_nonempty (IPv6Peers resp)) as Hn6;
      rewrite !length_pos_ltb;
      destruct (IPv4Peers resp) as [|p4 v4];
      [injection E4 as <-|destruct b4; [now destruct Hn4|]];
      (destruct (IPv6Peers resp) as [|p6 v6];
       [|destruct (compact6_all (p6 :: v6)); [now destruct Hn6|]]);
      repeat split; reflexivity
     |repeat split; reflexivity]).
Qed.

End announce_peers_facts.

(** ** The HTTP frontend: the entries of a scrape response *)

Section scrape_entry_facts.
Import golang bittorrent http.

Lemma filesDict_fold_other (l : list Scrape) (m : gmap string bencode.value)
    (ih : InfoHash) :
  ih ∉ scrape_InfoHash <$> l ->
  fold_left
    (fun (filesDict : gmap string bencode.value) (scrape : Scrape) =>
       <[ scrape_InfoHash scrape :=
            bencode.ofMap
              (<[ "complete"%string := bencode.Int (scrape_Complete scrape) ]>
               {[ "incomplete"%string := bencode.Int (scrape_Incomplete scrape) ]}) ]>
       filesDict) l m !! ih = m !! ih.
Proof.
  revert m. induction l as [|s l IH]; intros m Hn; [reflexivity|].
  simpl. rewrite fmap_cons, not_elem_of_cons in Hn. destruct Hn as [Hne Hn].
  rewrite IH by exact Hn. now apply lookup_insert_ne.
Qed.

(** The [files] dictionary has no entry for an infohash that the
    response does not list; for an infohash that it lists, the entry is
    written from the last scrape of that infohash, and it consists of
    [complete] and [incomplete] (the snatches are not written). *)
Theorem filesDict_last_scrape (resp : ScrapeResponse) :
  (forall ih : InfoHash,
      ih ∉ scrape_InfoHash <$> Files resp -> filesDict resp !! ih = None)
  /\ (forall (before after : list Scrape) (scrape : Scrape),
      Files resp = before ++ scrape :: after ->
      scrape_InfoHash scrape ∉ scrape_InfoHash <$> after ->
      filesDict resp !! scrape_InfoHash scrape =
        Some (bencode.Dict
                [("complete"%string, bencode.Int (scrape_Complete scrape));
                 ("incomplete"%string, bencode.Int (scrape_Incomplete scrape))])).
Proof.
  unfold filesDict. split.
  - intros ih Hn. now rewrite filesDict_fold_other.
  - intros before after scrape -> Hn.
    rewrite fold_left_app. simpl.
    rewrite filesDict_fold_other by exact Hn.
    rewrite lookup_insert_eq. reflexivity.
Qed.

End scrape_entry_facts.

(** ** Package [pg]: validation of a configuration *)

Section pg_validate_facts.
Import golang bittorrent strings pg.

(** [Validate] reports a blank connection string first, then the first
    required parameter that is blank after trimming, in the order of
    [required_parameters]; it succeeds exactly when none of them is
    blank.  Whenever it reports an error it returns the configuration
    it was given, unchanged. *)
Theorem Validate_reports_first_blank_parameter (cfg : Config) :
  snd (Validate cfg) =
    (if blank (ConnectionString cfg) then Some errConnectionStringNotProvided
     else match first_blank cfg with
          | Some (_, name) => Some (errRequiredParameterNotSet name)
          | None => None
          end)
  /\ (snd (Validate cfg) <> None -> fst (Validate cfg) = cfg).
Proof.
  unfold Validate, required, fn, first_blank, required_parameters, blank.
  destruct (String.length (TrimSpace (ConnectionString cfg)) =? 0)%nat;
    [split; reflexivity|].
  cbn [List.find fst].
  repeat match goal with
  | |- context [(String.length (TrimSpace ?x) =? 0)%nat] =>
      destruct (String.length (TrimSpace x) =? 0)%nat; [split; reflexivity|]
  end.
  split; [reflexivity|]. intros H. now contradiction H.
Qed.

(** A configuration that [Validate] accepts, with count columns and a
    port column of ASCII bytes.  It is returned with its connection
    string, its queries, its infohash clause, its address column and
    its port column trimmed, none of them blank; the two count columns
    are trimmed and upper-cased; the peer ID column is not kept: it
    receives the upper-case form of the trimmed port column; the
    address column and the port column are not upper-cased.  An empty
    ping query is replaced by the default one and any other is kept as
    it is; the GC query and the infohash count query are untouched. *)
Theorem Validate_accepted_config (cfg valid : Config) :
  Validate cfg = (valid, None) ->
  is_ascii (CountSeedersColumn (Peer cfg)) = true ->
  is_ascii (CountLeechersColumn (Peer cfg)) = true ->
  is_ascii (PortColumn (Announce cfg)) = true ->
  ConnectionString valid = TrimSpace (ConnectionString cfg)
  /\ PingQuery valid =
       (if (String.length (PingQuery cfg) =? 0)%nat
        then defaultPingQuery else PingQuery cfg)
  /\ Peer_AddQuery (Peer valid) = TrimSpace (Peer_AddQuery (Peer cfg))
  /\ Peer_DelQuery (Peer valid) = TrimSpace (Peer_DelQuery (Peer cfg))
  /\ GraduateQuery (Peer valid) = TrimSpace (GraduateQuery (Peer cfg))
  /\ CountQuery (Peer valid) = TrimSpace (CountQuery (Peer cfg))
  /\ CountSeedersColumn (Peer valid)
       = ToUpper (TrimSpace (CountSeedersColumn (Peer cfg)))
  /\ CountLeechersColumn (Peer valid)
       = ToUpper (TrimSpace (CountLeechersColumn (Peer cfg)))
  /\ ByInfoHashClause (Peer valid) = TrimSpace (ByInfoHashClause (Peer cfg))
  /\ Announce_Query (Announce valid) = TrimSpace (Announce_Query (Announce cfg))
  /\ PeerIDColumn (Announce valid)
       = ToUpper (TrimSpace (PortColumn (Announce cfg)))
  /\ AddressColumn (Announce valid) = TrimSpace (AddressColumn (Announce cfg))
  /\ PortColumn (Announce valid) = TrimSpace (PortColumn (Announce cfg))
  /\ Data_AddQuery (Data valid) = TrimSpace (Data_AddQuery (Data cfg))
  /\ Data_GetQuery (Data valid) = TrimSpace (Data_GetQuery (Data cfg))
  /\ Data_DelQuery (Data valid) = TrimSpace (Data_DelQuery (Data cfg))
  /\ GCQuery valid = GCQuery cfg
  /\ InfoHashCountQuery valid = InfoHashCountQuery cfg
  /\ blank (ConnectionString cfg) = false
  /\ Forall (fun p => blank (fst p) = false) (required_parameters cfg).
Proof.
  intros H _ _ _. revert H.
  unfold Validate, required, fn, required_parameters, blank.
  destruct (String.length (TrimSpace (ConnectionString cfg)) =? 0)%nat;
    [discriminate|].
  repeat match goal with
  | |- context [(String.length (TrimSpace ?x) =? 0)%nat] =>
      destruct (String.length (TrimSpace x) =? 0)%nat eqn:?; [discriminate|]
  end.
  intros [= <-]. cbn.
  repeat split; try reflexivity.
  repeat constructor; assumption.
Qed.

End pg_validate_facts.

(** ** Package [pg]: the peers and the errors of an announce *)

Section pg_peers_facts.
Import golang bittorrent strings pg.

Variable Row : Type.
Variable Query : string -> list arg -> QueryResult Row.
Variable Scan : Row -> list (option var) -> ScanResult.

Lemma scan_peer_well_formed (row : Row) (into : list (option var))
    (p : bittorrent.Peer) (r : ScanResult) :
  scan_peer Row Scan row into = (p, None, r) -> stored_peer_well_formed p.
Proof.
  unfold scan_peer. destruct (scan_err (Scan row into)); [discriminate|].
  destruct (Nat.eq_dec (length (bytes_var (Scan row into) VarID)) PeerIDLen)
    as [Hid|Hid].
  - rewrite (proj1 (NewPeerID_cases _) Hid).
    unfold netip.AddrFromSlice.
    destruct (Nat.eqb_spec (length (bytes_var (Scan row into) VarIP)) 4) as [H4|N4];
      [|destruct (Nat.eqb_spec (length (bytes_var (Scan row into) VarIP)) 16)
          as [H16|N16]; [|discriminate]];
      intros [= <- <-]; (split; [exact Hid|]); (split; [assumption|]);
      unfold is_uint16, bittorrent.Port, wrap_uint16; simpl;
      apply Z.mod_pos_bound; lia.
  - rewrite (proj2 (NewPeerID_cases _) Hid). discriminate.
Qed.

(** [getPeers] never panics, returns at most [maxCount] peers, and
    every peer it returns is well-formed: rows whose peer ID is not of
    20 bytes or whose address is not of 4 or 16 bytes are left out, and
    the port is reduced to 16 bits. *)
Theorem getPeers_returns_well_formed_peers (s : Config) (ih : InfoHash)
    (seeders : bool) (maxCount : Z) (v6 : bool) :
  exists peers err,
    getPeers Row Query Scan s ih seeders maxCount v6 = Some (peers, err)
    /\ Z.of_nat (length peers) <= Z.max 0 maxCount
    /\ Forall stored_peer_well_formed peers.
Proof.
  destruct (getPeers_spec Row Query Scan s ih seeders maxCount v6)
    as (peers & err & Hg & Hall & Hlen).
  exists peers, err. repeat split; [exact Hg|exact Hlen|].
  eapply Forall_impl; [exact Hall|].
  intros p (? & ? & ? & row & into & r & _ & _ & Hp).
  exact (scan_peer_well_formed _ _ _ _ Hp).
Qed.


Lemma toUpper_not_lower (c : ascii) :
  ((97 <=? N_of_ascii (toUpper c)) && (N_of_ascii (toUpper c) <=? 122))%N
  = false.
Proof.
  destruct c as [[] [] [] [] [] [] [] []]; reflexivity.
Qed.

Lemma ToUpper_has_lower (t : string) : has_lower (ToUpper t) = false.
Proof.
  induction t as [|c t IH]; simpl; [reflexivity|].
  now rewrite toUpper_not_lower, IH.
Qed.

Lemma eqb_ToUpper_lower (field column : string) :
  has_lower column = true -> String.eqb (ToUpper field) column = false.
Proof.
  intros H. apply String.eqb_neq. intros E.
  rewrite <- E, ToUpper_has_lower in H. discriminate.
Qed.

(** A configured column whose name contains a lower-case letter is
    never found among the fields. *)
Lemma peer_columns_lower (s : Config) (fields : list string) (i : Z)
    (idx : Z * Z * Z) :
  (has_lower (PeerIDColumn (Announce s)) = true ->
   fst (fst (peer_columns s fields i idx)) = fst (fst idx))
  /\ (has_lower (AddressColumn (Announce s)) = true ->
      snd (fst (peer_columns s fields i idx)) = snd (fst idx))
  /\ (has_lower (PortColumn (Announce s)) = true ->
      snd (peer_columns s fields i idx) = snd idx).
Proof.
  revert i idx. induction fields as [|field rest IH]; intros i [[a b] c];
    [repeat split; reflexivity|].
  cbn [peer_columns].
  match goal with
  | |- context [peer_columns s rest (i + 1) ?x] =>
      destruct (IH (i + 1) x) as (H1 & H2 & H3)
  end.
  repeat split; intros H; [rewrite (H1 H)|rewrite (H2 H)|rewrite (H3 H)];
    rewrite ?(eqb_ToUpper_lower field _ H);
    repeat match goal with
    | |- context [String.eqb ?x ?y] => destruct (String.eqb x y)
    end; reflexivity.
Qed.

(** The field names of a result set are compared in upper case with
    the configured column names as they are.  When a configured column
    name contains a lower-case letter, no field matches it: [getPeers]
    returns no peers and an error, whatever the database answers, and
    so does [AnnouncePeers]. *)
Theorem getPeers_lower_case_column_never_found (s : Config) :
  has_lower (PeerIDColumn (Announce s))
  || has_lower (AddressColumn (Announce s))
  || has_lower (PortColumn (Announce s)) = true ->
  forall (ih : InfoHash) (flag : bool) (n : Z) (v6 : bool),
    (exists err,
        getPeers Row Query Scan s ih flag n v6 = Some ([], Some err))
    /\ (exists err,
        AnnouncePeers Row Query Scan s ih flag n v6 = Some ([], Some err)).
Proof.
  intros Hl.
  assert (Hg : forall ih flag n v6, exists err,
    getPeers Row Query Scan s ih flag n v6 = Some ([], Some err)).
  { intros ih flag n v6. unfold getPeers.
    destruct (Query _ _) as [e|fields rows]; [eauto|].
    destruct (peer_columns_lower s fields 0 (-1, -1, -1)) as (H1 & H2 & H3).
    destruct (peer_columns s fields 0 (-1, -1, -1)) as [[a b] c].
    simpl in H1, H2, H3.
    destruct (has_lower (PeerIDColumn (Announce s))).
    { rewrite (H1 eq_refl). simpl. eauto. }
    destruct (has_lower (AddressColumn (Announce s))).
    { rewrite (H2 eq_refl). simpl. rewrite orb_true_r. simpl. eauto. }
    simpl in Hl. rewrite (H3 Hl). simpl. rewrite !orb_true_r. eauto. }
  intros ih flag n v6. split; [apply Hg|].
  unfold AnnouncePeers. destruct flag.
  - destruct (Hg ih false n v6) as [e ->]. simpl. eauto.
  - destruct (Hg ih true n v6) as [e ->]. simpl. eauto.
Qed.

End pg_peers_facts.

(** ** Package [pg]: finding the columns of a result set *)

Section pg_columns_facts.
Import golang bittorrent strings pg.

Variable Row : Type.
Variable Query : string -> list arg -> QueryResult Row.
Variable Scan : Row -> list (option var) -> ScanResult.

Lemma ToUpper_without_lower (t : string) :
  has_lower t = false -> ToUpper t = t.
Proof.
  induction t as [|c t IH]; simpl; [reflexivity|].
  intros H. apply orb_false_iff in H. destruct H as [Hc Ht].
  unfold toUpper. rewrite Hc, (IH Ht). reflexivity.
Qed.

(** When the peer ID column and the port column have the same name,
    every field of that name is taken for the peer ID and the port
    column is never found. *)
Lemma peer_columns_same_name (s : Config) (fields : list string) (i : Z)
    (idx : Z * Z * Z) :
  PeerIDColumn (Announce s) = PortColumn (Announce s) ->
  snd (peer_columns s fields i idx) = snd idx.
Proof.
  intros E. revert i idx.
  induction fields as [|field rest IH]; intros i [[a b] c]; [reflexivity|].
  cbn [peer_columns]. rewrite IH, <- E.
  destruct (String.eqb (ToUpper field) (PeerIDColumn (Announce s)));
    [reflexivity|].
  destruct (String.eqb (ToUpper field) (AddressColumn (Announce s)));
    reflexivity.
Qed.

Lemma getPeers_without_port_column (s : Config) :
  (forall fields i idx, snd (peer_columns s fields i idx) = snd idx) ->
  forall (ih : InfoHash) (flag : bool) (n : Z) (v6 : bool),
    (exists err,
        getPeers Row Query Scan s ih flag n v6 = Some ([], Some err))
    /\ (exists err,
        AnnouncePeers Row Query Scan s ih flag n v6 = Some ([], Some err)).
Proof.
  intros Hp.
  assert (Hg : forall ih flag n v6, exists err,
    getPeers Row Query Scan s ih flag n v6 = Some ([], Some err)).
  { intros ih flag n v6. unfold getPeers.
    destruct (Query _ _) as [e|fields rows]; [eauto|].
    pose proof (Hp fields 0 (-1, -1, -1)) as H3.
    destruct (peer_columns s fields 0 (-1, -1, -1)) as [[a b] c].
    simpl in H3. subst c. simpl. rewrite !orb_true_r. eauto. }
  intros ih flag n v6. split; [apply Hg|].
  unfold AnnouncePeers. destruct flag.
  - destruct (Hg ih false n v6) as [e ->]. simpl. eauto.
  - destruct (Hg ih true n v6) as [e ->]. simpl. eauto.
Qed.

(** A store with a configuration that [Validate] returned hands out no
    peers.  [Validate] gives the peer ID column the upper-case form of
    the port column.  A port column with a lower-case letter matches no
    upper-cased field name; a port column without one has the name
    that the peer ID column now has, and every field of that name is
    taken for the peer ID.  Either way the port column is not found:
    for a port column of ASCII bytes, [getPeers] returns no peers and
    an error, whatever the database answers, and so does
    [AnnouncePeers]. *)
Theorem getPeers_after_Validate_returns_no_peers (cfg valid : Config) :
  Validate cfg = (valid, None) ->
  is_ascii (PortColumn (Announce cfg)) = true ->
  forall (ih : InfoHash) (flag : bool) (n : Z) (v6 : bool),
    (exists err,
        getPeers Row Query Scan valid ih flag n v6 = Some ([], Some err))
    /\ (exists err,
        AnnouncePeers Row Query Scan valid ih flag n v6 = Some ([], Some err)).
Proof.
  intros Hv _.
  destruct (Validate_announce_columns cfg valid Hv) as (Hid & _ & Hport).
  apply getPeers_without_port_column. intros fields i idx.
  destruct (has_lower (PortColumn (Announce valid))) eqn:Hl.
  - apply (peer_columns_lower valid fields i idx). exact Hl.
  - apply peer_columns_same_name.
    rewrite Hid, <- Hport. now apply ToUpper_without_lower.
Qed.

End pg_columns_facts.

(** ** Package [pg]: writing a peer and reading it back *)

Section pg_write_facts.
Import golang bittorrent strings pg.

Variable Row : Type.
Variable Scan : Row -> list (option var) -> ScanResult.

Lemma AddrFromSlice_AsSlice (a : netip.Addr) :
  addr_well_formed a -> netip.Is4In6 a = false ->
  netip.AddrFromSlice (netip.AsSlice a) = (netip.WithZone a EmptyString, true)
  /\ netip.Is6 a = (length (netip.AsSlice a) =? 16)%nat.
Proof.
  destruct a as [|l|l z]; simpl; [contradiction| |]; intros Hl _;
    unfold netip.AddrFromSlice; rewrite Hl; simpl; split; reflexivity.
Qed.

(** What [putPeer] writes is what [getPeers] reads: from a row that
    holds the peer ID, the address and the port that [putPeer] passed
    for a peer, one iteration of [getPeers] builds that peer, with its
    address unmapped and without zone.  The IPv6 flag that [putPeer]
    passes tells whether 16 address bytes were written, an IPv4-mapped
    address being written as the 4 bytes of an IPv4 address.  [delPeer]
    passes the first five arguments of [putPeer]; the time of the
    write is added as a seventh argument exactly when a GC query is
    configured. *)
Theorem putPeer_written_peer_read_back (s : Config) (now : Z) (ih : InfoHash)
    (peer : bittorrent.Peer) (seeder : bool)
    (row : Row) (into : list (option var)) :
  length (ID peer) = PeerIDLen ->
  addr_well_formed (netip.ip (AddrPort peer)) ->
  is_uint16 (bittorrent.Port peer) ->
  scan_err (Scan row into) = None ->
  holds_written (putPeer_args s now ih peer seeder) (Scan row into) ->
  scan_peer Row Scan row into
    = (mkPeer (ID peer)
         (netip.AddrPortFrom
            (netip.WithZone (bittorrent.Addr peer) EmptyString)
            (bittorrent.Port peer)),
       None, Scan row into)
  /\ nth_error (putPeer_args s now ih peer seeder) 5
     = Some (ExecBool (length (bytes_var (Scan row into) VarIP) =? 16)%nat)
  /\ delPeer_args ih peer seeder = firstn 5 (putPeer_args s now ih peer seeder)
  /\ length (putPeer_args s now ih peer seeder)
     = (if (String.length (GCQuery s) =? 0)%nat then 6%nat else 7%nat).
Proof.
  intros Hid Hwf Hport Herr (ihb & flags & Hargs).
  destruct (Addr_well_formed peer Hwf) as [Hwf' Hm].
  destruct (AddrFromSlice_AsSlice _ Hwf' Hm) as [Hfrom H6].
  assert (Hcols : bytes_var (Scan row into) VarID = ID peer
                  /\ bytes_var (Scan row into) VarIP
                     = netip.AsSlice (bittorrent.Addr peer)
                  /\ int_var (Scan row into) VarPort = bittorrent.Port peer).
  { unfold putPeer_args in Hargs.
    destruct (GCAware s); simpl in Hargs; injection Hargs; auto. }
  destruct Hcols as (Hc1 & Hc2 & Hc3).
  split; [|split; [|split]].
  - unfold scan_peer. rewrite Herr, Hc1, Hc2, Hc3.
    rewrite (proj1 (NewPeerID_cases _) Hid), Hfrom.
    unfold wrap_uint16. unfold is_uint16 in Hport.
    now rewrite Z.mod_small by exact Hport.
  - rewrite Hc2, <- H6. unfold putPeer_args. now destruct (GCAware s).
  - unfold putPeer_args, delPeer_args. now destruct (GCAware s).
  - unfold putPeer_args, GCAware.
    now destruct (String.length (GCQuery s)).
Qed.

End pg_write_facts.

Section pg_write_witnesses.
Import golang bittorrent strings pg.

(** The seeder of [demo_table], written from the IPv4-mapped address
    ::ffff:10.0.0.1, is read back as the IPv4 peer [peer_S1]. *)
Lemma putPeer_written_peer_read_back_witness :
  scan_peer DemoRow demo_Scan
    [CellBytes id_S1; CellBytes [x0a; x00; x00; x01]; CellInt 6881]
    [Some VarID; Some VarIP; Some VarPort]
  = (peer_S1, None,
     demo_Scan [CellBytes id_S1; CellBytes [x0a; x00; x00; x01]; CellInt 6881]
       [Some VarID; Some VarIP; Some VarPort])
  /\ nth_error (putPeer_args demo_cfg 0 ih_A peer_S1_mapped true) 5
     = Some (ExecBool false).
Proof.
  pose proof (putPeer_written_peer_read_back DemoRow demo_Scan demo_cfg 0 ih_A
                peer_S1_mapped true
                [CellBytes id_S1; CellBytes [x0a; x00; x00; x01]; CellInt 6881]
                [Some VarID; Some VarIP; Some VarPort]) as H.
  destruct H as (H1 & H2 & _).
  - reflexivity.
  - reflexivity.
  - unfold is_uint16, bittorrent.Port. simpl. lia.
  - reflexivity.
  - eexists _, _. reflexivity.
  - split; [exact H1 | exact H2].
Defined.

End pg_write_witnesses.

(** ** Package [list]: building the container *)

Section approval_list_facts.
Import golang approval_list.

Variable Storage : Type.
Variable BulkPut : Storage -> string -> list (bittorrent.InfoHash * bool) -> Storage.
Variable Contains : Storage -> string -> bittorrent.InfoHash -> bool.
Variable Unmarshal : list byte -> Config * option error.
Variable DefaultStorageCtxName : string.

Lemma read_hashes_spec (hashList : list string)
    (init : list (bittorrent.InfoHash * bool)) :
  match read_hashes hashList init with
  | (pairs, None) =>
      exists hashes,
        pairs = init ++ map (fun ih => (ih, true)) hashes
        /\ Forall2 (fun s ih => readable_hash s = Some ih) hashList hashes
  | (_, Some _) => Exists (fun s => readable_hash s = None) hashList
  end.
Proof.
  revert init. induction hashList as [|s rest IH]; intros init.
  - simpl. exists []. rewrite app_nil_r. split; [reflexivity|constructor].
  - cbn [read_hashes].
    assert (Hr : readable_hash s =
      match hex.DecodeString s with
      | (_, Some _) => None
      | (b, None) =>
          match bittorrent.NewInfoHash (bittorrent.DataBytes b) with
          | (_, Some _) => None
          | (ih, None) => Some ih
          end
      end) by reflexivity.
    destruct (hex.DecodeString s) as [b [e|]]; [now apply Exists_cons_hd|].
    destruct (bittorrent.NewInfoHash (bittorrent.DataBytes b)) as [ih [e|]];
      [now apply Exists_cons_hd|].
    specialize (IH (init ++ [(ih, DUMMY)])).
    destruct (read_hashes rest (init ++ [(ih, DUMMY)])) as [pairs [e|]].
    + now apply Exists_cons_tl.
    + destruct IH as (hashes & -> & Hall). exists (ih :: hashes).
      rewrite <- app_assoc. split; [reflexivity|]. now constructor.
Qed.

(** [build] stores the hashes of the list all at once or not at all:
    when every string of the list is the base16 form of 20 or 32 bytes,
    all the infohashes are put into the storage in one call, in the
    order of the list, under the configured context (the default one
    when none is configured); when one string is not, [build] fails and
    leaves the storage as it was.  A configuration that cannot be
    decoded leaves the storage as it was, too. *)
Theorem build_stores_all_hashes_or_none (confBytes : list byte) (st : Storage) :
  match build Storage BulkPut Unmarshal DefaultStorageCtxName confBytes st with
  | (Some l, None, st') =>
      exists c hashes,
        Unmarshal confBytes = (c, None)
        /\ Forall2 (fun s ih => readable_hash s = Some ih) (HashList c) hashes
        /\ list_Invert l = Invert c
        /\ list_StorageCtx l =
             (if (String.length (StorageCtx c) =? 0)%nat
              then DefaultStorageCtxName else StorageCtx c)
        /\ st' = (if (0 <? length hashes)%nat
                  then BulkPut st (list_StorageCtx l)
                         (map (fun ih => (ih, true)) hashes)
                  else st)
  | (None, Some _, st') =>
      st' = st
      /\ (snd (Unmarshal confBytes) = None ->
          Exists (fun s => readable_hash s = None)
            (HashList (fst (Unmarshal confBytes))))
  | _ => False
  end.
Proof.
  unfold build. destruct (Unmarshal confBytes) as [c [e|]].
  { split; [reflexivity|discriminate]. }
  destruct (0 <? length (HashList c))%nat eqn:El.
  - pose proof (read_hashes_spec (HashList c) []) as H.
    destruct (read_hashes (HashList c) []) as [pairs [e|]].
    + split; [reflexivity|]. intros _. exact H.
    + destruct H as (hashes & -> & Hall). exists c, hashes.
      assert (Hlen : length hashes = length (HashList c))
        by (symmetry; eapply Forall2_length; exact Hall).
      rewrite Hlen, El.
      destruct (String.length (StorageCtx c) =? 0)%nat eqn:Ec; simpl;
        rewrite ?Ec; repeat split; auto.
  - destruct (HashList c) as [|s rest] eqn:Eh; [|discriminate].
    exists c, []. rewrite Eh.
    destruct (String.length (StorageCtx c) =? 0)%nat eqn:Ec; simpl;
      rewrite ?Ec; repeat split; auto; constructor.
Qed.


Lemma existsb_put_keys (hashes : list bittorrent.InfoHash)
    (k : bittorrent.InfoHash) :
  existsb (fun p : bittorrent.InfoHash * bool => String.eqb (fst p) k)
    (map (fun ih => (ih, true)) hashes)
  = existsb (fun ih => String.eqb ih k) hashes.
Proof. induction hashes as [|h hs IH]; simpl; [reflexivity|]. now rewrite IH. Qed.

(** On a storage that keeps sets of keys, a container built into an
    empty storage approves exactly the infohashes of its list, and
    exactly the other infohashes when it is inverted. *)
Theorem Approved_after_build (confBytes : list byte) (st st' : Storage)
    (l : List) :
  storage_keeps_keys Storage BulkPut Contains ->
  (forall ctx k, Contains st ctx k = false) ->
  build Storage BulkPut Unmarshal DefaultStorageCtxName confBytes st
    = (Some l, None, st') ->
  exists hashes,
    Forall2 (fun s ih => readable_hash s = Some ih)
      (HashList (fst (Unmarshal confBytes))) hashes
    /\ forall hash : bittorrent.InfoHash,
         Approved Storage Contains l st' hash
         = xorb (existsb (fun ih => String.eqb ih hash) hashes) (list_Invert l).
Proof.
  intros Hput Hempty Hb.
  assert (Hx : forall b i : bool, negb (Bool.eqb b i) = xorb b i)
    by (intros [] []; reflexivity).
  unfold build in Hb. destruct (Unmarshal confBytes) as [c [e|]];
    [discriminate|].
  destruct (0 <? length (HashList c))%nat eqn:El.
  - pose proof (read_hashes_spec (HashList c) []) as H.
    destruct (read_hashes (HashList c) []) as [pairs [e|]]; [discriminate|].
    destruct H as (hashes & -> & Hall). injection Hb as <- <-.
    exists hashes. split; [exact Hall|]. intros hash. unfold Approved.
    rewrite Hput, Hempty, orb_false_r. simpl. rewrite existsb_put_keys.
    apply Hx.
  - injection Hb as <- <-. destruct (HashList c) as [|s rest] eqn:Eh.
    + exists []. simpl. rewrite Eh. split; [constructor|]. intros hash.
      unfold Approved. rewrite Hempty. apply Hx.
    + simpl in El. discriminate El.
Qed.

End approval_list_facts.

(** ** Package [main]: stopping a running instance *)

Section main_facts.
Import golang main.

Variable Storage : Type.

Lemma length_eqb_0 {A : Type} (l : list A) :
  (length l =? 0)%nat = true <-> l = [].
Proof. destruct l; simpl; split; congruence. Qed.

Ltac stop_cases :=
  repeat split; intros;
  repeat match goal with
  | H : _ /\ _ |- _ => destruct H
  | H : _ \/ _ |- _ => destruct H
  | H : In _ _ |- _ => simpl in H
  | H : False |- _ => contradiction H
  end;
  try discriminate; try congruence; simpl; auto.

(** [Stop] stops the frontends, then the logic, then the peer store,
    and goes no further than the first of them that reports errors:
    it then returns an error and no store, and leaves the instance as
    it was.  The peer store is stopped exactly when it is not to be
    kept and the frontends and the logic stopped without an error;
    stopping a store that the instance does not hold panics.  Without
    errors, [Stop] returns the store it kept and leaves the instance
    holding it, or returns no store and leaves the instance holding
    none. *)
Theorem Stop_stops_in_order (sgErrs logicErrs storageErrs : list error)
    (r : Run Storage) (keepPeerStore : bool) :
  match Stop Storage sgErrs logicErrs storageErrs r keepPeerStore with
  | None =>
      sgErrs = [] /\ logicErrs = [] /\ keepPeerStore = false
      /\ storage Storage r = None
  | Some (r', calls, (st, err)) =>
      (exists rest, calls ++ rest = [StopFrontends; StopLogic; StopStorage])
      /\ (In StopStorage calls <->
          sgErrs = [] /\ logicErrs = [] /\ keepPeerStore = false)
      /\ (err = None <->
          sgErrs = [] /\ logicErrs = []
          /\ (keepPeerStore = true \/ storageErrs = []))
      /\ (err <> None -> st = None /\ r' = r)
      /\ (err = None ->
          if keepPeerStore
          then st = storage Storage r /\ r' = r
          else st = None /\ storage Storage r' = None)
  end.
Proof.
  unfold Stop.
  destruct sgErrs as [|e1 l1]; simpl;
    [|split; [now exists [StopLogic; StopStorage]|stop_cases]].
  destruct logicErrs as [|e2 l2]; simpl;
    [|split; [now exists [StopStorage]|stop_cases]].
  destruct keepPeerStore; simpl;
    [split; [now exists [StopStorage]|stop_cases]|].
  destruct (storage Storage r) as [s|] eqn:Es; [|auto].
  destruct storageErrs as [|e3 l3]; simpl;
    (split; [now exists []|stop_cases]).
Qed.

End main_facts.

(** ** Package [varinterval]: building the hook *)

Section varinterval_config_facts.
Import golang varinterval.

(** [NewHook] returns a hook, with the configuration as given, exactly
    for a probability [p] with [0 < p <= 1] and a positive
    [MaxIncreaseDelta]; it reports an invalid probability before an
    invalid delta. *)
Theorem NewHook_accepts_valid_config (cfg : Config) :
  ((0 < ModifyResponseProbability cfg)%Q /\ (ModifyResponseProbability cfg <= 1)%Q
   /\ 0 < MaxIncreaseDelta cfg ->
   NewHook cfg = (Some cfg, None))
  /\ (~ ((0 < ModifyResponseProbability cfg)%Q
         /\ (ModifyResponseProbability cfg <= 1)%Q) ->
      NewHook cfg = (None, Some ErrInvalidModifyResponseProbability))
  /\ ((0 < ModifyResponseProbability cfg)%Q
      /\ (ModifyResponseProbability cfg <= 1)%Q
      /\ MaxIncreaseDelta cfg <= 0 ->
      NewHook cfg = (None, Some ErrInvalidMaxIncreaseDelta)).
Proof.
  unfold NewHook, checkConfig, Qltb.
  destruct (Qle_bool (ModifyResponseProbability cfg) (0 # 1)) eqn:E0;
  destruct (Qle_bool (ModifyResponseProbability cfg) (1 # 1)) eqn:E1; simpl.
  all: try (apply Qle_bool_iff in E0).
  all: try (apply Qle_bool_iff in E1).
  all: try (assert (N0 : ~ (ModifyResponseProbability cfg <= 0)%Q)
              by (intros H; apply Qle_bool_iff in H; congruence)).
  all: try (assert (N1 : ~ (ModifyResponseProbability cfg <= 1)%Q)
              by (intros H; apply Qle_bool_iff in H; congruence)).
  - repeat split; try reflexivity; intros (H & _);
      exfalso; apply (Qlt_not_le _ _ H); exact E0.
  - repeat split; try reflexivity; intros (H & _);
      exfalso; apply (Qlt_not_le _ _ H); exact E0.
  - assert (P0 : (0 < ModifyResponseProbability cfg)%Q)
      by (apply Qnot_le_lt; exact N0).
    destruct (Z.leb_spec (MaxIncreaseDelta cfg) 0); repeat split;
      try reflexivity; try (intros (_ & _ & H'); lia).
    + intros Hn. exfalso. apply Hn. now split.
    + intros Hn. exfalso. apply Hn. now split.
  - repeat split; try reflexivity; intros (_ & H & _); contradiction.
Qed.

End varinterval_config_facts.

(** ** The properties above on concrete inputs *)

Section identifier_witnesses.
Import golang bittorrent.

(** The ID of the peer 10.11.12.13:6881 is read back from its raw form
    and from its base16 form. *)
Lemma PeerID_RawString_String_roundtrip_witness :
  String.length (PeerID_RawString (ID peer_10_11_12_13)) = 20%nat
  /\ NewPeerID (list_byte_of_string (PeerID_RawString (ID peer_10_11_12_13)))
     = (ID peer_10_11_12_13, None)
  /\ String.length (PeerID_String (ID peer_10_11_12_13)) = 40%nat
  /\ hex.DecodeString (PeerID_String (ID peer_10_11_12_13))
     = (ID peer_10_11_12_13, None).
Proof.
  apply (PeerID_RawString_String_roundtrip (ID peer_10_11_12_13)).
  reflexivity.
Defined.

(** The 32-byte infohash [ih_v2] is read back from its three forms. *)
Lemma NewInfoHash_roundtrip_witness :
  NewInfoHash (DataString (InfoHash_String ih_v2)) = (ih_v2, None)
  /\ NewInfoHash (DataString (InfoHash_RawString ih_v2)) = (ih_v2, None)
  /\ NewInfoHash (DataBytes (list_byte_of_string ih_v2)) = (ih_v2, None).
Proof.
  apply (NewInfoHash_roundtrip ih_v2).
  right. reflexivity.
Defined.

(** The 32-byte infohash [ih_v2] is truncated to its first 20 bytes. *)
Lemma TruncateV1_is_v1_prefix_witness :
  String.length (TruncateV1 ih_v2) = InfoHashV1Len
  /\ String.prefix (TruncateV1 ih_v2) ih_v2 = true
  /\ (String.length ih_v2 = InfoHashV1Len -> TruncateV1 ih_v2 = ih_v2)
  /\ TruncateV1 (TruncateV1 ih_v2) = TruncateV1 ih_v2.
Proof.
  apply (TruncateV1_is_v1_prefix ih_v2).
  right. reflexivity.
Defined.

End identifier_witnesses.

Section compact_witnesses.
Import golang bittorrent http.

(** The peer 2001:db8::1, port 51413, in the compact IPv6 form. *)
Lemma compact6_roundtrip_witness :
  length (compact6 peer_2001_db8_1) = 18%nat
  /\ netip.Unmap (fst (netip.AddrFromSlice (firstn 16 (compact6 peer_2001_db8_1))))
     = netip.WithZone (Addr peer_2001_db8_1) EmptyString
  /\ Uint16 (skipn 16 (compact6 peer_2001_db8_1)) = Port peer_2001_db8_1.
Proof.
  apply (compact6_roundtrip peer_2001_db8_1).
  - reflexivity.
  - unfold is_uint16, Port. simpl. lia.
Defined.

End compact_witnesses.

Section pg_witnesses.
Import golang bittorrent strings pg.

(** [Validate] accepts the configuration with lower-case column names:
    it fills in the default ping query, upper-cases the two count
    columns and puts the upper-cased port column in the place of the
    peer ID column. *)
Lemma Validate_accepted_config_witness :
  snd (Validate cfg_lower_case_columns) = None
  /\ PingQuery (fst (Validate cfg_lower_case_columns)) = defaultPingQuery
  /\ CountSeedersColumn (Peer (fst (Validate cfg_lower_case_columns)))
     = ToUpper (TrimSpace (CountSeedersColumn (Peer cfg_lower_case_columns)))
  /\ CountLeechersColumn (Peer (fst (Validate cfg_lower_case_columns)))
     = ToUpper (TrimSpace (CountLeechersColumn (Peer cfg_lower_case_columns)))
  /\ PeerIDColumn (Announce (fst (Validate cfg_lower_case_columns)))
     = ToUpper (TrimSpace (PortColumn (Announce cfg_lower_case_columns))).
Proof.
  assert (Hv : Validate cfg_lower_case_columns
               = (fst (Validate cfg_lower_case_columns), None))
    by reflexivity.
  pose proof (Validate_accepted_config cfg_lower_case_columns
                (fst (Validate cfg_lower_case_columns)) Hv
                eq_refl eq_refl eq_refl) as H.
  destruct H as (_ & Hping & _ & _ & _ & _ & Hs & Hl & _ & _ & Hid & _).
  split; [reflexivity|]. split; [exact Hping|]. split; [exact Hs|].
  split; [exact Hl | exact Hid].
Defined.

(** With the accepted configuration of lower-case column names, the
    seeder of the swarm [ih_A] is not handed out: [getPeers] and
    [AnnouncePeers] return an error. *)
Lemma getPeers_lower_case_column_never_found_witness :
  (exists err,
      getPeers DemoRow (demo_Query demo_table) demo_Scan
        (fst (Validate cfg_lower_case_columns)) ih_A true 50 false
      = Some ([], Some err))
  /\ (exists err,
      AnnouncePeers DemoRow (demo_Query demo_table) demo_Scan
        (fst (Validate cfg_lower_case_columns)) ih_A false 50 false
      = Some ([], Some err)).
Proof.
  split.
  - apply (getPeers_lower_case_column_never_found DemoRow
             (demo_Query demo_table) demo_Scan
             (fst (Validate cfg_lower_case_columns))); reflexivity.
  - apply (getPeers_lower_case_column_never_found DemoRow
             (demo_Query demo_table) demo_Scan
             (fst (Validate cfg_lower_case_columns))); reflexivity.
Defined.

(** The store with the configuration that [Validate] returns for
    [demo_cfg], whose column names are in upper case, hands out neither
    the seeder nor the leecher of the swarm [ih_A]. *)
Lemma getPeers_after_Validate_returns_no_peers_witness :
  (exists err,
      getPeers DemoRow (demo_Query demo_table) demo_Scan
        (fst (Validate demo_cfg)) ih_A true 50 false
      = Some ([], Some err))
  /\ (exists err,
      AnnouncePeers DemoRow (demo_Query demo_table) demo_Scan
        (fst (Validate demo_cfg)) ih_A true 50 false
      = Some ([], Some err)).
Proof.
  apply (getPeers_after_Validate_returns_no_peers DemoRow
           (demo_Query demo_table) demo_Scan demo_cfg
           (fst (Validate demo_cfg))); reflexivity.
Defined.

(** On the swarm [ih_A] with two seeders and one leecher, the store
    with the configuration that [Validate] returns for [demo_cfg]
    answers a scrape with two leechers and one seeder. *)
Lemma ScrapeSwarm_counts_crosswise_witness :
  (exists (into : list (option var)) (si li : nat) (fs fl : string),
      ["seeders"; "leechers"]%string !! si = Some fs
      /\ ToUpper fs = CountSeedersColumn (Peer (fst (Validate demo_cfg)))
      /\ ["seeders"; "leechers"]%string !! li = Some fl
      /\ ToUpper fl = CountLeechersColumn (Peer (fst (Validate demo_cfg)))
      /\ into !! si = Some (Some VarSeeders)
      /\ into !! li = Some (Some VarLeechers)
      /\ ScrapeSwarm DemoRow (demo_Query demo_table_two_seeders) demo_Scan
           (fst (Validate demo_cfg)) ih_A
         = Some (wrap_uint32
                   (int_var (demo_Scan [CellInt 2; CellInt 1] into) VarSeeders),
                 wrap_uint32
                   (int_var (demo_Scan [CellInt 2; CellInt 1] into) VarLeechers),
                 0))
  /\ ScrapeSwarm DemoRow (demo_Query demo_table_two_seeders) demo_Scan
       (fst (Validate demo_cfg)) ih_A
     = Some (2, 1, 0).
Proof.
  split; [|vm_compute; reflexivity].
  apply (ScrapeSwarm_counts_crosswise DemoRow
           (demo_Query demo_table_two_seeders) demo_Scan
           (fst (Validate demo_cfg)) ih_A
           ["seeders"; "leechers"]%string [CellInt 2; CellInt 1] []).
  - reflexivity.
  - repeat constructor.
  - exists "seeders"%string. split; [simpl; auto | reflexivity].
  - exists "leechers"%string. split; [simpl; auto | reflexivity].
  - discriminate.
Defined.

End pg_witnesses.

Section approval_list_witnesses.
Import golang approval_list.

Lemma list_storage_keeps_keys :
  storage_keeps_keys KeyStore list_BulkPut list_Contains.
Proof.
  intros st ctx pairs k. unfold list_Contains, list_BulkPut.
  rewrite existsb_app. f_equal.
  induction pairs as [|p ps IH]; simpl; [reflexivity|].
  now rewrite IH, String.eqb_refl.
Qed.

(** The approval list of the one hash [ih_A], built on an empty
    storage, approves [ih_A] and nothing else. *)
Lemma Approved_after_build_witness :
  exists hashes,
    Forall2 (fun s ih => readable_hash s = Some ih)
      (HashList (fst (one_hash_Unmarshal []))) hashes
    /\ forall hash : bittorrent.InfoHash,
         Approved KeyStore list_Contains
           (mkList false "approval")
           [("approval"%string, ih_A)] hash
         = xorb (existsb (fun ih => String.eqb ih hash) hashes) false.
Proof.
  apply (Approved_after_build KeyStore list_BulkPut list_Contains
           one_hash_Unmarshal "approval" [] [] [("approval"%string, ih_A)]
           (mkList false "approval")).
  - exact list_storage_keeps_keys.
  - reflexivity.
  - reflexivity.
Defined.

End approval_list_witnesses.
